(** * OpenSky ETL: a shallow embedding of [a.DB_setup.py] and [b.extract.py]

    The development follows the two scripts of the repository:

    - [Py]      the Python values the scripts handle (the decoded JSON body
                of the API response) and the built-in operations the
                normaliser applies to them, with the exceptions they raise;
    - [Sql]     the two relations declared by [setup_database] and the
                statements the scripts run on them ([INSERT OR IGNORE],
                [INSERT], [UPDATE ... WHERE run_id = ?]), on a connection
                with an uncommitted working copy and a committed file;
    - [Etl]     [log_etl_run], [fetch_and_append_data] and the driver loop,
                written in a small state-and-exception monad, on an engine
                that accepts every statement it is given;
    - [Setup]   the body of [setup_database], with its [try];
    - [Fault]   the same functions on an engine that may refuse a statement
                or a commit (database locked, disk full, file that is not a
                database), keeping the open transaction or rolling it back;
                [Etl] and [Setup] are [Fault] where nothing is refused;
    - the theorems about them, and their instances on concrete inputs. *)

From Stdlib Require Import ZArith List String Ascii Bool Lia.
From Stdlib Require Import DecimalString SpecFloat.
Import ListNotations.

Set Warnings "-register-all".

Local Open Scope string_scope.
Local Open Scope Z_scope.

(** ** Exceptions *)

(** The exception classes that can occur in a cycle.  All of them derive
    from Python's [Exception]; the four [sqlite3] ones derive from
    [sqlite3.Error] as well. *)
Inductive exn_class : Type :=
| AttributeError
| TypeError
| KeyError
| IndexError
| OverflowError
| DatabaseError
| OperationalError
| IntegrityError
| ProgrammingError
| RequestError.

(** An exception value: its class and [str(e)]. *)
Record exn : Type := Exn { exn_cls : exn_class; exn_msg : string }.

Inductive result (A : Type) : Type :=
| Ok (a : A)
| Raise (e : exn).
Arguments Ok {A} a.
Arguments Raise {A} e.

Definition rbind {A B : Type} (r : result A) (k : A -> result B) : result B :=
  match r with
  | Ok a => k a
  | Raise e => Raise e
  end.

(** ** Python values *)

Module Py.

(** A decoded JSON document.  A [str] is a sequence of code points; here
    each [ascii] stands for the code point of the same number, so the model
    covers the strings whose code points are below 256.  A [float] is an
    IEEE binary64 value.  A [dict] is kept as the member list of the JSON
    object it was decoded from (see [dict_get] and [dict_keys]). *)
Inductive pyval : Type :=
| PNone
| PBool (b : bool)
| PInt (z : Z)
| PFloat (f : spec_float)
| PStr (s : string)
| PList (l : list pyval)
| PDict (kvs : list (string * pyval)).

Definition type_name (v : pyval) : string :=
  match v with
  | PNone => "NoneType"
  | PBool _ => "bool"
  | PInt _ => "int"
  | PFloat _ => "float"
  | PStr _ => "str"
  | PList _ => "list"
  | PDict _ => "dict"
  end.

(** [str(z)] for an [int]. *)
Definition str_int (z : Z) : string := NilZero.string_of_int (Z.to_int z).

(** [json.loads] keeps the last member of a repeated name ... *)
Fixpoint dict_get (k : string) (kvs : list (string * pyval)) : option pyval :=
  match kvs with
  | [] => None
  | (k', v) :: rest =>
      match dict_get k rest with
      | Some v' => Some v'
      | None => if String.eqb k' k then Some v else None
      end
  end.

(** ... and a [dict] iterates over its keys in order of first insertion. *)
Fixpoint dict_keys (kvs : list (string * pyval)) : list string :=
  match kvs with
  | [] => []
  | (k, _) :: rest =>
      k :: filter (fun k' => negb (String.eqb k' k)) (dict_keys rest)
  end.

(** [bool(v)], the test of [if v] and [not v]. *)
Definition truthy (v : pyval) : bool :=
  match v with
  | PNone => false
  | PBool b => b
  | PInt z => negb (z =? 0)
  | PFloat (S754_zero _) => false
  | PFloat _ => true
  | PStr s => negb (String.eqb s "")
  | PList l => match l with [] => false | _ => true end
  | PDict kvs => match kvs with [] => false | _ => true end
  end.

(** [len(v)]. *)
Definition len (v : pyval) : result Z :=
  match v with
  | PStr s => Ok (Z.of_nat (String.length s))
  | PList l => Ok (Z.of_nat (List.length l))
  | PDict kvs => Ok (Z.of_nat (List.length (dict_keys kvs)))
  | _ => Raise (Exn TypeError
                  ("object of type '" ++ type_name v ++ "' has no len()"))
  end.

(** [v[i]] for a literal index [i >= 0]. *)
Definition getitem (v : pyval) (i : nat) : result pyval :=
  match v with
  | PList l =>
      match nth_error l i with
      | Some x => Ok x
      | None => Raise (Exn IndexError "list index out of range")
      end
  | PStr s =>
      match String.get i s with
      | Some c => Ok (PStr (String c EmptyString))
      | None => Raise (Exn IndexError "string index out of range")
      end
  | PDict _ =>
      (* the keys of a decoded JSON object are strings: an int is never one *)
      Raise (Exn KeyError (str_int (Z.of_nat i)))
  | _ => Raise (Exn TypeError
                  ("'" ++ type_name v ++ "' object is not subscriptable"))
  end.

Fixpoint chars (s : string) : list pyval :=
  match s with
  | EmptyString => []
  | String c rest => PStr (String c EmptyString) :: chars rest
  end.

(** [iter(v)], as consumed by a [for] loop or by [map]. *)
Definition iter (v : pyval) : result (list pyval) :=
  match v with
  | PList l => Ok l
  | PStr s => Ok (chars s)
  | PDict kvs => Ok (map PStr (dict_keys kvs))
  | _ => Raise (Exn TypeError
                  ("'" ++ type_name v ++ "' object is not iterable"))
  end.

(** The characters [str.strip()] removes: [str.isspace] on code points
    below 256. *)
Definition is_space (c : ascii) : bool :=
  let n := nat_of_ascii c in
  ((9 <=? n) && (n <=? 13) || (28 <=? n) && (n <=? 32)
   || (n =? 133) || (n =? 160))%nat.

Fixpoint lstrip (s : string) : string :=
  match s with
  | EmptyString => EmptyString
  | String c rest => if is_space c then lstrip rest else s
  end.

Fixpoint rstrip (s : string) : string :=
  match s with
  | EmptyString => EmptyString
  | String c rest =>
      match rstrip rest with
      | EmptyString => if is_space c then EmptyString else String c EmptyString
      | r => String c r
      end
  end.

Definition strip (s : string) : string := rstrip (lstrip s).

(** [v.strip()]. *)
Definition strip_method (v : pyval) : result pyval :=
  match v with
  | PStr s => Ok (PStr (strip s))
  | _ => Raise (Exn AttributeError
                  ("'" ++ type_name v ++ "' object has no attribute 'strip'"))
  end.

(** [sep.join(parts)]. *)
Fixpoint join (sep : string) (parts : list string) : string :=
  match parts with
  | [] => ""
  | [p] => p
  | p :: rest => p ++ sep ++ join sep rest
  end.

Section Str.
(** [repr] of a [float], a [list] or a [dict] is the interpreter's; it is
    taken as given. *)
Variable py_repr : pyval -> string.

(** [str(v)]. *)
Definition str (v : pyval) : string :=
  match v with
  | PNone => "None"
  | PBool true => "True"
  | PBool false => "False"
  | PInt z => str_int z
  | PStr s => s
  | PFloat _ | PList _ | PDict _ => py_repr v
  end.
End Str.

(** [d.get(key, default)]. *)
Definition get_method (d : pyval) (key : string) (default : pyval)
  : result pyval :=
  match d with
  | PDict kvs =>
      match dict_get key kvs with
      | Some v => Ok v
      | None => Ok default
      end
  | _ => Raise (Exn AttributeError
                  ("'" ++ type_name d ++ "' object has no attribute 'get'"))
  end.

End Py.

(** ** The storage engine

    SQLite as the two scripts use it, through Python's [sqlite3] module:
    the schema is the one [setup_database] declares, the statements are the
    three the scripts run, and their meaning is the one documented for the
    engine (conflict clause OR IGNORE, NOT NULL, CHECK, AUTOINCREMENT,
    [sqlite3_changes]) and for the module (parameter binding, [rowcount],
    [lastrowid], the implicit transaction opened before an INSERT or an
    UPDATE and ended by [commit]). *)

Module Sql.
Import Py.

(** A stored value.  JSON has no byte strings, so no BLOB occurs. *)
Inductive sqlval : Type :=
| SNull
| SInt (z : Z)
| SReal (f : spec_float)
| SText (s : string).

(** How the [sqlite3] module adapts a Python value passed for a [?]: a [bool]
    is an [int]; an [int] must fit in 64 bits; a NaN is bound as NULL; a
    [list] or a [dict] is refused.  [pos] is the position of the parameter,
    from 1, as the message reports it. *)
Definition bind_param (pos : nat) (v : pyval) : result sqlval :=
  match v with
  | PNone => Ok SNull
  | PBool b => Ok (SInt (if b then 1 else 0))
  | PInt z =>
      if (- 2 ^ 63 <=? z) && (z <? 2 ^ 63) then Ok (SInt z)
      else Raise (Exn OverflowError
                    "Python int too large to convert to SQLite INTEGER")
  | PFloat S754_nan => Ok SNull
  | PFloat f => Ok (SReal f)
  | PStr s => Ok (SText s)
  | PList _ | PDict _ =>
      Raise (Exn ProgrammingError
               ("Error binding parameter " ++ str_int (Z.of_nat pos)
                ++ ": type '" ++ type_name v ++ "' is not supported"))
  end.

Fixpoint bind_from (pos : nat) (params : list pyval) : result (list sqlval) :=
  match params with
  | [] => Ok []
  | v :: rest =>
      rbind (bind_param pos v) (fun x =>
      rbind (bind_from (S pos) rest) (fun xs => Ok (x :: xs)))
  end.

(** Binding the parameters of one execution of a statement with [n]
    placeholders: the count is checked first, then the values in order. *)
Definition bind_params (n : nat) (params : list pyval)
  : result (list sqlval) :=
  if (List.length params =? n)%nat then bind_from 1 params
  else Raise (Exn ProgrammingError
                ("Incorrect number of bindings supplied. The current statement uses "
                 ++ str_int (Z.of_nat n) ++ ", and there are "
                 ++ str_int (Z.of_nat (List.length params)) ++ " supplied.")).

(** Column affinities: TEXT, INTEGER and REAL are declared as such;
    BOOLEAN has NUMERIC affinity. *)
Inductive affinity : Type := AffText | AffInteger | AffReal | AffNumeric.

Record column : Type :=
  Col { col_name : string; col_aff : affinity; col_notnull : bool }.

(** [CREATE TABLE opensky_data], column by column. *)
Definition opensky_columns : list column :=
  [ Col "icao24" AffText true;
    Col "callsign" AffText false;
    Col "origin_country" AffText true;
    Col "time_position" AffInteger false;
    Col "last_contact" AffInteger true;
    Col "longitude" AffReal false;
    Col "latitude" AffReal false;
    Col "baro_altitude" AffReal false;
    Col "on_ground" AffNumeric true;
    Col "velocity" AffReal false;
    Col "true_track" AffReal false;
    Col "vertical_rate" AffReal false;
    Col "sensors" AffText false;
    Col "geo_altitude" AffReal false;
    Col "squawk" AffText false;
    Col "spi" AffNumeric true;
    Col "position_source" AffInteger false;
    Col "fetch_time" AffText true ].

(** A value already in the storage class its column prefers is stored as it
    is. *)
Definition native (a : affinity) (v : sqlval) : bool :=
  match a, v with
  | _, SNull => true
  | AffText, SText _ => true
  | AffInteger, SInt _ => true
  | AffNumeric, SInt _ => true
  | AffReal, SReal _ => true
  | _, _ => false
  end.

Definition is_null (v : sqlval) : bool :=
  match v with SNull => true | _ => false end.

(** Equality of two reals.  The binary64 values [json.loads] builds are in
    canonical form, where equal numbers have the same sign, mantissa and
    exponent; the two zeros are equal. *)
Definition real_eqb (f g : spec_float) : bool :=
  match f, g with
  | S754_zero _, S754_zero _ => true
  | S754_infinity s, S754_infinity t => Bool.eqb s t
  | S754_nan, S754_nan => true
  | S754_finite s m e, S754_finite t n d =>
      Bool.eqb s t && Pos.eqb m n && Z.eqb e d
  | _, _ => false
  end.

(** Equality of an integer and a real, by exact value. *)
Definition int_real_eqb (z : Z) (f : spec_float) : bool :=
  match f with
  | S754_zero _ => z =? 0
  | S754_finite s m e =>
      let v := if s then Z.neg m else Z.pos m in
      if 0 <=? e then z =? v * 2 ^ e else z * 2 ^ (- e) =? v
  | _ => false
  end.

(** Equality of two stored values as the uniqueness check of an index sees
    it: numbers by value, whichever storage class holds them, texts
    character by character, and a NULL equal to nothing. *)
Definition sql_eqb (a b : sqlval) : bool :=
  match a, b with
  | SInt x, SInt y => x =? y
  | SReal f, SReal g => real_eqb f g
  | SInt x, SReal g => int_real_eqb x g
  | SReal f, SInt y => int_real_eqb y f
  | SText s, SText t => String.eqb s t
  | _, _ => false
  end.

(** A stored observation: one value per column of [opensky_columns]. *)
Definition row : Type := list sqlval.

(** [PRIMARY KEY (icao24, last_contact)]: columns 0 and 4. *)
Definition icao24 (r : row) : sqlval := nth 0 r SNull.
Definition last_contact (r : row) : sqlval := nth 4 r SNull.

Definition same_key (r1 r2 : row) : bool :=
  sql_eqb (icao24 r1) (icao24 r2)
  && sql_eqb (last_contact r1) (last_contact r2).

Fixpoint violates_not_null (cols : list column) (r : row) : bool :=
  match cols, r with
  | c :: cs, v :: vs =>
      (col_notnull c && is_null v) || violates_not_null cs vs
  | _, _ => false
  end.

Section Engine.
(** What the engine makes of a value that is not in the storage class of
    its column (a number offered to a TEXT column, a text or a real
    offered to an INTEGER column, ...).  The conversion is the engine's
    own and is taken as given. *)
Variable convert : affinity -> sqlval -> sqlval.

Definition cast (c : column) (v : sqlval) : sqlval :=
  if native (col_aff c) v then v else convert (col_aff c) v.

Fixpoint store_row (cols : list column) (vals : list sqlval) : row :=
  match cols, vals with
  | c :: cs, v :: vs => cast c v :: store_row cs vs
  | _, _ => []
  end.

(** One execution of [INSERT OR IGNORE INTO opensky_data ... VALUES
    (?, ..., ?)]: a row that breaks a NOT NULL constraint or repeats a
    primary key is skipped; the second component is what
    [sqlite3_changes] reports for it. *)
Definition insert_or_ignore (tbl : list row) (vals : list sqlval)
  : list row * Z :=
  let r := store_row opensky_columns vals in
  if violates_not_null opensky_columns r then (tbl, 0)
  else if existsb (same_key r) tbl then (tbl, 0)
  else ((tbl ++ [r])%list, 1).

(** The loop of [cursor.executemany]: the parameter sets are bound and
    run one after the other, [rowcount] sums the changes; a parameter set
    that cannot be bound stops the loop with what ran before it still
    done. *)
Fixpoint executemany_loop (tbl : list row) (rowcount : Z)
         (seq_of_parameters : list (list pyval)) : list row * result Z :=
  match seq_of_parameters with
  | [] => (tbl, Ok rowcount)
  | params :: rest =>
      match bind_params 18 params with
      | Raise e => (tbl, Raise e)
      | Ok vals =>
          let (tbl', changes) := insert_or_ignore tbl vals in
          executemany_loop tbl' (rowcount + changes) rest
      end
  end.
End Engine.

(** A run-log entry: one row of [etl_log]. *)
Record log_row : Type :=
  LogRow { run_id : Z;
           start_time : string;
           end_time : option string;
           records_processed : option Z;
           status : string;
           error_message : option string }.

(** [CHECK(status IN ('Running', 'Success', 'Failure'))]. *)
Definition status_check (s : string) : bool :=
  String.eqb s "Running" || String.eqb s "Success" || String.eqb s "Failure".

(** What the engine raises when the CHECK fails: the constraint has no
    name, so the message carries its expression. *)
Definition check_failed : exn :=
  Exn IntegrityError
      "CHECK constraint failed: status IN ('Running', 'Success', 'Failure')".

(** The content of the database file: each relation once it has been
    created, and the counter AUTOINCREMENT keeps for [etl_log].  A relation
    that exists has the schema [setup_database] declares; a file that holds
    a relation of one of these names with another schema is not described,
    and a file that is not a database is described by what the engine
    answers on it ([Fault]). *)
Record database : Type :=
  Db { opensky_data : option (list row);
       etl_log : option (list log_row);
       etl_seq : Z }.

Definition empty_database : database := Db None None 0.

Definition no_such_table {A : Type} (name : string) : result A :=
  Raise (Exn OperationalError ("no such table: " ++ name)).

(** The identifier AUTOINCREMENT gives the next row: one more than the
    largest ever used, the first one being 1.  This is the engine's answer
    while the counter is not negative and below 2^63 - 1, its largest
    identifier ([Cover.counter_in_range]); at 2^63 - 1 the engine refuses
    the INSERT. *)
Definition next_run_id (seq : Z) (log : list log_row) : Z :=
  fold_right (fun r acc => Z.max (run_id r) acc) (Z.max seq 0) log + 1.

(** [INSERT INTO etl_log (start_time, status) VALUES (?, ?)]; the result
    carries [cursor.lastrowid]. *)
Definition insert_log (db : database) (now_time st : string)
  : result (database * Z) :=
  match etl_log db with
  | None => no_such_table "etl_log"
  | Some log =>
      if status_check st then
        let id := next_run_id (etl_seq db) log in
        Ok (Db (opensky_data db)
               (Some (log ++ [LogRow id now_time None None st None])%list)
               id,
            id)
      else Raise check_failed
  end.

Definition update_row (now_time : string) (records : Z) (st : string)
           (error_msg : option string) (id : Z) (r : log_row) : log_row :=
  if run_id r =? id
  then LogRow (run_id r) (start_time r)
              (Some now_time) (Some records) st error_msg
  else r.

(** [UPDATE etl_log SET end_time = ?, records_processed = ?, status = ?,
    error_message = ? WHERE run_id = ?], on an engine that accepts the
    statement: it raises for a missing relation or a status the CHECK
    refuses, not for a locked or full database ([Fault]). *)
Definition update_log (db : database) (now_time : string) (records : Z)
           (st : string) (error_msg : option string) (id : Z)
  : result database :=
  match etl_log db with
  | None => no_such_table "etl_log"
  | Some log =>
      if existsb (fun r => run_id r =? id) log && negb (status_check st)
      then Raise check_failed
      else Ok (Db (opensky_data db)
                  (Some (map (update_row now_time records st error_msg id) log))
                  (etl_seq db))
  end.

(** [setup_database]: both relations are created unless they exist, and
    the change is committed.  The two secondary indexes it also creates
    change no result of the statements above. *)
Definition setup_database (disk : database) : database :=
  Db (match opensky_data disk with Some t => Some t | None => Some [] end)
     (match etl_log disk with Some l => Some l | None => Some [] end)
     (etl_seq disk).

End Sql.

(** ** The ETL scripts *)

Module Etl.
Import Py Sql.

Inductive level : Type := INFO | WARNING | ERROR.

(** What a run leaves outside the database: the messages handed to
    [logging] and the calls to [time.sleep]. *)
Inductive event : Type :=
| Logged (lv : level) (msg : string)
| Slept (seconds : Z).

Record world : Type := World { disk : database; out : list event }.

(** What one cycle receives from outside: whether [sqlite3.connect]
    succeeds; the outcome of lines 47-50 ([requests.get], then
    [raise_for_status], then [response.json()]), an exception or the decoded
    body; and the three readings of the clock. *)
Record cycle_env : Type :=
  Env { connect_error : option exn;
        response : result pyval;
        now_start : string;
        utcnow_fetch : string;
        now_end : string }.

(** The state a cycle runs in: the local variables [conn] and [run_id] of
    [fetch_and_append_data] (read again by its [except] and [finally]
    clauses), the database file and the output.  An open connection is its
    working copy of the database; [commit] copies it to the file, and a
    connection closed or dropped without it leaves the file as it was. *)
Record frame : Type :=
  Frame { f_conn : option database;
          f_run_id : option Z;
          f_disk : database;
          f_out : list event }.

Definition M (A : Type) : Type := frame -> result A * frame.

Definition ret {A : Type} (a : A) : M A := fun s => (Ok a, s).

Definition raise {A : Type} (e : exn) : M A := fun s => (Raise e, s).

Definition bind {A B : Type} (m : M A) (k : A -> M B) : M B :=
  fun s =>
    match m s with
    | (Ok a, s') => k a s'
    | (Raise e, s') => (Raise e, s')
    end.

Notation "x <- m ;; k" := (bind m (fun x => k))
  (at level 61, m at next level, right associativity).
Notation "m ;; k" := (bind m (fun _ => k))
  (at level 61, right associativity).

Definition lift {A : Type} (r : result A) : M A := fun s => (r, s).

(** [try: body / except Exception as e: handler e / finally: final]. *)
Definition try_except_finally {A : Type}
           (body : M A) (handler : exn -> M A) (final : M unit) : M A :=
  fun s =>
    let (r, s1) :=
      match body s with
      | (Ok a, s') => (Ok a, s')
      | (Raise e, s') => handler e s'
      end in
    match final s1 with
    | (Ok _, s2) => (r, s2)
    | (Raise e, s2) => (Raise e, s2)
    end.

Definition logging (lv : level) (msg : string) : M unit :=
  fun s => (Ok tt,
            Frame (f_conn s) (f_run_id s) (f_disk s)
                  (f_out s ++ [Logged lv msg])%list).

Definition set_conn (c : option database) : M unit :=
  fun s => (Ok tt, Frame c (f_run_id s) (f_disk s) (f_out s)).

Definition set_run_id (r : option Z) : M unit :=
  fun s => (Ok tt, Frame (f_conn s) r (f_disk s) (f_out s)).

(** The working copy of the open connection. *)
Definition view : M database :=
  fun s =>
    match f_conn s with
    | Some db => (Ok db, s)
    | None => (Raise (Exn ProgrammingError
                        "Cannot operate on a closed database."), s)
    end.

(** [sqlite3.connect(DB_NAME)]. *)
Definition connect (env : cycle_env) : M unit :=
  fun s =>
    match connect_error env with
    | Some e => (Raise e, s)
    | None => set_conn (Some (f_disk s)) s
    end.

(** [conn.commit()], accepted by the engine ([Fault] has the commit that
    is refused). *)
Definition commit : M unit :=
  db <- view ;;
  fun s => (Ok tt, Frame (f_conn s) (f_run_id s) db (f_out s)).

(** [conn.close()]: what was not committed is lost. *)
Definition close : M unit := set_conn None.

(** [str(v)] where [v] is an [int] or [None]. *)
Definition str_opt (v : option Z) : string :=
  match v with
  | Some z => str_int z
  | None => "None"
  end.

(** [log_etl_run(conn, status, records, error_msg, run_id)], with the value
    [datetime.now().isoformat()] takes in it passed as [now_time].  The
    result is the value the call returns: [cursor.lastrowid] from the
    branch that inserts, [None] from the branch that updates. *)
Definition log_etl_run (now_time : string) (status : string) (records : Z)
           (error_msg : option string) (run_id : option Z) : M (option Z) :=
  db <- view ;;
  match run_id with
  | Some id =>
      if id =? 0 then
        p <- lift (insert_log db now_time status) ;;
        set_conn (Some (fst p)) ;;
        ret (Some (snd p))
      else
        db' <- lift (update_log db now_time records status error_msg id) ;;
        set_conn (Some db') ;;
        commit ;;
        ret None
  | None =>
      p <- lift (insert_log db now_time status) ;;
      set_conn (Some (fst p)) ;;
      ret (Some (snd p))
  end.

(** [state[1].strip() if state[1] else None]. *)
Definition callsign_of (v : pyval) : result pyval :=
  if truthy v then strip_method v else Ok PNone.

Section Cycle.
Variable convert : affinity -> sqlval -> sqlval.
Variable py_repr : pyval -> string.

(** [",".join(map(str, state[12])) if state[12] else None]. *)
Definition sensors_of (v : pyval) : result pyval :=
  if truthy v
  then rbind (iter v)
             (fun xs => Ok (PStr (join "," (map (str py_repr) xs))))
  else Ok PNone.

(** The [i]-th component of the tuple built at lines 64-69. *)
Definition field (state : pyval) (fetch_time : string) (i : nat)
  : result pyval :=
  match i with
  | 1%nat => rbind (getitem state 1) callsign_of
  | 12%nat => rbind (getitem state 12) sensors_of
  | 17%nat => Ok (PStr fetch_time)
  | _ => getitem state i
  end.

Fixpoint fields (state : pyval) (fetch_time : string) (ixs : list nat)
  : result (list pyval) :=
  match ixs with
  | [] => Ok []
  | i :: rest =>
      rbind (field state fetch_time i) (fun x =>
      rbind (fields state fetch_time rest) (fun xs => Ok (x :: xs)))
  end.

(** The tuple of lines 64-69, its components evaluated from left to
    right. *)
Definition record_of (state : pyval) (fetch_time : string)
  : result (list pyval) :=
  fields state fetch_time (seq 0 18).

(** The loop of lines 62-70; the result is [records_to_insert]. *)
Fixpoint normalize (states : list pyval) (fetch_time : string)
  : result (list (list pyval)) :=
  match states with
  | [] => Ok []
  | state :: rest =>
      rbind (len state) (fun n =>
      if 17 <=? n then
        rbind (record_of state fetch_time) (fun record =>
        rbind (normalize rest fetch_time) (fun records =>
        Ok (record :: records)))
      else normalize rest fetch_time)
  end.

(** [cursor.executemany(insert_query, records_to_insert)]; the result is
    [cursor.rowcount]. *)
Definition executemany (records_to_insert : list (list pyval)) : M Z :=
  db <- view ;;
  match opensky_data db with
  | None => lift (no_such_table "opensky_data")
  | Some tbl =>
      let (tbl', r) := executemany_loop convert tbl 0 records_to_insert in
      set_conn (Some (Db (Some tbl') (etl_log db) (etl_seq db))) ;;
      lift r
  end.

(** Lines 41-46: the connection is opened and the run is logged as
    started. *)
Definition begin_cycle (env : cycle_env) : M (option Z) :=
  connect env ;;
  run_id <- log_etl_run (now_start env) "Running" 0 None None ;;
  set_run_id run_id ;;
  logging INFO ("Starting ETL Cycle (Run ID: " ++ str_opt run_id ++ ")...") ;;
  ret run_id.

(** Lines 81-84: the bulk insert and its commit; the result is
    [records_inserted]. *)
Definition insert_and_commit (records_to_insert : list (list pyval)) : M Z :=
  records_inserted <- executemany records_to_insert ;;
  commit ;;
  ret records_inserted.

(** Lines 72-90: the load, and the run logged as a success. *)
Definition load (env : cycle_env) (run_id : option Z)
           (records_to_insert : list (list pyval)) : M unit :=
  match records_to_insert with
  | _ :: _ =>
      records_inserted <- insert_and_commit records_to_insert ;;
      logging INFO ("Inserted " ++ str_int records_inserted
                    ++ " new records.") ;;
      log_etl_run (now_end env) "Success" records_inserted None run_id ;;
      ret tt
  | [] =>
      logging INFO "No valid records to insert for this cycle." ;;
      log_etl_run (now_end env) "Success" 0 None run_id ;;
      ret tt
  end.

(** Lines 47-90: fetch, normalise, load. *)
Definition extract_and_load (env : cycle_env) (run_id : option Z) : M unit :=
  data <- lift (response env) ;;
  states <- lift (get_method data "states" (PList [])) ;;
  if negb (truthy states) then
    logging WARNING "No flight data received in this cycle." ;;
    log_etl_run (now_end env) "Success" 0 None run_id ;;
    ret tt
  else
    items <- lift (iter states) ;;
    records_to_insert <- lift (normalize items (utcnow_fetch env)) ;;
    load env run_id records_to_insert.

(** Lines 41-90, the body of the [try]. *)
Definition try_body (env : cycle_env) : M unit :=
  run_id <- begin_cycle env ;;
  extract_and_load env run_id.

(** [if run_id:] on an [int] or [None]. *)
Definition run_id_set (run_id : option Z) : bool :=
  match run_id with
  | Some id => negb (id =? 0)
  | None => false
  end.

(** Lines 92-97, the [except Exception as e] clause. *)
Definition on_exception (env : cycle_env) (e : exn) : M unit :=
  let error_message := exn_msg e in
  logging ERROR ("ETL cycle failed: " ++ error_message) ;;
  fun s =>
    match f_conn s with
    | Some _ =>
        if run_id_set (f_run_id s) then
          (log_etl_run (now_end env) "Failure" 0 (Some error_message)
                       (f_run_id s) ;;
           ret tt) s
        else (Ok tt, s)
    | None => (Ok tt, s)
    end.

(** Lines 99-101, the [finally] clause. *)
Definition finally_close : M unit :=
  fun s =>
    match f_conn s with
    | Some _ => close s
    | None => (Ok tt, s)
    end.

(** One call of [fetch_and_append_data()]: [conn] and [run_id] start as
    [None]; an exception in the result is one that leaves the call. *)
Definition fetch_and_append_data (env : cycle_env) (w : world)
  : result unit * world :=
  let (r, s) :=
    try_except_finally (try_body env) (on_exception env) finally_close
                       (Frame None None (disk w) (out w)) in
  (r, World (f_disk s) (f_out s)).

Definition FETCH_INTERVAL_SECONDS : Z := 600.

Definition emit (ev : event) (w : world) : world :=
  World (disk w) (out w ++ [ev])%list.

Definition newline : string := String (ascii_of_nat 10) EmptyString.

(** Line 111. *)
Definition cycle_banner (num_cycles i : nat) : event :=
  Logged INFO ("--- Cycle " ++ str_int (Z.of_nat i + 1) ++ " of "
               ++ str_int (Z.of_nat num_cycles) ++ " ---").

(** Lines 115-117: no sleep after the last cycle. *)
Definition wait_next (num_cycles i : nat) (w : world) : world :=
  if Z.of_nat i <? Z.of_nat num_cycles - 1 then
    emit (Slept FETCH_INTERVAL_SECONDS)
         (emit (Logged INFO ("Cycle complete. Waiting "
                             ++ str_int FETCH_INTERVAL_SECONDS
                             ++ " seconds..." ++ newline)) w)
  else w.

(** The [for i in range(num_cycles)] loop of the driver, over the values
    of [i] still to come; [envs i] is what cycle [i] receives.  An
    exception that leaves [fetch_and_append_data] ends the loop. *)
Fixpoint driver_loop (num_cycles : nat) (ixs : list nat)
         (envs : nat -> cycle_env) (w : world) : result unit * world :=
  match ixs with
  | [] => (Ok tt, w)
  | i :: rest =>
      match fetch_and_append_data (envs i)
                                  (emit (cycle_banner num_cycles i) w) with
      | (Raise e, w2) => (Raise e, w2)
      | (Ok _, w2) =>
          driver_loop num_cycles rest envs (wait_next num_cycles i w2)
      end
  end.

(** The driver for a given number of cycles. *)
Definition run_job (num_cycles : nat) (envs : nat -> cycle_env) (w : world)
  : result unit * world :=
  let w0 := emit (Logged INFO
                    ("Starting OpenSky ETL job for "
                     ++ str_int (Z.of_nat num_cycles)
                     ++ " cycles (24 hours)...")) w in
  match driver_loop num_cycles (seq 0 num_cycles) envs w0 with
  | (Ok _, w1) => (Ok tt, emit (Logged INFO "ETL session complete.") w1)
  | (Raise e, w1) => (Raise e, w1)
  end.

(** The script run as a program: 144 cycles. *)
Definition main : (nat -> cycle_env) -> world -> result unit * world :=
  run_job 144.
End Cycle.

End Etl.

(** ** Vocabulary of the statements *)

Module Inv.
Import Py Sql Etl.

(** No two rows of the relation carry the same primary key. *)
Fixpoint pk_unique (tbl : list row) : Prop :=
  match tbl with
  | [] => True
  | r :: rest => existsb (same_key r) rest = false /\ pk_unique rest
  end.

(** The values the binding of a parameter accepts. *)
Definition supported (v : pyval) : bool :=
  match v with
  | PList _ | PDict _ => false
  | PInt z => (- 2 ^ 63 <=? z) && (z <? 2 ^ 63)
  | _ => true
  end.

(** A record every parameter of [insert_query] can be bound from. *)
Definition bindable (record : list pyval) : bool :=
  (List.length record =? 18)%nat && forallb supported record.

(** [r] is the stored form of one of the records. *)
Definition stored_from (convert : affinity -> sqlval -> sqlval)
           (records : list (list pyval)) (r : row) : Prop :=
  exists params vals,
    In params records
    /\ bind_params 18 params = Ok vals
    /\ r = store_row convert opensky_columns vals.

(** The rows of a relation, none when it has not been created. *)
Definition rows {A : Type} (t : option (list A)) : list A :=
  match t with
  | Some l => l
  | None => []
  end.

(** A run-log entry in one of its two final states. *)
Definition terminal (r : log_row) : Prop :=
  status r = "Success" \/ status r = "Failure".

(** The entry of a run as [begin_run] writes it, and as [end_run] leaves
    it. *)
Definition running_row (id : Z) (started : string) : log_row :=
  LogRow id started None None "Running" None.

Definition closed_row (id : Z) (started ended : string) (records : Z)
           (st : string) (error_msg : option string) : log_row :=
  LogRow id started (Some ended) (Some records) st error_msg.

(** One pass of the driver's loop in which the cycle returns: the banner,
    the cycle, the wait. *)
Definition iteration (convert : affinity -> sqlval -> sqlval)
           (py_repr : pyval -> string) (num_cycles : nat)
           (envs : nat -> cycle_env) (w : world) (i : nat) : world :=
  wait_next num_cycles i
            (snd (fetch_and_append_data convert py_repr (envs i)
                                        (emit (cycle_banner num_cycles i) w))).

(** The state in which [fetch_and_append_data] starts. *)
Definition entry (w : world) : frame := Frame None None (disk w) (out w).

(** The state of a cycle whose run has been opened: the working copy
    holds the observations [d] and the run's row, nothing of it is
    committed yet. *)
Definition opened (d : option (list row)) (log : list log_row) (id : Z)
           (t0 : string) (dk : database) (o : list event) : frame :=
  Frame (Some (Db d (Some (log ++ [running_row id t0])%list) id))
        (Some id) dk o.

(** The state of a cycle whose run has been closed and committed. *)
Definition settled (d : option (list row)) (log : list log_row) (id : Z)
           (t0 t2 : string) (n : Z) (st : string) (err : option string)
           (o : list event) : frame :=
  let db := Db d (Some (log ++ [closed_row id t0 t2 n st err])%list) id in
  Frame (Some db) (Some id) db o.

Definition grow (added : list row) (d : option (list row))
  : option (list row) :=
  match d with
  | Some tbl => Some (tbl ++ added)%list
  | None => None
  end.

End Inv.

(** ** Concrete inputs *)

Module Sample.
Import Py Sql Etl Inv.

(** The tuple of the end-to-end scenario.  Its floats are the binary64
    values nearest to 10.1, 20.2, 3000.0, 250.0, 90.0, 0.0 and 3100.0. *)
Definition scenario_state : pyval :=
  PList [ PStr "abc123"; PStr "UAL123 "; PStr "United States";
          PInt 1690000000; PInt 1690000005;
          PFloat (S754_finite false 5685794529555251 (-49));
          PFloat (S754_finite false 5685794529555251 (-48));
          PFloat (S754_finite false 6597069766656000 (-41));
          PBool false;
          PFloat (S754_finite false 8796093022208000 (-45));
          PFloat (S754_finite false 6333186975989760 (-46));
          PFloat (S754_zero false);
          PList [PInt 1; PInt 2];
          PFloat (S754_finite false 6816972092211200 (-41));
          PStr "1200"; PBool false; PInt 0; PNone ].

(** [{"states": [scenario_state]}]. *)
Definition scenario_response : pyval :=
  PDict [("states", PList [scenario_state])].

(** The row the scenario stores, given the fetch time. *)
Definition scenario_row (fetch_time : string) : row :=
  [ SText "abc123"; SText "UAL123"; SText "United States";
    SInt 1690000000; SInt 1690000005;
    SReal (S754_finite false 5685794529555251 (-49));
    SReal (S754_finite false 5685794529555251 (-48));
    SReal (S754_finite false 6597069766656000 (-41));
    SInt 0;
    SReal (S754_finite false 8796093022208000 (-45));
    SReal (S754_finite false 6333186975989760 (-46));
    SReal (S754_zero false);
    SText "1,2";
    SReal (S754_finite false 6816972092211200 (-41));
    SText "1200"; SInt 0; SInt 0; SText fetch_time ].

(** A database on which [setup_database] has run and nothing else. *)
Definition fresh_world : world := World (setup_database empty_database) [].

(** The same tuple with a callsign of three spaces. *)
Definition blank_callsign_state : pyval :=
  match scenario_state with
  | PList (icao :: _ :: rest) => PList (icao :: PStr "   " :: rest)
  | v => v
  end.

(** The same tuple, one second later, with a list for origin country. *)
Definition unbindable_state : pyval :=
  match scenario_state with
  | PList (icao :: callsign :: _ :: position :: _ :: rest) =>
      PList (icao :: callsign :: PList [PStr "US"] :: position
                  :: PInt 1690000006 :: rest)
  | v => v
  end.

(** A tuple of three fields. *)
Definition short_state : pyval := PList [PStr "abc123"; PNone; PStr "X"].

(** An engine that keeps a value it would convert, and an interpreter
    whose [repr] is [<?>]: neither is reached on the inputs above. *)
Definition keep (a : affinity) (v : sqlval) : sqlval := v.
Definition opaque_repr (v : pyval) : string := "<?>".

Definition cycle_with (r : result pyval) : cycle_env :=
  Env None r "2023-07-22T04:26:40" "2023-07-22T04:26:41" "2023-07-22T04:26:42".

Definition timed_out : exn := Exn RequestError "Read timed out.".

(** A response that carries the scenario's tuple twice and a short one. *)
Definition repeated_response : pyval :=
  PDict [("states", PList [scenario_state; short_state; scenario_state])].

(** The batch that response normalises to: the scenario's tuple, twice. *)
Definition repeated_records : list (list pyval) :=
  match normalize opaque_repr [scenario_state; scenario_state]
                  "2023-07-22T04:26:41" with
  | Ok records => records
  | Raise _ => []
  end.

(** The batch the scenario's response normalises to. *)
Definition scenario_records : list (list pyval) :=
  match normalize opaque_repr [scenario_state] "2023-07-22T04:26:41" with
  | Ok records => records
  | Raise _ => []
  end.

(** The state of the scenario's cycle after line 46, and after line 82. *)
Definition after_begin : frame :=
  snd (begin_cycle (cycle_with (Ok scenario_response)) (entry fresh_world)).

Definition after_load_commit : frame :=
  snd (insert_and_commit keep scenario_records after_begin).

(** A connection on a database whose run 1 was closed as a success with 5
    records. *)
Definition closed_run : log_row :=
  closed_row 1 "2023-07-22T04:26:40" "2023-07-22T04:26:42" 5 "Success" None.

Definition closed_frame : frame :=
  let db := Db (Some []) (Some [closed_run]) 1 in
  Frame (Some db) (Some 1) db [].

End Sample.

(** ** The provisioning script *)

Module Setup.
Import Py Sql Etl.

(** The classes [except sqlite3.Error] catches. *)
Definition is_sqlite_error (c : exn_class) : bool :=
  match c with
  | DatabaseError | OperationalError | IntegrityError | ProgrammingError =>
      true
  | _ => false
  end.

(** [CREATE TABLE IF NOT EXISTS opensky_data (...)]. *)
Definition create_opensky_data (db : database) : result database :=
  Ok (Db (match opensky_data db with Some t => Some t | None => Some [] end)
         (etl_log db) (etl_seq db)).

(** [CREATE INDEX IF NOT EXISTS ... ON opensky_data (...)]: an index changes
    no result of the statements modelled, but it needs its table. *)
Definition create_index (db : database) : result database :=
  match opensky_data db with
  | Some _ => Ok db
  | None => Raise (Exn OperationalError "no such table: main.opensky_data")
  end.

(** [CREATE TABLE IF NOT EXISTS etl_log (...)]. *)
Definition create_etl_log (db : database) : result database :=
  Ok (Db (opensky_data db)
         (match etl_log db with Some l => Some l | None => Some [] end)
         (etl_seq db)).

(** [cursor.execute] of a schema statement the engine accepts
    ([Fault.setup_database] has the statement that is refused).  The module
    opens no transaction for it, and none is open in this script, so the
    statement is durable as soon as it has run. *)
Definition execute_ddl (stmt : database -> result database) : M unit :=
  db <- view ;;
  db' <- lift (stmt db) ;;
  set_conn (Some db') ;;
  commit.

(** [sqlite3.connect(db_name)]. *)
Definition open_database (connect_error : option exn) : M unit :=
  fun s =>
    match connect_error with
    | Some e => (Raise e, s)
    | None => set_conn (Some (f_disk s)) s
    end.

(** Lines 52-65, the body of the [try]. *)
Definition setup_body (connect_error : option exn) (db_name : string)
  : M unit :=
  logging INFO ("Connecting to database '" ++ db_name ++ "'...") ;;
  open_database connect_error ;;
  execute_ddl create_opensky_data ;;
  execute_ddl create_index ;;
  execute_ddl create_index ;;
  execute_ddl create_etl_log ;;
  commit ;;
  logging INFO "Database setup successful. All tables and indexes are ready.".

(** Lines 66-67, [except sqlite3.Error as e]: any other exception goes
    on. *)
Definition setup_except (e : exn) : M unit :=
  if is_sqlite_error (exn_cls e)
  then logging ERROR ("Database setup error: " ++ exn_msg e)
  else raise e.

(** Lines 68-71, the [finally] clause. *)
Definition setup_finally : M unit :=
  fun s =>
    match f_conn s with
    | Some _ => (close ;; logging INFO "Database connection closed.") s
    | None => (Ok tt, s)
    end.

(** One call of [setup_database(db_name)]. *)
Definition setup_database (connect_error : option exn) (db_name : string)
           (w : world) : result unit * world :=
  let (r, s) :=
    try_except_finally (setup_body connect_error db_name) setup_except
                       setup_finally
                       (Frame None None (disk w) (out w)) in
  (r, World (f_disk s) (f_out s)).

End Setup.

(** ** The scripts on an engine that may refuse

    [sqlite3] raises from [execute], [executemany] and [commit] when the
    engine cannot do what it is asked: the database is locked by another
    connection, the disk is full or fails, the file is not a database
    ([OperationalError], [DatabaseError]).  The functions below are those
    of [Etl] and [Setup] with each call that reaches the engine preceded by
    what the engine answers there.  A call that is refused raises; the
    engine undoes the statement it was working on and, where that is not
    enough, rolls the open transaction back. *)

Module Fault.
Import Py Sql Etl.

(** A refusal: the exception [sqlite3] raises, and whether the engine
    rolled the open transaction back. *)
Record refusal : Type := Refusal { raised : exn; transaction_lost : bool }.

(** What the engine answers to the calls of one cycle that reach it, by
    call site: its refusal there, if any.  At most one of the lines 56, 86
    and 90 runs in a cycle, so they share their answers.  The INSERT of
    the run is also refused when the counter of the run log has reached
    the largest identifier.  A refusal of [executemany] comes with the
    number of records the statement has been run for by then. *)
Record storage : Type :=
  Storage { begin_execute : option refusal;   (* line 19, from line 45 *)
            load_execute : option (nat * refusal);  (* line 81 *)
            load_commit : option refusal;     (* line 82 *)
            end_execute : option refusal;     (* line 26, from 56, 86, 90 *)
            end_commit : option refusal;      (* line 30, from 56, 86, 90 *)
            failure_execute : option refusal; (* line 26, from line 97 *)
            failure_commit : option refusal   (* line 30, from line 97 *) }.

(** The engine that accepts every call. *)
Definition sound : storage := Storage None None None None None None None.

(** The frame a refusal leaves: as it was or, the transaction rolled
    back, with the working copy back to the content of the file. *)
Definition after_refusal (x : refusal) (s : frame) : frame :=
  if transaction_lost x then
    Frame (match f_conn s with
           | Some _ => Some (f_disk s)
           | None => None
           end)
          (f_run_id s) (f_disk s) (f_out s)
  else s.

(** The engine's answer to a call: the call goes on unless it is
    refused. *)
Definition refused (answer : option refusal) : M unit :=
  match answer with
  | Some x => fun s => (Raise (raised x), after_refusal x s)
  | None => ret tt
  end.

(** The answer to a call made while no transaction is open. *)
Definition declined (answer : option exn) : M unit :=
  match answer with
  | Some e => raise e
  | None => ret tt
  end.

(** [log_etl_run(conn, status, records, error_msg, run_id)], as
    [Etl.log_etl_run], given the engine's answers to its [cursor.execute]
    and to its [conn.commit()].  A refused statement does nothing of what
    it was to do. *)
Definition log_etl_run (execute_answer commit_answer : option refusal)
           (now_time : string) (status : string) (records : Z)
           (error_msg : option string) (run_id : option Z) : M (option Z) :=
  db <- view ;;
  refused execute_answer ;;
  match run_id with
  | Some id =>
      if id =? 0 then
        p <- lift (insert_log db now_time status) ;;
        set_conn (Some (fst p)) ;;
        ret (Some (snd p))
      else
        db' <- lift (update_log db now_time records status error_msg id) ;;
        set_conn (Some db') ;;
        refused commit_answer ;;
        commit ;;
        ret None
  | None =>
      p <- lift (insert_log db now_time status) ;;
      set_conn (Some (fst p)) ;;
      ret (Some (snd p))
  end.

Section Cycle.
Variable convert : affinity -> sqlval -> sqlval.
Variable py_repr : pyval -> string.
Variable st : storage.

(** Lines 41-46. *)
Definition begin_cycle (env : cycle_env) : M (option Z) :=
  connect env ;;
  run_id <- log_etl_run (begin_execute st) None
                        (now_start env) "Running" 0 None None ;;
  set_run_id run_id ;;
  logging INFO ("Starting ETL Cycle (Run ID: " ++ str_opt run_id ++ ")...") ;;
  ret run_id.

(** Lines 81-84.  The rows inserted before a refusal of [executemany]
    stay in the working copy, as they do before a record that cannot be
    bound. *)
Definition insert_and_commit (records_to_insert : list (list pyval)) : M Z :=
  records_inserted <-
    match load_execute st with
    | Some (k, x) =>
        executemany convert (firstn k records_to_insert) ;;
        refused (Some x) ;;
        ret 0
    | None => executemany convert records_to_insert
    end ;;
  refused (load_commit st) ;;
  commit ;;
  ret records_inserted.

(** Lines 72-90. *)
Definition load (env : cycle_env) (run_id : option Z)
           (records_to_insert : list (list pyval)) : M unit :=
  match records_to_insert with
  | _ :: _ =>
      records_inserted <- insert_and_commit records_to_insert ;;
      logging INFO ("Inserted " ++ str_int records_inserted
                    ++ " new records.") ;;
      log_etl_run (end_execute st) (end_commit st)
                  (now_end env) "Success" records_inserted None run_id ;;
      ret tt
  | [] =>
      logging INFO "No valid records to insert for this cycle." ;;
      log_etl_run (end_execute st) (end_commit st)
                  (now_end env) "Success" 0 None run_id ;;
      ret tt
  end.

(** Lines 47-90. *)
Definition extract_and_load (env : cycle_env) (run_id : option Z) : M unit :=
  data <- lift (response env) ;;
  states <- lift (get_method data "states" (PList [])) ;;
  if negb (truthy states) then
    logging WARNING "No flight data received in this cycle." ;;
    log_etl_run (end_execute st) (end_commit st)
                (now_end env) "Success" 0 None run_id ;;
    ret tt
  else
    items <- lift (iter states) ;;
    records_to_insert <- lift (normalize py_repr items (utcnow_fetch env)) ;;
    load env run_id records_to_insert.

(** Lines 41-90, the body of the [try]. *)
Definition try_body (env : cycle_env) : M unit :=
  run_id <- begin_cycle env ;;
  extract_and_load env run_id.

(** Lines 92-97, the [except Exception as e] clause.  The call of line 97
    is in no [try] of its own: what it raises leaves the function. *)
Definition on_exception (env : cycle_env) (e : exn) : M unit :=
  let error_message := exn_msg e in
  logging ERROR ("ETL cycle failed: " ++ error_message) ;;
  fun s =>
    match f_conn s with
    | Some _ =>
        if run_id_set (f_run_id s) then
          (log_etl_run (failure_execute st) (failure_commit st)
                       (now_end env) "Failure" 0 (Some error_message)
                       (f_run_id s) ;;
           ret tt) s
        else (Ok tt, s)
    | None => (Ok tt, s)
    end.

(** One call of [fetch_and_append_data()]. *)
Definition fetch_and_append_data (env : cycle_env) (w : world)
  : result unit * world :=
  let (r, s) :=
    try_except_finally (try_body env) (on_exception env) finally_close
                       (Frame None None (disk w) (out w)) in
  (r, World (f_disk s) (f_out s)).
End Cycle.

Section Driver.
Variable convert : affinity -> sqlval -> sqlval.
Variable py_repr : pyval -> string.

(** The loop of lines 110-117; [stores i] is what the engine answers
    during cycle [i].  The call of line 112 is in no [try]: an exception
    that leaves it ends the loop, and the program. *)
Fixpoint driver_loop (num_cycles : nat) (ixs : list nat)
         (envs : nat -> cycle_env) (stores : nat -> storage) (w : world)
  : result unit * world :=
  match ixs with
  | [] => (Ok tt, w)
  | i :: rest =>
      match fetch_and_append_data convert py_repr (stores i) (envs i)
                                  (emit (cycle_banner num_cycles i) w) with
      | (Raise e, w2) => (Raise e, w2)
      | (Ok _, w2) =>
          driver_loop num_cycles rest envs stores (wait_next num_cycles i w2)
      end
  end.

(** The driver for a given number of cycles. *)
Definition run_job (num_cycles : nat) (envs : nat -> cycle_env)
           (stores : nat -> storage) (w : world) : result unit * world :=
  let w0 := emit (Logged INFO
                    ("Starting OpenSky ETL job for "
                     ++ str_int (Z.of_nat num_cycles)
                     ++ " cycles (24 hours)...")) w in
  match driver_loop num_cycles (seq 0 num_cycles) envs stores w0 with
  | (Ok _, w1) => (Ok tt, emit (Logged INFO "ETL session complete.") w1)
  | (Raise e, w1) => (Raise e, w1)
  end.

(** One pass of the loop, for a cycle that returns. *)
Definition iteration (num_cycles : nat) (envs : nat -> cycle_env)
           (stores : nat -> storage) (w : world) (i : nat) : world :=
  wait_next num_cycles i
            (snd (fetch_and_append_data convert py_repr (stores i) (envs i)
                                        (emit (cycle_banner num_cycles i) w))).
End Driver.

(** What the engine answers to the five calls of [setup_database] that
    reach it: a statement is refused on a file that is not a database, or
    when a relation that exists lacks the column an index names.  The
    script opens no transaction, so none is lost. *)
Record setup_storage : Type :=
  SetupStorage { table_execute : option exn;          (* line 57 *)
                 country_index_execute : option exn;  (* line 58 *)
                 time_index_execute : option exn;     (* line 59 *)
                 log_table_execute : option exn;      (* line 62 *)
                 setup_commit : option exn            (* line 64 *) }.

Definition sound_setup : setup_storage :=
  SetupStorage None None None None None.

(** Lines 52-65, the body of the [try]. *)
Definition setup_body (answers : setup_storage) (connect_error : option exn)
           (db_name : string) : M unit :=
  logging INFO ("Connecting to database '" ++ db_name ++ "'...") ;;
  Setup.open_database connect_error ;;
  declined (table_execute answers) ;;
  Setup.execute_ddl Setup.create_opensky_data ;;
  declined (country_index_execute answers) ;;
  Setup.execute_ddl Setup.create_index ;;
  declined (time_index_execute answers) ;;
  Setup.execute_ddl Setup.create_index ;;
  declined (log_table_execute answers) ;;
  Setup.execute_ddl Setup.create_etl_log ;;
  declined (setup_commit answers) ;;
  commit ;;
  logging INFO "Database setup successful. All tables and indexes are ready.".

(** One call of [setup_database(db_name)]. *)
Definition setup_database (answers : setup_storage)
           (connect_error : option exn) (db_name : string) (w : world)
  : result unit * world :=
  let (r, s) :=
    try_except_finally (setup_body answers connect_error db_name)
                       Setup.setup_except Setup.setup_finally
                       (Frame None None (disk w) (out w)) in
  (r, World (f_disk s) (f_out s)).

(** The engine's answers in a cycle are such that the write of line 97
    goes through. *)
Definition failure_write_accepted (st : storage) : Prop :=
  failure_execute st = None /\ failure_commit st = None.

(** The exception the write of line 97 raises, if the engine refuses its
    statement or, the statement accepted, its commit. *)
Definition failure_write_refused (st : storage) : option exn :=
  match failure_execute st with
  | Some x => Some (raised x)
  | None => option_map raised (failure_commit st)
  end.

Definition kept (answer : option refusal) : bool :=
  match answer with
  | Some x => negb (transaction_lost x)
  | None => true
  end.

(** No refusal in lines 47-90 costs the cycle its transaction. *)
Definition keeps_transaction (st : storage) : bool :=
  kept (option_map snd (load_execute st)) && kept (load_commit st)
  && kept (end_execute st) && kept (end_commit st).

(** The frames in which an exception leaves lines 47-90 once run [id] is
    open.  The file is as it was at the start of the cycle, [dk], unless
    the load had committed and the closing write was then refused.  The
    working copy holds the run's row, as [begin_run] wrote it or rewritten
    by a closing write whose commit was refused, unless a refusal rolled
    the transaction back. *)
Definition interrupted (st : storage) (log : list log_row) (id : Z)
           (t0 : string) (dk : database) (s : frame) : Prop :=
  f_run_id s = Some id
  /\ exists d',
      (f_disk s = dk
       \/ (f_disk s = Db d' (Some (log ++ [Inv.running_row id t0])%list) id
           /\ load_commit st = None
           /\ (end_execute st <> None \/ end_commit st <> None)))
      /\ ((exists r,
              f_conn s = Some (Db d' (Some (log ++ [r])%list) id)
              /\ run_id r = id
              /\ start_time r = t0)
          \/ (f_conn s = Some (f_disk s) /\ keeps_transaction st = false)).

End Fault.

(** ** Vocabulary of the further properties *)

Module Cover.
Import Py Sql Etl Inv.

Definition is_logged (ev : event) : bool :=
  match ev with
  | Logged _ _ => true
  | Slept _ => false
  end.

(** The durations of the calls to [time.sleep], in order. *)
Definition sleeps (evs : list event) : list Z :=
  flat_map (fun ev => match ev with
                      | Slept seconds => [seconds]
                      | Logged _ _ => []
                      end) evs.

(** From [s] to [s'] the output only gained messages. *)
Definition says_only (s s' : frame) : Prop :=
  exists evs,
    f_out s' = (f_out s ++ evs)%list /\ forallb is_logged evs = true.

(** A computation that, whatever its result, only adds messages to the
    output. *)
Definition quiet {A : Type} (m : M A) : Prop :=
  forall s, says_only s (snd (m s)).

(** A relation with rows added at its end; an absent relation stays
    absent. *)
Definition extend {A : Type} (added : list A) (t : option (list A))
  : option (list A) :=
  match t with
  | Some l => Some (l ++ added)%list
  | None => None
  end.

(** The run-id counter is not behind the entries of the run log. *)
Definition ids_bounded (db : database) : Prop :=
  0 <= etl_seq db
  /\ forall r, In r (rows (etl_log db)) -> run_id r <= etl_seq db.

(** The largest identifier the engine gives a row, 2^63 - 1. *)
Definition MAX_ROWID : Z := 9223372036854775807.

(** The counter of the run log where [next_run_id] is the engine's answer
    for [k] more runs: not negative, not behind the identifiers in use,
    and at least [k] below the largest identifier. *)
Definition counter_in_range (k : nat) (db : database) : Prop :=
  ids_bounded db /\ etl_seq db + Z.of_nat k <= MAX_ROWID.

(** From [db] to [db'] the database only grew: rows were added at the end
    of the observations, at most [k] entries, all closed, at the end of the
    run log, the counter did not go back, and the keys stayed distinct if
    they were. *)
Definition grown (k : nat) (db db' : database) : Prop :=
  exists added newlog,
    opensky_data db' = extend added (opensky_data db)
    /\ etl_log db' = extend newlog (etl_log db)
    /\ (List.length newlog <= k)%nat
    /\ Forall terminal newlog
    /\ etl_seq db <= etl_seq db'
    /\ (pk_unique (rows (opensky_data db)) ->
        pk_unique (rows (opensky_data db'))).

(** A state long enough to be normalised. *)
Definition long_enough (state : pyval) : bool :=
  match len state with
  | Ok n => 17 <=? n
  | Raise _ => false
  end.

Definition is_str (v : pyval) : bool :=
  match v with PStr _ => true | _ => false end.

Definition none_or_str (v : pyval) : bool :=
  match v with PNone | PStr _ => true | _ => false end.

Definition iterable (v : pyval) : bool :=
  match v with PList _ | PStr _ | PDict _ => true | _ => false end.

(** The raw callsigns and sensor lists on which lines 65 and 67 do not
    raise. *)
Definition callsign_ok (v : pyval) : bool := negb (truthy v) || is_str v.
Definition sensors_ok (v : pyval) : bool := negb (truthy v) || iterable v.

Definition first_char (s : string) : option ascii :=
  match s with
  | EmptyString => None
  | String c _ => Some c
  end.

Fixpoint last_char (s : string) : option ascii :=
  match s with
  | EmptyString => None
  | String c EmptyString => Some c
  | String _ rest => last_char rest
  end.

(** A string with no whitespace at either end. *)
Definition trimmed (s : string) : Prop :=
  (forall c, first_char s = Some c -> is_space c = false)
  /\ (forall c, last_char s = Some c -> is_space c = false).

(** A string made of whitespace only. *)
Fixpoint all_space (s : string) : bool :=
  match s with
  | EmptyString => true
  | String c rest => is_space c && all_space rest
  end.

(** A stored row as the schema wants it: a value for each of the 18
    columns, none missing where the column is NOT NULL. *)
Definition row_ok (r : row) : Prop :=
  List.length r = 18%nat /\ violates_not_null opensky_columns r = false.

(** Two records that differ in their fetch time at most. *)
Definition same_but_time (p1 p2 : list pyval) : Prop :=
  exists xs t1 t2,
    List.length xs = 17%nat
    /\ p1 = (xs ++ [PStr t1])%list
    /\ p2 = (xs ++ [PStr t2])%list.

(** A state that has a length, below 17. *)
Definition too_short (state : pyval) : bool :=
  match len state with
  | Ok n => n <? 17
  | Raise _ => false
  end.

End Cover.

(** ** Further concrete inputs *)

Module CoverSample.
Import Py Sql Etl Inv Sample.

(** The fields of the scenario's tuple. *)
Definition scenario_fields : list pyval :=
  match scenario_state with
  | PList xs => xs
  | _ => []
  end.

(** The scenario's tuple with the number 7 for callsign. *)
Definition numeric_callsign_state : pyval :=
  match scenario_state with
  | PList (icao :: _ :: rest) => PList (icao :: PInt 7 :: rest)
  | v => v
  end.

(** A cycle ten minutes after [cycle_with]. *)
Definition later_cycle_with (r : result pyval) : cycle_env :=
  Env None r "2023-07-22T04:36:40" "2023-07-22T04:36:41" "2023-07-22T04:36:42".

(** A file that has the run log and not the observations. *)
Definition log_only_world : world := World (Db None (Some []) 0) [].

Definition cannot_open : exn :=
  Exn OperationalError "unable to open database file".

(** The record [unbindable_state] normalises to. *)
Definition unbindable_record : list pyval :=
  match record_of opaque_repr unbindable_state "2023-07-22T04:26:41" with
  | Ok record => record
  | Raise _ => []
  end.

End CoverSample.

(** ** Concrete answers of the engine *)

Module FaultSample.
Import Py Sql Etl Inv Sample CoverSample.

Definition database_is_locked : exn :=
  Exn OperationalError "database is locked".

Definition disk_is_full : exn :=
  Exn OperationalError "database or disk is full".

Definition not_a_database : exn :=
  Exn DatabaseError "file is not a database".

(** Another connection holds the file when the failure is committed: the
    statements of the cycle are accepted, the commit of line 97's call is
    refused, and the transaction stays open. *)
Definition busy_at_failure : Fault.storage :=
  Fault.Storage None None None None None None
                (Some (Fault.Refusal database_is_locked false)).

(** The disk is full when the observations are inserted; the engine
    undoes the INSERT and keeps the transaction. *)
Definition full_at_load : Fault.storage :=
  Fault.Storage None (Some (0%nat, Fault.Refusal disk_is_full false))
                None None None None None.

(** The same, the engine rolling the transaction back. *)
Definition full_at_load_rolled_back : Fault.storage :=
  Fault.Storage None (Some (0%nat, Fault.Refusal disk_is_full true))
                None None None None None.

(** A job whose second cycle meets [busy_at_failure]. *)
Definition busy_in_second (i : nat) : Fault.storage :=
  if (i =? 1)%nat then busy_at_failure else Fault.sound.

(** A file that is not a database: the first statement is refused, and
    so would the others be. *)
Definition foreign_file : Fault.setup_storage :=
  Fault.SetupStorage (Some not_a_database) (Some not_a_database)
                     (Some not_a_database) (Some not_a_database)
                     (Some not_a_database).

(** The disk is full once the first record has been inserted. *)
Definition full_after_first : Fault.storage :=
  Fault.Storage None (Some (1%nat, Fault.Refusal disk_is_full false))
                None None None None None.

(** A file that is not a database, as a cycle meets it: its first
    statement is refused. *)
Definition foreign_file_cycle : Fault.storage :=
  Fault.Storage (Some (Fault.Refusal not_a_database false))
                None None None None None None.

(** A cycle whose [sqlite3.connect] fails. *)
Definition unopenable : cycle_env :=
  Env (Some cannot_open) (Ok scenario_response)
      "2023-07-22T04:26:40" "2023-07-22T04:26:41" "2023-07-22T04:26:42".

End FaultSample.

(** ** The definitions on small inputs *)

Section Sanity.
Import Py Sql Etl Inv Sample.

Example strip_trailing : strip "UAL123 " = "UAL123".
Proof. reflexivity. Qed.

Example strip_both_sides : strip "  a b  " = "a b".
Proof. reflexivity. Qed.

Example join_sensors : join "," ["1"; "2"] = "1,2".
Proof. reflexivity. Qed.

Example str_int_negative : str_int (-42) = "-42".
Proof. reflexivity. Qed.

Example zero_float_is_false :
  truthy (PFloat (S754_zero true)) = false /\ truthy (PStr " ") = true.
Proof. split; reflexivity. Qed.

Example last_member_wins :
  dict_get "states" [("states", PInt 1); ("time", PInt 2); ("states", PInt 3)]
  = Some (PInt 3).
Proof. reflexivity. Qed.

Example key_error_text : getitem (PDict [("a", PNone)]) 0 = Raise (Exn KeyError "0").
Proof. reflexivity. Qed.

Example primary_key_columns :
  map col_name (filter (fun c => String.eqb (col_name c) "icao24"
                                 || String.eqb (col_name c) "last_contact")
                       opensky_columns)
  = [col_name (nth 0 opensky_columns (Col "" AffText false));
     col_name (nth 4 opensky_columns (Col "" AffText false))].
Proof. reflexivity. Qed.

Example integer_equals_real :
  sql_eqb (SInt 3000) (SReal (S754_finite false 6597069766656000 (-41))) = true.
Proof. reflexivity. Qed.

Example same_key_twice_is_not_unique :
  same_key (scenario_row "T1") (scenario_row "T2") = true
  /\ ~ pk_unique [scenario_row "T1"; scenario_row "T2"].
Proof. split; [reflexivity | intros [H _]; discriminate H]. Qed.

Example list_is_not_bound :
  bind_param 3 (PList []) =
  Raise (Exn ProgrammingError
           "Error binding parameter 3: type 'list' is not supported").
Proof. reflexivity. Qed.

Example scenario_normalises :
  normalize opaque_repr [scenario_state; short_state] "T"
  = Ok [[ PStr "abc123"; PStr "UAL123"; PStr "United States";
          PInt 1690000000; PInt 1690000005;
          PFloat (S754_finite false 5685794529555251 (-49));
          PFloat (S754_finite false 5685794529555251 (-48));
          PFloat (S754_finite false 6597069766656000 (-41));
          PBool false;
          PFloat (S754_finite false 8796093022208000 (-45));
          PFloat (S754_finite false 6333186975989760 (-46));
          PFloat (S754_zero false);
          PStr "1,2";
          PFloat (S754_finite false 6816972092211200 (-41));
          PStr "1200"; PBool false; PInt 0; PStr "T" ]].
Proof. reflexivity. Qed.

Example unprovisioned_cycle :
  fetch_and_append_data keep opaque_repr (cycle_with (Ok scenario_response))
                        (World empty_database [])
  = (Ok tt,
     World empty_database
           [Logged ERROR "ETL cycle failed: no such table: etl_log"]).
Proof. reflexivity. Qed.

(** A record that cannot be bound stops [executemany] after the records
    before it were inserted; the commit of the failure entry then commits
    them too. *)
Example unbindable_record_stops_the_load :
  fetch_and_append_data
    keep opaque_repr
    (cycle_with (Ok (PDict [("states",
                             PList [scenario_state; unbindable_state])])))
    fresh_world
  = (Ok tt,
     World (Db (Some [scenario_row "2023-07-22T04:26:41"])
               (Some [closed_row 1 "2023-07-22T04:26:40" "2023-07-22T04:26:42"
                                 0 "Failure"
                                 (Some "Error binding parameter 3: type 'list' is not supported")])
               1)
           [Logged INFO "Starting ETL Cycle (Run ID: 1)...";
            Logged ERROR "ETL cycle failed: Error binding parameter 3: type 'list' is not supported"]).
Proof. reflexivity. Qed.
(** A cycle on a file that is not a database returns with nothing
    recorded. *)
Example cycle_on_a_foreign_file :
  Fault.fetch_and_append_data keep opaque_repr FaultSample.foreign_file_cycle
                              (cycle_with (Ok scenario_response))
                              (World empty_database [])
  = (Ok tt,
     World empty_database
           [Logged ERROR "ETL cycle failed: file is not a database"]).
Proof. reflexivity. Qed.

(** A disk that fills after the first record: the record inserted is
    committed with the failure entry, the second is never reached. *)
Example disk_full_after_first_record :
  Fault.fetch_and_append_data
    keep opaque_repr FaultSample.full_after_first
    (cycle_with (Ok (PDict [("states",
                             PList [scenario_state; unbindable_state])])))
    fresh_world
  = (Ok tt,
     World (Db (Some [scenario_row "2023-07-22T04:26:41"])
               (Some [closed_row 1 "2023-07-22T04:26:40" "2023-07-22T04:26:42"
                                 0 "Failure"
                                 (Some "database or disk is full")])
               1)
           [Logged INFO "Starting ETL Cycle (Run ID: 1)...";
            Logged ERROR "ETL cycle failed: database or disk is full"]).
Proof. reflexivity. Qed.

(** The same disk, the engine rolling the transaction back at the first
    record: the failure write finds no row, and nothing is recorded. *)
Example lost_transaction_records_nothing :
  Fault.fetch_and_append_data
    keep opaque_repr FaultSample.full_at_load_rolled_back
    (cycle_with (Ok scenario_response)) fresh_world
  = (Ok tt,
     World (disk fresh_world)
           [Logged INFO "Starting ETL Cycle (Run ID: 1)...";
            Logged ERROR "ETL cycle failed: database or disk is full"]).
Proof. reflexivity. Qed.

End Sanity.

(** ** The load step *)

Section LoadFacts.
Import Py Sql Etl Inv.
Variable convert : affinity -> sqlval -> sqlval.

Lemma real_eqb_sym (f g : spec_float) : real_eqb f g = real_eqb g f.
Proof.
  destruct f as [s | s | | s m e], g as [t | t | | t n d]; simpl; trivial.
  - now destruct s, t.
  - rewrite (Pos.eqb_sym m n), (Z.eqb_sym e d). now destruct s, t.
Qed.

Lemma sql_eqb_sym (a b : sqlval) : sql_eqb a b = sql_eqb b a.
Proof.
  destruct a, b; simpl; trivial.
  - apply Z.eqb_sym.
  - apply real_eqb_sym.
  - apply String.eqb_sym.
Qed.

Lemma same_key_sym (r1 r2 : row) : same_key r1 r2 = same_key r2 r1.
Proof.
  unfold same_key.
  now rewrite (sql_eqb_sym (icao24 r1)), (sql_eqb_sym (last_contact r1)).
Qed.

Lemma sql_eqb_refl (v : sqlval) : is_null v = false -> sql_eqb v v = true.
Proof.
  destruct v as [ | z | f | s]; simpl; intros H; try discriminate.
  - apply Z.eqb_refl.
  - destruct f as [b | b | | b m e]; simpl; trivial.
    + now destruct b.
    + rewrite Pos.eqb_refl, Z.eqb_refl. now destruct b.
  - apply String.eqb_refl.
Qed.

Lemma existsb_snoc {A : Type} (p : A -> bool) (l : list A) (x : A) :
  existsb p (l ++ [x]) = existsb p l || p x.
Proof. rewrite existsb_app. simpl. now rewrite orb_false_r. Qed.

Lemma pk_unique_snoc (tbl : list row) (r : row) :
  pk_unique tbl -> existsb (same_key r) tbl = false ->
  pk_unique (tbl ++ [r]).
Proof.
  induction tbl as [ | r0 rest IH]; simpl; intros U E.
  - auto.
  - destruct U as [U0 U]. apply orb_false_elim in E. destruct E as [E0 E].
    split.
    + rewrite existsb_snoc, U0, same_key_sym, E0. reflexivity.
    + now apply IH.
Qed.

(** A stored row of full width that respects the NOT NULL constraints has
    a key it is equal to. *)
Lemma same_key_refl (vals : list sqlval) :
  List.length vals = 18%nat ->
  violates_not_null opensky_columns (store_row convert opensky_columns vals)
  = false ->
  same_key (store_row convert opensky_columns vals)
           (store_row convert opensky_columns vals) = true.
Proof.
  intros L.
  do 18 (destruct vals as [ | ? vals]; [discriminate L | ]).
  destruct vals; [ | discriminate L].
  cbn [store_row opensky_columns violates_not_null col_notnull andb orb].
  intros H.
  apply orb_false_elim in H. destruct H as [H0 H].
  apply orb_false_elim in H. destruct H as [_ H].
  apply orb_false_elim in H. destruct H as [H4 _].
  unfold same_key, icao24, last_contact. cbn [nth].
  now rewrite !sql_eqb_refl.
Qed.

Lemma bind_from_length (params : list pyval) :
  forall pos vals, bind_from pos params = Ok vals ->
                   List.length vals = List.length params.
Proof.
  induction params as [ | v rest IH]; simpl; intros pos vals H.
  - now inversion H.
  - destruct (bind_param pos v); simpl in H; [ | discriminate].
    destruct (bind_from (S pos) rest) eqn:E; simpl in H; [ | discriminate].
    inversion H. simpl. f_equal. eauto.
Qed.

Lemma bind_params_length (params : list pyval) (vals : list sqlval) :
  bind_params 18 params = Ok vals -> List.length vals = 18%nat.
Proof.
  unfold bind_params.
  destruct (Nat.eqb_spec (List.length params) 18) as [L | ]; [ | discriminate].
  intros H. apply bind_from_length in H. congruence.
Qed.

Lemma bind_from_supported (params : list pyval) :
  forall pos, forallb supported params = true ->
              exists vals, bind_from pos params = Ok vals.
Proof.
  induction params as [ | v rest IH]; simpl; intros pos H.
  - eauto.
  - apply andb_prop in H. destruct H as [Hv H].
    destruct (IH (S pos) H) as [vs ->].
    destruct v as [ | b | z | f | s | l | kvs]; simpl in Hv |- *;
      try discriminate; eauto.
    + rewrite Hv. simpl. eauto.
    + destruct f; simpl; eauto.
Qed.

Lemma bindable_bind (record : list pyval) :
  bindable record = true -> exists vals, bind_params 18 record = Ok vals.
Proof.
  unfold bindable, bind_params. intros H.
  apply andb_prop in H. destruct H as [-> H].
  now apply bind_from_supported.
Qed.

(** What one [INSERT OR IGNORE] does to the relation. *)
Lemma insert_or_ignore_cases (tbl : list row) (vals : list sqlval) :
  let r := store_row convert opensky_columns vals in
  (insert_or_ignore convert tbl vals = (tbl, 0)
   /\ (violates_not_null opensky_columns r = true
       \/ existsb (same_key r) tbl = true))
  \/ (insert_or_ignore convert tbl vals = ((tbl ++ [r])%list, 1)
      /\ violates_not_null opensky_columns r = false
      /\ existsb (same_key r) tbl = false).
Proof.
  intros r. unfold insert_or_ignore. fold r.
  destruct (violates_not_null opensky_columns r); [now left; auto | ].
  destruct (existsb (same_key r) tbl); [left | right]; auto.
Qed.

(** The rows the loop of [executemany] leaves: the old ones, then the
    rows it added, each the stored form of a record and with a key that
    was not there; [rowcount] is the number of rows added. *)
Lemma executemany_loop_adds (records : list (list pyval)) :
  forall tbl acc tbl' res,
    executemany_loop convert tbl acc records = (tbl', res) ->
    exists added,
      tbl' = (tbl ++ added)%list
      /\ (forall n, res = Ok n -> n = acc + Z.of_nat (List.length added))
      /\ (pk_unique tbl -> pk_unique tbl')
      /\ Forall (stored_from convert records) added.
Proof.
  induction records as [ | params rest IH]; simpl; intros tbl acc tbl' res H.
  - inversion H; subst. exists []. rewrite app_nil_r.
    repeat split; auto. intros n E. inversion E. simpl. lia.
  - destruct (bind_params 18 params) as [vals | e] eqn:B.
    + assert (W : forall l, Forall (stored_from convert rest) l ->
                            Forall (stored_from convert (params :: rest)) l).
      { intros l. apply Forall_impl. intros r [p [v [I [Bp R]]]].
        exists p, v. simpl. auto. }
      destruct (insert_or_ignore_cases tbl vals) as [[E _] | [E [_ K]]];
        rewrite E in H; apply IH in H; destruct H as [added [-> [C [U S]]]].
      * exists added. repeat split; auto. intros n En. rewrite (C n En). lia.
      * exists (store_row convert opensky_columns vals :: added).
        split; [now rewrite <- app_assoc | split; [ | split]].
        -- intros n En. rewrite (C n En). cbn [List.length].
           rewrite Nat2Z.inj_succ. lia.
        -- intros P. apply U. now apply pk_unique_snoc.
        -- constructor; auto. exists params, vals.
           split; [now left | split; [exact B | reflexivity]].
    + inversion H; subst. exists []. rewrite app_nil_r.
      repeat split; auto. intros n E. discriminate E.
Qed.

(** The loop ends normally on records that can all be bound. *)
Lemma executemany_loop_returns (records : list (list pyval)) :
  forall tbl acc,
    forallb bindable records = true ->
    exists n, snd (executemany_loop convert tbl acc records) = Ok n.
Proof.
  induction records as [ | params rest IH]; simpl; intros tbl acc H.
  - eauto.
  - apply andb_prop in H. destruct H as [B H].
    destruct (bindable_bind _ B) as [vals ->].
    destruct (insert_or_ignore convert tbl vals) as [tbl1 c]. now apply IH.
Qed.

(** The load on a relation whose keys are distinct. *)
Lemma executemany_loop_spec (tbl : list row) (records : list (list pyval))
      (tbl' : list row) (res : result Z) :
  pk_unique tbl ->
  executemany_loop convert tbl 0 records = (tbl', res) ->
  exists added,
    tbl' = (tbl ++ added)%list
    /\ pk_unique (tbl ++ added)
    /\ Forall (stored_from convert records) added
    /\ (forall n, res = Ok n -> n = Z.of_nat (List.length added))
    /\ (forallb bindable records = true -> exists n, res = Ok n).
Proof.
  intros U E.
  destruct (executemany_loop_adds _ _ _ _ _ E) as [added [-> [C [P S]]]].
  exists added.
  split; [reflexivity | split; [auto | split; [exact S | split]]].
  - intros n En. rewrite (C n En). lia.
  - intros B.
    destruct (executemany_loop_returns records tbl 0 B) as [n En].
    rewrite E in En. eauto.
Qed.

Lemma existsb_incl {A : Type} (p : A -> bool) (l1 l2 : list A) :
  incl l1 l2 -> existsb p l1 = true -> existsb p l2 = true.
Proof.
  intros I H. apply existsb_exists in H. destruct H as [x [Hx Px]].
  apply existsb_exists. exists x. auto.
Qed.

(** Once the loop has run, running it again on the same records from any
    relation that holds the rows it left changes nothing and counts
    nothing. *)
Lemma executemany_loop_again (records : list (list pyval)) :
  forall tbl acc tbl' res,
    executemany_loop convert tbl acc records = (tbl', res) ->
    forall big acc',
      incl tbl' big ->
      executemany_loop convert big acc' records
      = (big, match res with Ok _ => Ok acc' | Raise e => Raise e end).
Proof.
  induction records as [ | params rest IH]; simpl;
    intros tbl acc tbl' res H big acc' I.
  - inversion H; subst. reflexivity.
  - destruct (bind_params 18 params) as [vals | e] eqn:B.
    + pose proof (bind_params_length _ _ B) as L.
      set (r := store_row convert opensky_columns vals).
      assert (S : insert_or_ignore convert big vals = (big, 0)).
      { unfold insert_or_ignore. fold r.
        destruct (violates_not_null opensky_columns r) eqn:V; trivial.
        assert (X : existsb (same_key r) big = true).
        { destruct (insert_or_ignore_cases tbl vals) as [[E K] | [E _]];
            rewrite E in H;
            destruct (executemany_loop_adds _ _ _ _ _ H) as [added [-> _]].
          - fold r in K. destruct K as [K | K]; [congruence | ].
            apply existsb_incl with (l1 := tbl); trivial.
            intros x Hx. apply I. apply in_or_app. now left.
          - fold r in I.
            apply existsb_incl with (l1 := (tbl ++ [r])%list).
            + intros x Hx. apply I. apply in_or_app. now left.
            + rewrite existsb_snoc. unfold r at 2.
              rewrite same_key_refl; trivial. apply orb_true_r. }
        now rewrite X. }
      rewrite S, Z.add_0_r.
      destruct (insert_or_ignore convert tbl vals) as [tbl1 c].
      eapply IH; eauto.
    + inversion H; subst. reflexivity.
Qed.
End LoadFacts.

(** ** The run log and the cycle *)

(** Unfolds a call of [log_etl_run] down to the statement it runs. *)
Ltac run_update :=
  unfold Etl.log_etl_run, Etl.bind, Etl.view, Etl.lift, Sql.update_log,
    Etl.set_conn, Etl.commit, Etl.bind, Etl.view, Etl.ret.

Section CycleFacts.
Import Py Sql Etl Inv.
Variable convert : affinity -> sqlval -> sqlval.
Variable py_repr : pyval -> string.

Lemma next_run_id_bound (seq : Z) (log : list log_row) :
  0 < next_run_id seq log
  /\ seq < next_run_id seq log
  /\ forall r, In r log -> run_id r < next_run_id seq log.
Proof.
  unfold next_run_id. induction log as [ | r0 rest IH]; simpl.
  - split; [lia | split; [lia | intros r []]].
  - destruct IH as [P [Q F]]. split; [lia | split; [lia | ]].
    intros r [<- | H]; [lia | ]. specialize (F r H). lia.
Qed.

Lemma next_run_id_fresh (seq : Z) (log : list log_row) (r : log_row) :
  In r log -> run_id r <> next_run_id seq log.
Proof.
  intros H. destruct (next_run_id_bound seq log) as [_ [_ F]].
  specialize (F r H). lia.
Qed.

(** Where the counter is not behind the run log, the next identifier is
    the counter plus one. *)
Lemma next_run_id_follows (seq : Z) (log : list log_row) :
  0 <= seq ->
  (forall r, In r log -> run_id r <= seq) ->
  next_run_id seq log = seq + 1.
Proof.
  intros P B. unfold next_run_id. f_equal.
  induction log as [ | r rest IH]; simpl.
  - lia.
  - rewrite IH by (intros r' H; apply B; now right).
    specialize (B r (or_introl eq_refl)). lia.
Qed.

(** An [UPDATE] whose [run_id] matches no row changes none. *)
Lemma update_no_match (now : string) (n : Z) (st : string)
      (err : option string) (id : Z) (log : list log_row) :
  (forall r, In r log -> run_id r <> id) ->
  map (update_row now n st err id) log = log.
Proof.
  induction log as [ | r0 rest IH]; simpl; intros F; trivial.
  rewrite IH by auto. f_equal. unfold update_row.
  destruct (Z.eqb_spec (run_id r0) id) as [E | ]; trivial.
  exfalso. apply (F r0); auto.
Qed.

Lemma existsb_no_match (id : Z) (log : list log_row) :
  (forall r, In r log -> run_id r <> id) ->
  existsb (fun r => run_id r =? id) log = false.
Proof.
  induction log as [ | r0 rest IH]; simpl; intros F; trivial.
  rewrite IH by auto.
  destruct (Z.eqb_spec (run_id r0) id) as [E | ]; trivial.
  exfalso. apply (F r0); auto.
Qed.

(** The [UPDATE] of the run just opened rewrites its row and no other. *)
Lemma update_own_row (now : string) (n : Z) (st : string)
      (err : option string) (id : Z) (log : list log_row) (r : log_row) :
  (forall r', In r' log -> run_id r' <> id) ->
  run_id r = id ->
  map (update_row now n st err id) (log ++ [r])
  = (log ++ [closed_row id (start_time r) now n st err])%list.
Proof.
  intros F E. rewrite map_app, update_no_match by trivial.
  simpl. unfold update_row. rewrite E, Z.eqb_refl. reflexivity.
Qed.

(** [begin_run] on a provisioned database. *)
Lemma begin_cycle_ok (env : cycle_env) (w : world) (log : list log_row) :
  connect_error env = None ->
  etl_log (disk w) = Some log ->
  let id := next_run_id (etl_seq (disk w)) log in
  begin_cycle env (entry w)
  = (Ok (Some id),
     Frame (Some (Db (opensky_data (disk w))
                     (Some (log ++ [running_row id (now_start env)])%list)
                     id))
           (Some id) (disk w)
           (out w ++ [Logged INFO ("Starting ETL Cycle (Run ID: "
                                   ++ str_int id ++ ")...")])%list).
Proof.
  intros C L id.
  unfold begin_cycle, bind, connect, entry, log_etl_run, bind, view, lift,
    insert_log, set_conn, set_run_id, logging, ret.
  simpl. rewrite C. simpl. rewrite L. simpl. reflexivity.
Qed.

(** [end_run] for the run the connection has opened: its row is
    rewritten and the working copy committed. *)
Lemma end_run_closes (now st : string) (n : Z) (err : option string)
      (d : option (list row)) (log : list log_row) (id q : Z)
      (t0 : string) (rid : option Z) (dk : database) (o : list event) :
  id <> 0 ->
  (forall r, In r log -> run_id r <> id) ->
  status_check st = true ->
  let db' := Db d (Some (log ++ [closed_row id t0 now n st err])%list) q in
  log_etl_run now st n err (Some id)
              (Frame (Some (Db d (Some (log ++ [running_row id t0])%list) q))
                     rid dk o)
  = (Ok None, Frame (Some db') rid db' o).
Proof.
  intros Z F S db'.
  run_update. simpl. destruct (Z.eqb_spec id 0) as [ | _]; [contradiction | ].
  rewrite S. simpl. rewrite andb_false_r.
  rewrite update_own_row by trivial. reflexivity.
Qed.

Lemma bind_lift_ok {A B : Type} (a : A) (k : A -> M B) (s : frame) :
  (x <- lift (Ok a) ;; k x) s = k a s.
Proof. reflexivity. Qed.

Lemma bind_lift_raise {A B : Type} (e : exn) (k : A -> M B) (s : frame) :
  (x <- lift (Raise e) ;; k x) s = (Raise e, s).
Proof. reflexivity. Qed.

Lemma close_success (env : cycle_env) (lv : level) (msg : string) (n : Z)
      (d : option (list row)) (log : list log_row) (id : Z) (t0 : string)
      (dk : database) (o : list event) :
  id <> 0 ->
  (forall r, In r log -> run_id r <> id) ->
  (logging lv msg ;;
   log_etl_run (now_end env) "Success" n None (Some id) ;;
   ret tt) (opened d log id t0 dk o)
  = (Ok tt, settled d log id t0 (now_end env) n "Success" None
                    (o ++ [Logged lv msg])%list).
Proof.
  intros Z F. unfold bind at 1. unfold logging, opened.
  cbn [f_conn f_run_id f_disk f_out]. unfold bind.
  rewrite end_run_closes by trivial. reflexivity.
Qed.

(** Lines 47-90 from an opened run: either the run is closed as a
    success whose count is the number of rows added, or an exception
    leaves with nothing committed. *)
Lemma extract_and_load_shape (env : cycle_env)
      (d : option (list row)) (log : list log_row) (id : Z)
      (dk : database) (o : list event) :
  id <> 0 ->
  (forall r, In r log -> run_id r <> id) ->
  exists added o',
    (pk_unique (rows d) -> pk_unique (rows d ++ added))
    /\ (extract_and_load convert py_repr env (Some id) (opened d log id (now_start env) dk o)
        = (Ok tt, settled (grow added d) log id (now_start env) (now_end env)
                          (Z.of_nat (List.length added)) "Success" None o')
        \/ exists e,
            extract_and_load convert py_repr env (Some id)
                             (opened d log id (now_start env) dk o)
            = (Raise e, opened (grow added d) log id (now_start env) dk o')).
Proof.
  intros Z F.
  assert (G : grow [] d = d).
  { destruct d; simpl; trivial. now rewrite app_nil_r. }
  assert (U : pk_unique (rows d) -> pk_unique (rows d ++ [])).
  { now rewrite app_nil_r. }
  unfold extract_and_load.
  destruct (response env) as [data | e]; rewrite ?bind_lift_raise.
  2:{ exists [], o. split; trivial. right. exists e. now rewrite G. }
  rewrite !bind_lift_ok.
  destruct (get_method data "states" (PList [])) as [states | e];
    rewrite ?bind_lift_raise.
  2:{ exists [], o. split; trivial. right. exists e. now rewrite G. }
  rewrite !bind_lift_ok.
  destruct (truthy states); cbn [negb].
  2:{ eexists [], _. split; trivial. left. rewrite G.
      now apply close_success. }
  destruct (iter states) as [items | e]; rewrite ?bind_lift_raise.
  2:{ exists [], o. split; trivial. right. exists e. now rewrite G. }
  rewrite !bind_lift_ok.
  destruct (normalize py_repr items (utcnow_fetch env)) as [records | e];
    rewrite ?bind_lift_raise.
  2:{ exists [], o. split; trivial. right. exists e. now rewrite G. }
  rewrite !bind_lift_ok.
  unfold load. destruct records as [ | record records].
  { eexists [], _. split; trivial. left. rewrite G.
    now apply close_success. }
  destruct d as [tbl | ].
  2:{ exists [], o. split; trivial. right. eexists. reflexivity. }
  destruct (executemany_loop convert tbl 0 (record :: records))
    as [tbl' res] eqn:E.
  destruct (executemany_loop_adds convert _ _ _ _ _ E) as [added [-> [C [P _]]]].
  exists added.
  assert (X : insert_and_commit convert (record :: records)
                (opened (Some tbl) log id (now_start env) dk o)
              = match res with
                | Ok n =>
                    (Ok n,
                     let db := Db (Some (tbl ++ added)%list)
                                  (Some (log ++ [running_row id (now_start env)])%list)
                                  id in
                     Frame (Some db) (Some id) db o)
                | Raise e =>
                    (Raise e,
                     opened (Some (tbl ++ added)%list) log id
                            (now_start env) dk o)
                end).
  { unfold insert_and_commit, executemany, bind, view, opened.
    cbn [f_conn opensky_data etl_log etl_seq f_run_id f_disk f_out].
    rewrite E. now destruct res. }
  destruct res as [n | e].
  - eexists. split; [exact P | left].
    unfold bind at 1. rewrite X, (C n eq_refl), Z.add_0_l.
    apply (close_success env INFO _ _ (Some (tbl ++ added)%list)); trivial.
  - exists o. split; [exact P | right]. exists e.
    unfold bind at 1. now rewrite X.
Qed.

(** Lines 47-90 when the response normalises to [records] and
    [executemany] returns. *)
Lemma extract_and_load_loaded (env : cycle_env)
      (tbl tbl' : list row) (log : list log_row) (id : Z)
      (dk : database) (o : list event)
      (data states : pyval) (items : list pyval)
      (records : list (list pyval)) (n : Z) :
  id <> 0 ->
  (forall r, In r log -> run_id r <> id) ->
  response env = Ok data ->
  get_method data "states" (PList []) = Ok states ->
  truthy states = true ->
  iter states = Ok items ->
  normalize py_repr items (utcnow_fetch env) = Ok records ->
  executemany_loop convert tbl 0 records = (tbl', Ok n) ->
  extract_and_load convert py_repr env (Some id)
                   (opened (Some tbl) log id (now_start env) dk o)
  = (Ok tt,
     settled (Some tbl') log id (now_start env) (now_end env) n
             "Success" None
             (o ++ [Logged INFO
                      match records with
                      | [] => "No valid records to insert for this cycle."
                      | _ :: _ => "Inserted " ++ str_int n ++ " new records."
                      end])%list).
Proof.
  intros Z F R G T I N E.
  unfold extract_and_load.
  rewrite R, bind_lift_ok, G, bind_lift_ok, T. cbn [negb].
  rewrite I, bind_lift_ok, N, bind_lift_ok.
  unfold load. destruct records as [ | record records].
  - simpl in E. inversion E; subst. now apply close_success.
  - assert (X : insert_and_commit convert (record :: records)
                  (opened (Some tbl) log id (now_start env) dk o)
                = (Ok n,
                   let db := Db (Some tbl')
                                (Some (log ++ [running_row id (now_start env)])%list)
                                id in
                   Frame (Some db) (Some id) db o)).
    { unfold insert_and_commit, executemany, bind, view, opened.
      cbn [f_conn opensky_data etl_log etl_seq f_run_id f_disk f_out].
      now rewrite E. }
    unfold bind at 1. rewrite X.
    apply (close_success env INFO _ _ (Some tbl')); trivial.
Qed.

Lemma try_body_opened (env : cycle_env) (w : world) (log : list log_row) :
  connect_error env = None ->
  etl_log (disk w) = Some log ->
  let id := next_run_id (etl_seq (disk w)) log in
  try_body convert py_repr env (entry w)
  = extract_and_load convert py_repr env (Some id)
      (opened (opensky_data (disk w)) log id (now_start env) (disk w)
              (out w ++ [Logged INFO ("Starting ETL Cycle (Run ID: "
                                      ++ str_int id ++ ")...")])%list).
Proof.
  intros C L id. unfold try_body, bind.
  rewrite (begin_cycle_ok env w log C L). reflexivity.
Qed.

(** A [try] body that ends normally with the run closed: the call
    returns with what the body committed. *)
Lemma cycle_of_success (env : cycle_env) (w : world)
      (d : option (list row)) (log : list log_row) (id : Z)
      (t0 t2 : string) (n : Z) (st : string) (err : option string)
      (o : list event) :
  try_body convert py_repr env (entry w)
  = (Ok tt, settled d log id t0 t2 n st err o) ->
  fetch_and_append_data convert py_repr env w
  = (Ok tt,
     World (Db d (Some (log ++ [closed_row id t0 t2 n st err])%list) id) o).
Proof.
  intros B. unfold fetch_and_append_data, try_except_finally.
  fold (entry w). rewrite B. reflexivity.
Qed.

(** A [try] body that raises after the run was opened: the [except]
    clause closes the run as a failure carrying [str(e)], commits, and the
    call returns. *)
Lemma cycle_of_failure (env : cycle_env) (w : world)
      (d : option (list row)) (log : list log_row) (id : Z)
      (t0 : string) (dk : database) (o : list event) (e : exn) :
  id <> 0 ->
  (forall r, In r log -> run_id r <> id) ->
  try_body convert py_repr env (entry w)
  = (Raise e, opened d log id t0 dk o) ->
  fetch_and_append_data convert py_repr env w
  = (Ok tt,
     World (Db d (Some (log ++ [closed_row id t0 (now_end env) 0 "Failure"
                                           (Some (exn_msg e))])%list) id)
           (o ++ [Logged ERROR ("ETL cycle failed: " ++ exn_msg e)])%list).
Proof.
  intros Z F B. unfold fetch_and_append_data, try_except_finally.
  fold (entry w). rewrite B.
  unfold on_exception, bind at 1, logging at 1, opened.
  cbn [f_conn f_run_id f_disk f_out run_id_set].
  destruct (Z.eqb_spec id 0) as [ | _]; [contradiction | ].
  cbn [negb]. unfold bind at 1.
  rewrite end_run_closes by trivial. reflexivity.
Qed.

(** Every cycle that opens its run returns normally, appends one entry
    to the committed run log, and leaves the entries and the observations
    that were there in place. *)
Lemma cycle_shape (env : cycle_env) (w : world) (log : list log_row) :
  connect_error env = None ->
  etl_log (disk w) = Some log ->
  let d := opensky_data (disk w) in
  let id := next_run_id (etl_seq (disk w)) log in
  exists added o' n st err,
    fetch_and_append_data convert py_repr env w
    = (Ok tt,
       World (Db (grow added d)
                 (Some (log ++ [closed_row id (now_start env) (now_end env)
                                           n st err])%list) id) o')
    /\ (pk_unique (rows d) -> pk_unique (rows d ++ added))
    /\ ((fst (try_body convert py_repr env (entry w)) = Ok tt
         /\ st = "Success" /\ err = None
         /\ n = Z.of_nat (List.length added))
        \/ (exists e,
              fst (try_body convert py_repr env (entry w)) = Raise e
              /\ st = "Failure" /\ err = Some (exn_msg e) /\ n = 0)).
Proof.
  intros C L d id.
  destruct (next_run_id_bound (etl_seq (disk w)) log) as [P _].
  assert (Z : id <> 0) by (unfold id; lia).
  assert (F : forall r, In r log -> run_id r <> id)
    by (intros r; apply next_run_id_fresh).
  pose proof (try_body_opened env w log C L) as T. fold id d in T.
  destruct (extract_and_load_shape env d log id (disk w)
              (out w ++ [Logged INFO ("Starting ETL Cycle (Run ID: "
                                      ++ str_int id ++ ")...")])%list Z F)
    as [added [o' [U [B | [e B]]]]]; rewrite <- T in B.
  - exists added, o', (Z.of_nat (List.length added)), "Success", None.
    split; [now apply cycle_of_success | split; [exact U | left]].
    rewrite B. auto.
  - exists added, (o' ++ [Logged ERROR ("ETL cycle failed: " ++ exn_msg e)])%list,
      0, "Failure", (Some (exn_msg e)).
    split; [now apply cycle_of_failure with (dk := disk w)
           | split; [exact U | right]].
    exists e. rewrite B. auto.
Qed.

(** No exception leaves [fetch_and_append_data], whatever it is given. *)
Lemma cycle_returns (env : cycle_env) (w : world) :
  fst (fetch_and_append_data convert py_repr env w) = Ok tt.
Proof.
  destruct (connect_error env) as [e | ] eqn:C.
  - unfold fetch_and_append_data, try_except_finally, try_body, bind,
      begin_cycle, bind, connect.
    rewrite C. reflexivity.
  - destruct (etl_log (disk w)) as [log | ] eqn:L.
    + destruct (cycle_shape env w log C L) as [? [? [? [? [? [E _]]]]]].
      now rewrite E.
    + unfold fetch_and_append_data, try_except_finally, try_body, bind,
        begin_cycle, bind, connect, log_etl_run, bind, view, set_conn, lift,
        insert_log.
      rewrite C. cbn [f_conn f_disk]. rewrite L. reflexivity.
Qed.

(** The driver's loop runs every pass. *)
Lemma driver_loop_runs_all (num_cycles : nat) (envs : nat -> cycle_env)
      (ixs : list nat) :
  forall w,
    driver_loop convert py_repr num_cycles ixs envs w
    = (Ok tt, fold_left (iteration convert py_repr num_cycles envs) ixs w).
Proof.
  induction ixs as [ | i rest IH]; intros w; simpl; trivial.
  pose proof (cycle_returns (envs i) (emit (cycle_banner num_cycles i) w))
    as R.
  unfold iteration at 2.
  destruct (fetch_and_append_data convert py_repr (envs i)
              (emit (cycle_banner num_cycles i) w)) as [r w2].
  simpl in R. subst r. apply IH.
Qed.

Lemma disk_wait_next (num_cycles i : nat) (w : world) :
  disk (wait_next num_cycles i w) = disk w.
Proof.
  unfold wait_next.
  now destruct (Z.of_nat i <? Z.of_nat num_cycles - 1).
Qed.

(** A cycle that opens its run adds one entry, closed, to the committed
    run log, after the entries that were there. *)
Lemma cycle_appends_terminal (env : cycle_env) (w : world)
      (log : list log_row) :
  connect_error env = None ->
  etl_log (disk w) = Some log ->
  exists r,
    etl_log (disk (snd (fetch_and_append_data convert py_repr env w)))
    = Some (log ++ [r])%list
    /\ terminal r
    /\ run_id r = next_run_id (etl_seq (disk w)) log.
Proof.
  intros C L.
  destruct (cycle_shape env w log C L)
    as [added [o' [n [st [err [E [_ S]]]]]]].
  rewrite E. eexists. split; [reflexivity | split; [ | reflexivity]].
  unfold terminal. cbn [closed_row status].
  destruct S as [[_ [-> _]] | [e [_ [-> _]]]]; auto.
Qed.

Lemma job_appends_terminal (num_cycles : nat) (envs : nat -> cycle_env)
      (ixs : list nat) :
  (forall i, connect_error (envs i) = None) ->
  forall w log,
    etl_log (disk w) = Some log ->
    exists added,
      etl_log (disk (fold_left (iteration convert py_repr num_cycles envs)
                               ixs w))
      = Some (log ++ added)%list
      /\ List.length added = List.length ixs
      /\ Forall terminal added.
Proof.
  intros C. induction ixs as [ | i rest IH]; intros w log L; simpl.
  - exists []. now rewrite app_nil_r.
  - destruct (cycle_appends_terminal (envs i)
                (emit (cycle_banner num_cycles i) w) log (C i) L)
      as [r [E [T _]]].
    destruct (IH (iteration convert py_repr num_cycles envs w i)
                 (log ++ [r])%list) as [added [Ea [La Ta]]].
    { unfold iteration. now rewrite disk_wait_next. }
    exists (r :: added). rewrite Ea, <- app_assoc. simpl.
    repeat split; auto.
Qed.
End CycleFacts.

(** ** The cycle on an engine that may refuse *)

Section FaultFacts.
Import Py Sql Etl Inv.
Variable convert : affinity -> sqlval -> sqlval.
Variable py_repr : pyval -> string.

(** Where the engine refuses nothing, the functions of [Fault] are those
    of [Etl] and [Setup]. *)
Lemma sound_cycle (env : cycle_env) (w : world) :
  Fault.fetch_and_append_data convert py_repr Fault.sound env w
  = fetch_and_append_data convert py_repr env w.
Proof. reflexivity. Qed.

Lemma sound_driver_loop (num_cycles : nat) (envs : nat -> cycle_env)
      (ixs : list nat) :
  forall w,
    Fault.driver_loop convert py_repr num_cycles ixs envs
                      (fun _ => Fault.sound) w
    = driver_loop convert py_repr num_cycles ixs envs w.
Proof.
  induction ixs as [ | i rest IH]; intros w; simpl; trivial.
  rewrite sound_cycle.
  destruct (fetch_and_append_data convert py_repr (envs i)
              (emit (cycle_banner num_cycles i) w)) as [[[] | e] w2]; trivial.
Qed.

Lemma sound_job (num_cycles : nat) (envs : nat -> cycle_env) (w : world) :
  Fault.run_job convert py_repr num_cycles envs (fun _ => Fault.sound) w
  = run_job convert py_repr num_cycles envs w.
Proof. unfold Fault.run_job, run_job. now rewrite sound_driver_loop. Qed.

Lemma sound_setup_database (connect_error : option exn) (db_name : string)
      (w : world) :
  Fault.setup_database Fault.sound_setup connect_error db_name w
  = Setup.setup_database connect_error db_name w.
Proof. reflexivity. Qed.

Lemma bind_run {A B : Type} (m : M A) (k : A -> M B) (s : frame) :
  (x <- m ;; k x) s
  = match m s with
    | (Ok a, s') => k a s'
    | (Raise e, s') => (Raise e, s')
    end.
Proof. reflexivity. Qed.

(** A refusal leaves the file and the output as they were. *)
Lemma after_refusal_keeps (x : Fault.refusal) (s : frame) :
  f_disk (Fault.after_refusal x s) = f_disk s
  /\ f_out (Fault.after_refusal x s) = f_out s
  /\ f_run_id (Fault.after_refusal x s) = f_run_id s.
Proof. unfold Fault.after_refusal. destruct (Fault.transaction_lost x); auto. Qed.

(** The working copy a refusal leaves on an open connection. *)
Lemma after_refusal_conn (x : Fault.refusal) (db : database)
      (rid : option Z) (dk : database) (o : list event) :
  Fault.after_refusal x (Frame (Some db) rid dk o)
  = Frame (Some (if Fault.transaction_lost x then dk else db)) rid dk o.
Proof. unfold Fault.after_refusal. now destruct (Fault.transaction_lost x). Qed.

(** [end_run] on an open connection: a refused statement changes no row,
    a refused commit leaves the rows rewritten in the working copy only,
    unless the transaction is lost. *)
Lemma refusable_end_run (fx fc : option Fault.refusal) (now st : string)
      (n : Z) (err : option string) (id : Z) (db : database)
      (log : list log_row) (rid : option Z) (dk : database)
      (o : list event) :
  id <> 0 ->
  etl_log db = Some log ->
  status_check st = true ->
  let db' := Db (opensky_data db)
                (Some (map (update_row now n st err id) log))
                (etl_seq db) in
  Fault.log_etl_run fx fc now st n err (Some id) (Frame (Some db) rid dk o)
  = match fx with
    | Some x =>
        (Raise (Fault.raised x),
         Frame (Some (if Fault.transaction_lost x then dk else db)) rid dk o)
    | None =>
        match fc with
        | Some x =>
            (Raise (Fault.raised x),
             Frame (Some (if Fault.transaction_lost x then dk else db'))
                   rid dk o)
        | None => (Ok None, Frame (Some db') rid db' o)
        end
    end.
Proof.
  intros Z L S db'.
  unfold Fault.log_etl_run. rewrite bind_run. unfold view at 1.
  cbn [f_conn]. rewrite bind_run.
  destruct fx as [x | ].
  { unfold Fault.refused. now rewrite after_refusal_conn. }
  unfold Fault.refused at 1, ret at 1.
  destruct (Z.eqb_spec id 0) as [ | _]; [contradiction | ].
  rewrite bind_run. unfold lift at 1, update_log.
  rewrite L, S, andb_false_r. rewrite bind_run. unfold set_conn at 1.
  cbn [f_conn f_run_id f_disk f_out]. rewrite bind_run.
  destruct fc as [x | ].
  { unfold Fault.refused. now rewrite after_refusal_conn. }
  reflexivity.
Qed.

(** What [begin_run] does on an engine that may refuse. *)
Lemma refusable_begin_cycle (st : Fault.storage) (env : cycle_env)
      (w : world) :
  match connect_error env with
  | Some e => Fault.begin_cycle st env (entry w) = (Raise e, entry w)
  | None =>
      match Fault.begin_execute st with
      | Some x =>
          Fault.begin_cycle st env (entry w)
          = (Raise (Fault.raised x),
             Frame (Some (disk w)) None (disk w) (out w))
      | None => Fault.begin_cycle st env (entry w) = begin_cycle env (entry w)
      end
  end.
Proof.
  unfold Fault.begin_cycle, bind at 1, connect, entry.
  destruct (connect_error env) as [e | ] eqn:C; [reflexivity | ].
  destruct (Fault.begin_execute st) as [x | ].
  { unfold Fault.log_etl_run, set_conn. rewrite !bind_run.
    unfold view at 1. cbn [f_conn]. rewrite bind_run.
    unfold Fault.refused. rewrite after_refusal_conn.
    now destruct (Fault.transaction_lost x). }
  unfold begin_cycle, bind at 3, connect. rewrite C. reflexivity.
Qed.

(** The closing write of a cycle that succeeds, from an opened run. *)
Lemma refusable_close_success (st : Fault.storage) (env : cycle_env)
      (lv : level) (msg : string) (n : Z) (d : option (list row))
      (log : list log_row) (id : Z) (t0 : string) (dk : database)
      (o : list event) :
  id <> 0 ->
  (forall r, In r log -> run_id r <> id) ->
  let db := Db d (Some (log ++ [running_row id t0])%list) id in
  let db' := Db d (Some (log ++ [closed_row id t0 (now_end env) n
                                            "Success" None])%list) id in
  let o' := (o ++ [Logged lv msg])%list in
  (logging lv msg ;;
   Fault.log_etl_run (Fault.end_execute st) (Fault.end_commit st)
                     (now_end env) "Success" n None (Some id) ;;
   ret tt) (opened d log id t0 dk o)
  = match Fault.end_execute st with
    | Some x =>
        (Raise (Fault.raised x),
         Frame (Some (if Fault.transaction_lost x then dk else db))
               (Some id) dk o')
    | None =>
        match Fault.end_commit st with
        | Some x =>
            (Raise (Fault.raised x),
             Frame (Some (if Fault.transaction_lost x then dk else db'))
                   (Some id) dk o')
        | None => (Ok tt, Frame (Some db') (Some id) db' o')
        end
    end.
Proof.
  intros Z F db db' o'. rewrite bind_run. unfold logging at 1, opened.
  cbn [f_conn f_run_id f_disk f_out]. rewrite bind_run.
  fold (running_row id t0). fold db. fold o'.
  rewrite (refusable_end_run (Fault.end_execute st) (Fault.end_commit st)
             (now_end env) "Success" n None id db
             (log ++ [running_row id t0])%list (Some id) dk o' Z eq_refl
             eq_refl).
  cbn [opensky_data etl_seq db].
  rewrite (update_own_row _ _ _ _ id log (running_row id t0) F eq_refl).
  cbn [running_row start_time]. fold db'.
  destruct (Fault.end_execute st); [reflexivity | ].
  destruct (Fault.end_commit st); reflexivity.
Qed.

(** Lines 81-84 from an opened run: a refused statement or commit, or a
    record that cannot be bound, leaves with nothing committed. *)
Lemma refusable_insert_and_commit (st : Fault.storage)
      (records : list (list pyval)) (tbl : list row) (log : list log_row)
      (id : Z) (t0 : string) (dk : database) (o : list event) :
  let db tbl' := Db (Some tbl') (Some (log ++ [running_row id t0])%list) id in
  Fault.insert_and_commit convert st records
                          (opened (Some tbl) log id t0 dk o)
  = match Fault.load_execute st with
    | Some (k, x) =>
        let (tbl', res) := executemany_loop convert tbl 0 (firstn k records) in
        match res with
        | Raise e => (Raise e, opened (Some tbl') log id t0 dk o)
        | Ok _ =>
            (Raise (Fault.raised x),
             Frame (Some (if Fault.transaction_lost x then dk else db tbl'))
                   (Some id) dk o)
        end
    | None =>
        let (tbl', res) := executemany_loop convert tbl 0 records in
        match res with
        | Raise e => (Raise e, opened (Some tbl') log id t0 dk o)
        | Ok n =>
            match Fault.load_commit st with
            | Some x =>
                (Raise (Fault.raised x),
                 Frame (Some (if Fault.transaction_lost x then dk
                              else db tbl'))
                       (Some id) dk o)
            | None => (Ok n, Frame (Some (db tbl')) (Some id) (db tbl') o)
            end
        end
    end.
Proof.
  intros db. unfold Fault.insert_and_commit. rewrite bind_run.
  unfold opened. fold (running_row id t0). fold (db tbl).
  destruct (Fault.load_execute st) as [[k x] | ].
  - rewrite bind_run. unfold executemany. rewrite bind_run. unfold view at 1.
    cbn [f_conn db opensky_data etl_log etl_seq].
    destruct (executemany_loop convert tbl 0 (firstn k records))
      as [tbl' [n | e]]; [ | reflexivity].
    rewrite bind_run. unfold set_conn at 1, lift at 1.
    cbn [f_conn f_run_id f_disk f_out]. rewrite bind_run.
    unfold Fault.refused. now rewrite after_refusal_conn.
  - unfold executemany. rewrite bind_run. unfold view at 1.
    cbn [f_conn db opensky_data etl_log etl_seq].
    destruct (executemany_loop convert tbl 0 records) as [tbl' [n | e]];
      [ | reflexivity].
    rewrite bind_run. unfold set_conn at 1, lift at 1.
    cbn [f_conn f_run_id f_disk f_out]. rewrite bind_run.
    destruct (Fault.load_commit st) as [x | ].
    { unfold Fault.refused. now rewrite after_refusal_conn. }
    reflexivity.
Qed.

Lemma refusable_insert_without_relation (st : Fault.storage)
      (records : list (list pyval)) (log : list log_row)
      (id : Z) (t0 : string) (dk : database) (o : list event) :
  Fault.insert_and_commit convert st records (opened None log id t0 dk o)
  = (no_such_table "opensky_data", opened None log id t0 dk o).
Proof.
  unfold Fault.insert_and_commit. rewrite bind_run.
  now destruct (Fault.load_execute st) as [[k x] | ].
Qed.

(** Lines 47-90 from an opened run, on an engine that may refuse: either
    the run is closed as a success and committed, or an exception leaves
    in one of the frames [Fault.interrupted] describes. *)
Lemma refusable_extract_and_load (st : Fault.storage) (env : cycle_env)
      (d : option (list row)) (log : list log_row) (id : Z)
      (dk : database) (o : list event) :
  id <> 0 ->
  (forall r, In r log -> run_id r <> id) ->
  let start := opened d log id (now_start env) dk o in
  (exists d' n o',
      Fault.extract_and_load convert py_repr st env (Some id) start
      = (Ok tt, settled d' log id (now_start env) (now_end env) n
                        "Success" None o'))
  \/ (exists e s',
         Fault.extract_and_load convert py_repr st env (Some id) start
         = (Raise e, s')
         /\ Fault.interrupted st log id (now_start env) dk s').
Proof.
  intros Z F start.
  pose (t0 := now_start env).
  assert (Row : forall d1 r o1,
             run_id r = id -> start_time r = t0 ->
             Fault.interrupted
               st log id t0 dk
               (Frame (Some (Db d1 (Some (log ++ [r])%list) id)) (Some id)
                      dk o1)).
  { intros d1 r o1 R S. split; [reflexivity | ]. exists d1.
    split; [now left | left]. now exists r. }
  assert (Lost : forall o1,
             Fault.keeps_transaction st = false ->
             Fault.interrupted st log id t0 dk
                               (Frame (Some dk) (Some id) dk o1)).
  { intros o1 K. split; [reflexivity | ]. exists None.
    split; [now left | right]. now split. }
  assert (Stay : forall e : exn,
             exists e' s',
               (Raise e : result unit, start) = (Raise e', s')
               /\ Fault.interrupted st log id t0 dk s').
  { intros e. exists e, start. split; [reflexivity | ].
    apply (Row d (running_row id t0) o); reflexivity. }
  assert (Close : forall lv msg n tbl,
             Fault.load_commit st = None ->
             let shut :=
               (logging lv msg ;;
                Fault.log_etl_run (Fault.end_execute st) (Fault.end_commit st)
                                  (now_end env) "Success" n None (Some id) ;;
                ret tt) in
             let dk1 := Db (Some tbl) (Some (log ++ [running_row id t0])%list)
                           id in
             (exists d' n' o',
                 shut (opened (Some tbl) log id t0 dk1 o)
                 = (Ok tt, settled d' log id t0 (now_end env) n'
                                   "Success" None o'))
             \/ (exists e s',
                    shut (opened (Some tbl) log id t0 dk1 o) = (Raise e, s')
                    /\ Fault.interrupted st log id t0 dk s')).
  { intros lv msg n tbl LC shut dk1. unfold shut.
    rewrite refusable_close_success by trivial.
    destruct (Fault.end_execute st) as [x | ] eqn:X.
    - right. eexists. eexists. split; [reflexivity | ].
      split; [reflexivity | ]. exists (Some tbl). cbn [f_disk f_conn].
      split.
      + right. split; [reflexivity | split; [exact LC | left; congruence]].
      + left. exists (running_row id t0).
        split; [now destruct (Fault.transaction_lost x) | now split].
    - destruct (Fault.end_commit st) as [x | ] eqn:Y.
      + right. eexists. eexists. split; [reflexivity | ].
        split; [reflexivity | ]. exists (Some tbl). cbn [f_disk f_conn].
        split.
        * right. split; [reflexivity | split; [exact LC | right; congruence]].
        * left. destruct (Fault.transaction_lost x).
          -- exists (running_row id t0). now split.
          -- eexists. split; [reflexivity | now split].
      + left. eexists. eexists. eexists. reflexivity. }
  assert (Shut : forall lv msg n d1,
             let shut :=
               (logging lv msg ;;
                Fault.log_etl_run (Fault.end_execute st) (Fault.end_commit st)
                                  (now_end env) "Success" n None (Some id) ;;
                ret tt) in
             (exists d' n' o',
                 shut (opened d1 log id t0 dk o)
                 = (Ok tt, settled d' log id t0 (now_end env) n'
                                   "Success" None o'))
             \/ (exists e s',
                    shut (opened d1 log id t0 dk o) = (Raise e, s')
                    /\ Fault.interrupted st log id t0 dk s')).
  { intros lv msg n d1 shut. unfold shut.
    rewrite refusable_close_success by trivial.
    destruct (Fault.end_execute st) as [x | ] eqn:X.
    - right. eexists. eexists. split; [reflexivity | ].
      destruct (Fault.transaction_lost x) eqn:T.
      + apply Lost. unfold Fault.keeps_transaction, Fault.kept.
        rewrite X, T. cbn. now rewrite !andb_false_r.
      + apply Row; reflexivity.
    - destruct (Fault.end_commit st) as [x | ] eqn:Y.
      + right. eexists. eexists. split; [reflexivity | ].
        destruct (Fault.transaction_lost x) eqn:T.
        * apply Lost. unfold Fault.keeps_transaction, Fault.kept.
          rewrite Y, T. cbn. now rewrite !andb_false_r.
        * apply Row; reflexivity.
      + left. eexists. eexists. eexists. reflexivity. }
  unfold Fault.extract_and_load.
  destruct (response env) as [data | e]; rewrite ?bind_lift_raise.
  2:{ right. apply Stay. }
  rewrite !bind_lift_ok.
  destruct (get_method data "states" (PList [])) as [states | e];
    rewrite ?bind_lift_raise.
  2:{ right. apply Stay. }
  rewrite !bind_lift_ok.
  destruct (truthy states); cbn [negb].
  2:{ apply Shut. }
  destruct (iter states) as [items | e]; rewrite ?bind_lift_raise.
  2:{ right. apply Stay. }
  rewrite !bind_lift_ok.
  destruct (normalize py_repr items (utcnow_fetch env)) as [records | e];
    rewrite ?bind_lift_raise.
  2:{ right. apply Stay. }
  rewrite !bind_lift_ok.
  unfold Fault.load. destruct records as [ | record records].
  { apply Shut. }
  rewrite bind_run. unfold start at 1 2. fold t0.
  destruct d as [tbl | ].
  2:{ rewrite refusable_insert_without_relation. right. apply Stay. }
  rewrite refusable_insert_and_commit.
  destruct (Fault.load_execute st) as [[k x] | ] eqn:X.
  { destruct (executemany_loop convert tbl 0 (firstn k (record :: records)))
      as [tbl' [n | e]];
      right; eexists; eexists; (split; [reflexivity | ]).
    - destruct (Fault.transaction_lost x) eqn:T.
      + apply Lost. unfold Fault.keeps_transaction, Fault.kept.
        rewrite X. cbn [option_map snd]. now rewrite T.
      + apply Row; reflexivity.
    - apply Row; reflexivity. }
  destruct (executemany_loop convert tbl 0 (record :: records))
    as [tbl' res].
  destruct res as [n | e].
  2:{ right. eexists. eexists. split; [reflexivity | ].
      apply Row; reflexivity. }
  destruct (Fault.load_commit st) as [x | ] eqn:LC.
  { right. eexists. eexists. split; [reflexivity | ].
    destruct (Fault.transaction_lost x) eqn:T.
    - apply Lost. unfold Fault.keeps_transaction, Fault.kept.
      rewrite LC, T. cbn. now rewrite !andb_false_r.
    - apply Row; reflexivity. }
  apply (Close INFO _ n tbl' eq_refl).
Qed.

(** A [try] body that raises after the run was opened.  The [except]
    clause writes the failure: what that write raises leaves the call,
    nothing more committed; when it is accepted the call returns, with the
    run committed as a failure unless a refusal had cost the cycle its
    transaction, in which case the file is as the cycle found it. *)
Lemma refusable_cycle_of_failure (st : Fault.storage) (env : cycle_env)
      (w : world) (log : list log_row) (id : Z) (e : exn) (s' : frame) :
  id <> 0 ->
  (forall r, In r log -> run_id r <> id) ->
  etl_log (disk w) = Some log ->
  Fault.try_body convert py_repr st env (entry w) = (Raise e, s') ->
  Fault.interrupted st log id (now_start env) (disk w) s' ->
  let o' := (f_out s'
             ++ [Logged ERROR ("ETL cycle failed: " ++ exn_msg e)])%list in
  let after := Fault.fetch_and_append_data convert py_repr st env w in
  match Fault.failure_write_refused st with
  | Some e' => after = (Raise e', World (f_disk s') o')
  | None =>
      exists W,
        after = (Ok tt, World W o')
        /\ (etl_log W
            = Some (log ++ [closed_row id (now_start env) (now_end env) 0
                                       "Failure" (Some (exn_msg e))])%list
            \/ (Fault.keeps_transaction st = false /\ W = disk w))
  end.
Proof.
  intros Z F L B [R [d' [K C]]] o' after.
  destruct s' as [c rid dk' o1]. cbn [f_run_id f_disk f_conn f_out] in *.
  subst rid.
  pose (now := now_end env). pose (err := Some (exn_msg e)).
  assert (G : exists db l,
             c = Some db
             /\ etl_log db = Some l
             /\ (map (update_row now 0 "Failure" err id) l
                 = (log ++ [closed_row id (now_start env) now 0 "Failure"
                                       err])%list
                 \/ (Fault.keeps_transaction st = false
                     /\ Db (opensky_data db)
                           (Some (map (update_row now 0 "Failure" err id) l))
                           (etl_seq db)
                        = disk w))).
  { destruct C as [[r [-> [Rr Sr]]] | [-> T]].
    - eexists. eexists. split; [reflexivity | split; [reflexivity | left]].
      rewrite update_own_row by trivial. now rewrite Sr.
    - destruct K as [-> | [-> _]].
      + exists (disk w), log. split; [reflexivity | split; [exact L | right]].
        split; [exact T | ]. rewrite update_no_match by trivial.
        destruct (disk w) as [dd ll qq]. cbn in L |- *. now subst ll.
      + eexists. eexists. split; [reflexivity | split; [reflexivity | left]].
        now rewrite update_own_row. }
  destruct G as [db [l [-> [Ll U]]]]. subst now err.
  assert (E : after
              = match Fault.failure_execute st with
                | Some x => (Raise (Fault.raised x), World dk' o')
                | None =>
                    match Fault.failure_commit st with
                    | Some x => (Raise (Fault.raised x), World dk' o')
                    | None =>
                        (Ok tt,
                         World (Db (opensky_data db)
                                   (Some (map (update_row (now_end env) 0
                                                          "Failure"
                                                          (Some (exn_msg e))
                                                          id) l))
                                   (etl_seq db))
                               o')
                    end
                end).
  { unfold after, Fault.fetch_and_append_data, try_except_finally.
    fold (entry w). rewrite B.
    unfold Fault.on_exception. rewrite bind_run. unfold logging at 1.
    cbn [f_conn f_run_id f_disk f_out run_id_set].
    destruct (Z.eqb_spec id 0) as [ | _]; [contradiction | ].
    cbn [negb]. fold o'. rewrite bind_run.
    rewrite (refusable_end_run (Fault.failure_execute st)
               (Fault.failure_commit st) (now_end env) "Failure" 0
               (Some (exn_msg e)) id db l (Some id) dk' o' Z Ll eq_refl).
    destruct (Fault.failure_execute st) as [x | ]; [reflexivity | ].
    destruct (Fault.failure_commit st) as [x | ]; reflexivity. }
  unfold Fault.failure_write_refused. rewrite E.
  destruct (Fault.failure_execute st) as [x | ]; [reflexivity | ].
  destruct (Fault.failure_commit st) as [x | ]; [reflexivity | ].
  cbn [option_map]. eexists. split; [reflexivity | ].
  destruct U as [U | [T U]]; [left | right].
  - cbn [etl_log]. now rewrite U.
  - now split.
Qed.

(** A cycle that opens its run, on an engine that may refuse.  Either the
    body of the [try] returns and the run is committed as a success; or it
    raises, the file then holding no entry for the run or, if the load had
    committed, its entry as Running, and the [except] clause does what
    [refusable_cycle_of_failure] says. *)
Lemma refusable_cycle_shape (st : Fault.storage) (env : cycle_env)
      (w : world) (log : list log_row) :
  connect_error env = None ->
  etl_log (disk w) = Some log ->
  Fault.begin_execute st = None ->
  let id := next_run_id (etl_seq (disk w)) log in
  let after := Fault.fetch_and_append_data convert py_repr st env w in
  (exists d' n o',
      fst (Fault.try_body convert py_repr st env (entry w)) = Ok tt
      /\ after
         = (Ok tt,
            World (Db d' (Some (log ++ [closed_row id (now_start env)
                                                   (now_end env) n
                                                   "Success" None])%list) id)
                  o'))
  \/ (exists e dk' o',
         fst (Fault.try_body convert py_repr st env (entry w)) = Raise e
         /\ (etl_log dk' = Some log
             \/ etl_log dk'
                = Some (log ++ [running_row id (now_start env)])%list)
         /\ match Fault.failure_write_refused st with
            | Some e' => after = (Raise e', World dk' o')
            | None =>
                exists W,
                  after = (Ok tt, World W o')
                  /\ (etl_log W
                      = Some (log ++ [closed_row id (now_start env)
                                                 (now_end env) 0 "Failure"
                                                 (Some (exn_msg e))])%list
                      \/ (Fault.keeps_transaction st = false /\ W = disk w))
            end).
Proof.
  intros C L X id after.
  destruct (next_run_id_bound (etl_seq (disk w)) log) as [P _].
  assert (Z : id <> 0) by (unfold id; lia).
  assert (F : forall r, In r log -> run_id r <> id)
    by (intros r; apply next_run_id_fresh).
  assert (T : Fault.try_body convert py_repr st env (entry w)
              = Fault.extract_and_load convert py_repr st env (Some id)
                  (opened (opensky_data (disk w)) log id (now_start env)
                          (disk w)
                          (out w ++ [Logged INFO ("Starting ETL Cycle (Run ID: "
                                                  ++ str_int id ++ ")...")])%list)).
  { unfold Fault.try_body. rewrite bind_run.
    pose proof (refusable_begin_cycle st env w) as B. rewrite C, X in B.
    rewrite B, (begin_cycle_ok env w log C L). reflexivity. }
  destruct (refusable_extract_and_load st env (opensky_data (disk w)) log id
              (disk w)
              (out w ++ [Logged INFO ("Starting ETL Cycle (Run ID: "
                                      ++ str_int id ++ ")...")])%list Z F)
    as [[d' [n [o' B]]] | [e [s' [B I]]]];
    rewrite <- T in B.
  - left. exists d', n, o'. rewrite B. split; [reflexivity | ].
    unfold after, Fault.fetch_and_append_data, try_except_finally.
    fold (entry w). rewrite B. reflexivity.
  - right.
    exists e, (f_disk s'),
      (f_out s' ++ [Logged ERROR ("ETL cycle failed: " ++ exn_msg e)])%list.
    rewrite B. split; [reflexivity | split].
    + destruct I as [_ [d' [[-> | [-> _]] _]]]; [now left | now right].
    + apply (refusable_cycle_of_failure st env w log id e s' Z F L B I).
Qed.

(** A cycle that cannot open its run, because the file cannot be opened,
    because the engine refuses the INSERT of line 19 or because the run
    log is missing, writes nothing: [run_id] is still [None] in the
    [except] clause. *)
Lemma refusable_cycle_unopened (st : Fault.storage) (env : cycle_env)
      (w : world) :
  connect_error env <> None
  \/ Fault.begin_execute st <> None
  \/ etl_log (disk w) = None ->
  exists e,
    Fault.fetch_and_append_data convert py_repr st env w
    = (Ok tt,
       World (disk w)
             (out w ++ [Logged ERROR ("ETL cycle failed: " ++ exn_msg e)])%list).
Proof.
  intros H.
  pose proof (refusable_begin_cycle st env w) as B.
  unfold Fault.fetch_and_append_data, try_except_finally, Fault.try_body.
  fold (entry w). rewrite bind_run.
  destruct (connect_error env) as [e | ] eqn:C.
  { exists e. rewrite B. reflexivity. }
  destruct (Fault.begin_execute st) as [x | ] eqn:X.
  { exists (Fault.raised x). rewrite B. reflexivity. }
  destruct H as [H | [H | L]]; try congruence.
  exists (Exn OperationalError "no such table: etl_log").
  rewrite B.
  unfold begin_cycle, bind, connect, entry, log_etl_run, bind, view, set_conn,
    lift, insert_log.
  rewrite C. cbn [f_conn f_disk]. rewrite L. reflexivity.
Qed.

Lemma accepted_is_not_refused (st : Fault.storage) :
  Fault.failure_write_accepted st -> Fault.failure_write_refused st = None.
Proof.
  intros [A1 A2]. unfold Fault.failure_write_refused. now rewrite A1, A2.
Qed.

(** No exception leaves the call when the write of line 97 is accepted,
    whatever else the engine refuses. *)
Lemma refusable_cycle_returns (st : Fault.storage) (env : cycle_env)
      (w : world) :
  Fault.failure_write_accepted st ->
  fst (Fault.fetch_and_append_data convert py_repr st env w) = Ok tt.
Proof.
  intros A. pose proof (accepted_is_not_refused st A) as R.
  destruct (connect_error env) as [e | ] eqn:C.
  { destruct (refusable_cycle_unopened st env w) as [e' ->]; trivial.
    left. congruence. }
  destruct (Fault.begin_execute st) as [x | ] eqn:X.
  { destruct (refusable_cycle_unopened st env w) as [e' ->]; trivial.
    right. left. congruence. }
  destruct (etl_log (disk w)) as [log | ] eqn:L.
  2:{ destruct (refusable_cycle_unopened st env w) as [e' ->]; auto. }
  destruct (refusable_cycle_shape st env w log C L X)
    as [[d' [n [o' [_ ->]]]] | [e [dk' [o' [_ [_ H]]]]]]; trivial.
  rewrite R in H. destruct H as [W [-> _]]. reflexivity.
Qed.

(** The driver's loop runs every pass when no cycle is refused the write
    of line 97. *)
Lemma refusable_driver_runs_all (num_cycles : nat) (envs : nat -> cycle_env)
      (stores : nat -> Fault.storage) (ixs : list nat) :
  (forall i, In i ixs -> Fault.failure_write_accepted (stores i)) ->
  forall w,
    Fault.driver_loop convert py_repr num_cycles ixs envs stores w
    = (Ok tt,
       fold_left (Fault.iteration convert py_repr num_cycles envs stores)
                 ixs w).
Proof.
  induction ixs as [ | i rest IH]; intros A w; simpl; trivial.
  pose proof (refusable_cycle_returns (stores i) (envs i)
                (emit (cycle_banner num_cycles i) w) (A i (or_introl eq_refl)))
    as R.
  unfold Fault.iteration at 2.
  destruct (Fault.fetch_and_append_data convert py_repr (stores i) (envs i)
              (emit (cycle_banner num_cycles i) w)) as [r w2].
  simpl in R. subst r. apply IH. intros j H. apply A. now right.
Qed.

(** The loop ends at the first cycle that an exception leaves: the
    passes after it do not run. *)
Lemma refusable_driver_stops (num_cycles : nat) (envs : nat -> cycle_env)
      (stores : nat -> Fault.storage) (before after : list nat) (i : nat)
      (w w' : world) (e : exn) :
  (forall j, In j before -> Fault.failure_write_accepted (stores j)) ->
  Fault.fetch_and_append_data
    convert py_repr (stores i) (envs i)
    (emit (cycle_banner num_cycles i)
          (fold_left (Fault.iteration convert py_repr num_cycles envs stores)
                     before w))
  = (Raise e, w') ->
  Fault.driver_loop convert py_repr num_cycles (before ++ i :: after)%list
                    envs stores w
  = (Raise e, w').
Proof.
  revert w. induction before as [ | j rest IH]; intros w A E; simpl in *.
  - now rewrite E.
  - pose proof (refusable_cycle_returns (stores j) (envs j)
                  (emit (cycle_banner num_cycles j) w)
                  (A j (or_introl eq_refl))) as R.
    unfold Fault.iteration at 2 in E.
    destruct (Fault.fetch_and_append_data convert py_repr (stores j) (envs j)
                (emit (cycle_banner num_cycles j) w)) as [r w2].
    simpl in R. subst r. apply IH; auto.
Qed.

(** A cycle that opens its run, keeps its transaction and is not refused
    the write of line 97 adds one closed entry to the committed run
    log. *)
Lemma refusable_cycle_appends_terminal (st : Fault.storage)
      (env : cycle_env) (w : world) (log : list log_row) :
  connect_error env = None ->
  etl_log (disk w) = Some log ->
  Fault.begin_execute st = None ->
  Fault.keeps_transaction st = true ->
  Fault.failure_write_accepted st ->
  exists r,
    etl_log (disk (snd (Fault.fetch_and_append_data convert py_repr st env w)))
    = Some (log ++ [r])%list
    /\ terminal r
    /\ run_id r = next_run_id (etl_seq (disk w)) log.
Proof.
  intros C L X K A. pose proof (accepted_is_not_refused st A) as R.
  destruct (refusable_cycle_shape st env w log C L X)
    as [[d' [n [o' [_ ->]]]] | [e [dk' [o' [_ [_ H]]]]]].
  - eexists. split; [reflexivity | split; [now left | reflexivity]].
  - rewrite R in H. destruct H as [W [-> [E | [T _]]]]; [ | congruence].
    cbn [snd disk]. rewrite E.
    eexists. split; [reflexivity | split; [now right | reflexivity]].
Qed.

Lemma refusable_job_appends_terminal (num_cycles : nat)
      (envs : nat -> cycle_env) (stores : nat -> Fault.storage)
      (ixs : list nat) :
  (forall i, connect_error (envs i) = None) ->
  (forall i, Fault.begin_execute (stores i) = None) ->
  (forall i, Fault.keeps_transaction (stores i) = true) ->
  (forall i, Fault.failure_write_accepted (stores i)) ->
  forall w log,
    etl_log (disk w) = Some log ->
    exists added,
      etl_log (disk (fold_left
                       (Fault.iteration convert py_repr num_cycles envs stores)
                       ixs w))
      = Some (log ++ added)%list
      /\ List.length added = List.length ixs
      /\ Forall terminal added.
Proof.
  intros C X K A. induction ixs as [ | i rest IH]; intros w log L; simpl.
  - exists []. now rewrite app_nil_r.
  - destruct (refusable_cycle_appends_terminal (stores i) (envs i)
                (emit (cycle_banner num_cycles i) w) log (C i) L (X i) (K i)
                (A i))
      as [r [E [T _]]].
    destruct (IH (Fault.iteration convert py_repr num_cycles envs stores w i)
                 (log ++ [r])%list) as [added [Ea [La Ta]]].
    { unfold Fault.iteration. now rewrite disk_wait_next. }
    exists (r :: added). rewrite Ea, <- app_assoc. simpl.
    repeat split; auto.
Qed.

(** Unfolds a call of [setup_database] down to the frames it goes
    through. *)
Ltac run_setup :=
  unfold Fault.setup_database, try_except_finally, Fault.setup_body,
    Setup.execute_ddl, Setup.open_database, Setup.setup_except,
    Setup.setup_finally, Fault.declined, bind, logging, view, lift, set_conn,
    commit, bind, view, close, set_conn, raise, ret;
  cbn [Setup.create_opensky_data Setup.create_index Setup.create_etl_log
       opensky_data etl_log etl_seq f_conn f_disk f_out f_run_id disk out
       Fault.table_execute Fault.country_index_execute
       Fault.time_index_execute Fault.log_table_execute Fault.setup_commit].

(** What a call of [setup_database] that is refused somewhere leaves:
    the exception is caught when it is one of [sqlite3], and no row and no
    relation that was there is lost. *)
Lemma refusable_setup (answers : Fault.setup_storage) (db_name : string)
      (w : world) :
  let call := Fault.setup_database answers None db_name w in
  rows (opensky_data (disk (snd call))) = rows (opensky_data (disk w))
  /\ rows (etl_log (disk (snd call))) = rows (etl_log (disk w))
  /\ etl_seq (disk (snd call)) = etl_seq (disk w)
  /\ (forall e, fst call = Raise e ->
                Setup.is_sqlite_error (exn_cls e) = false).
Proof.
  destruct w as [[d l q] o]. destruct answers as [a b c t m].
  assert (Caught : forall e : exn,
             Setup.is_sqlite_error (exn_cls e) = true
             \/ Setup.is_sqlite_error (exn_cls e) = false).
  { intros e. destruct (Setup.is_sqlite_error (exn_cls e)); auto. }
  destruct a as [e | ];
    [ | destruct b as [e | ];
        [ | destruct c as [e | ];
            [ | destruct t as [e | ];
                [ | destruct m as [e | ]]]]];
    try (destruct (Caught e) as [S | S]);
    destruct d, l; run_setup; rewrite ?S;
    cbn [fst snd disk opensky_data etl_log etl_seq rows f_conn f_disk f_out];
    repeat split; try discriminate;
    try (intros e' E; inversion E; subst; assumption).
Qed.

End FaultFacts.

(** ** The properties of the specification *)

Section Claims.
Import Py Sql Etl Inv.
Variable convert : affinity -> sqlval -> sqlval.
Variable py_repr : pyval -> string.

(** C4.  A cycle whose fetch raises (lines 47-50: network failure,
    timeout, non-2xx status) ends with exactly one entry added to the
    committed run log, closed as a Failure whose error message is the
    text of the exception, and with the observations as they were. *)
Theorem fetch_error_marks_failure (env : cycle_env) (w : world)
        (log : list log_row) (e : exn) :
  connect_error env = None ->
  etl_log (disk w) = Some log ->
  response env = Raise e ->
  let id := next_run_id (etl_seq (disk w)) log in
  fetch_and_append_data convert py_repr env w
  = (Ok tt,
     World (Db (opensky_data (disk w))
               (Some (log ++ [closed_row id (now_start env) (now_end env) 0
                                         "Failure" (Some (exn_msg e))])%list)
               id)
           ((out w ++ [Logged INFO ("Starting ETL Cycle (Run ID: "
                                    ++ str_int id ++ ")...")])
            ++ [Logged ERROR ("ETL cycle failed: " ++ exn_msg e)])%list).
Proof.
  intros C L R id.
  destruct (next_run_id_bound (etl_seq (disk w)) log) as [P _].
  apply cycle_of_failure with (dk := disk w).
  - unfold id. lia.
  - intros r. apply next_run_id_fresh.
  - rewrite (try_body_opened convert py_repr env w log C L).
    unfold extract_and_load. rewrite R. reflexivity.
Qed.

(** C5.  A cycle whose response has no [states] member, or one that is
    empty ([[]], and likewise [null] or any other value that is false in a
    test), is a zero-record success: the load is not run, the observations
    are as they were, and the run is closed as a Success with 0 records
    processed. *)
Theorem empty_states_is_zero_record_success (env : cycle_env) (w : world)
        (log : list log_row) (kvs : list (string * pyval)) :
  connect_error env = None ->
  etl_log (disk w) = Some log ->
  response env = Ok (PDict kvs) ->
  dict_get "states" kvs = None
  \/ dict_get "states" kvs = Some (PList [])
  \/ (exists v, dict_get "states" kvs = Some v /\ truthy v = false) ->
  let id := next_run_id (etl_seq (disk w)) log in
  fetch_and_append_data convert py_repr env w
  = (Ok tt,
     World (Db (opensky_data (disk w))
               (Some (log ++ [closed_row id (now_start env) (now_end env) 0
                                         "Success" None])%list)
               id)
           ((out w ++ [Logged INFO ("Starting ETL Cycle (Run ID: "
                                    ++ str_int id ++ ")...")])
            ++ [Logged WARNING "No flight data received in this cycle."])%list).
Proof.
  intros C L R S id.
  destruct (next_run_id_bound (etl_seq (disk w)) log) as [P _].
  apply cycle_of_success.
  rewrite (try_body_opened convert py_repr env w log C L).
  unfold extract_and_load. rewrite R, bind_lift_ok.
  assert (G : exists states,
             get_method (PDict kvs) "states" (PList []) = Ok states
             /\ truthy states = false).
  { unfold get_method. destruct S as [-> | [-> | [v [-> T]]]]; eauto. }
  destruct G as [states [-> T]]. rewrite bind_lift_ok, T. cbn [negb].
  apply close_success.
  - fold id. lia.
  - intros r. apply next_run_id_fresh.
Qed.

(** C1.  The load inserts at most one row per primary key (aircraft
    identifier, last-contact time), whether the key is repeated in the
    batch or already stored, and the count it reports is the number of
    rows it added.  First part: for every relation and every batch, the
    rows [executemany] leaves are the old ones followed by rows of the
    batch, no two rows share a key, [rowcount] is the number of rows
    added, and the call returns on every batch whose values can be bound.
    Second part: every cycle keeps the keys distinct, and the
    records-processed of a run closed as a Success is the number of rows
    the cycle added.  Third part: a cycle whose response normalises to a
    batch whose values can be bound closes its run as a Success whose
    records-processed is the [rowcount] of that batch. *)
Theorem load_counts_only_new_rows :
  (forall (tbl : list row) (records : list (list pyval))
          (tbl' : list row) (res : result Z),
      pk_unique tbl ->
      executemany_loop convert tbl 0 records = (tbl', res) ->
      exists added,
        tbl' = (tbl ++ added)%list
        /\ pk_unique (tbl ++ added)
        /\ Forall (stored_from convert records) added
        /\ (forall n, res = Ok n -> n = Z.of_nat (List.length added))
        /\ (forallb bindable records = true -> exists n, res = Ok n))
  /\ (forall (env : cycle_env) (w : world) (log : list log_row)
             (tbl : list row),
         connect_error env = None ->
         etl_log (disk w) = Some log ->
         opensky_data (disk w) = Some tbl ->
         pk_unique tbl ->
         let id := next_run_id (etl_seq (disk w)) log in
         exists added n st err o',
           fetch_and_append_data convert py_repr env w
           = (Ok tt,
              World (Db (Some (tbl ++ added)%list)
                        (Some (log ++ [closed_row id (now_start env)
                                         (now_end env) n st err])%list)
                        id) o')
           /\ pk_unique (tbl ++ added)
           /\ (st = "Success" -> n = Z.of_nat (List.length added)))
  /\ (forall (env : cycle_env) (w : world) (log : list log_row)
             (tbl : list row) (data states : pyval) (items : list pyval)
             (records : list (list pyval)),
         connect_error env = None ->
         etl_log (disk w) = Some log ->
         opensky_data (disk w) = Some tbl ->
         pk_unique tbl ->
         response env = Ok data ->
         get_method data "states" (PList []) = Ok states ->
         truthy states = true ->
         iter states = Ok items ->
         normalize py_repr items (utcnow_fetch env) = Ok records ->
         forallb bindable records = true ->
         let id := next_run_id (etl_seq (disk w)) log in
         exists added o',
           executemany_loop convert tbl 0 records
           = ((tbl ++ added)%list, Ok (Z.of_nat (List.length added)))
           /\ pk_unique (tbl ++ added)
           /\ fetch_and_append_data convert py_repr env w
              = (Ok tt,
                 World (Db (Some (tbl ++ added)%list)
                           (Some (log ++ [closed_row id (now_start env)
                                            (now_end env)
                                            (Z.of_nat (List.length added))
                                            "Success" None])%list)
                           id) o')).
Proof.
  split; [ | split].
  - intros tbl records tbl' res U E.
    now apply executemany_loop_spec.
  - intros env w log tbl C L D U id.
    destruct (cycle_shape convert py_repr env w log C L)
      as [added [o' [n [st [err [E [P S]]]]]]].
    rewrite D in E, P. cbn [grow rows] in E, P.
    exists added, n, st, err, o'.
    split; [exact E | split; [auto | ]].
    intros ->. destruct S as [[_ [_ [_ ->]]] | [e [_ [F _]]]];
      [reflexivity | discriminate F].
  - intros env w log tbl data states items records C L D U R G T I N B id.
    destruct (executemany_loop convert tbl 0 records) as [tbl' res] eqn:E.
    destruct (executemany_loop_spec convert _ _ _ _ U E)
      as [added [-> [P [_ [Cn Ret]]]]].
    destruct (Ret B) as [n ->]. rewrite (Cn n eq_refl) in *.
    destruct (next_run_id_bound (etl_seq (disk w)) log) as [Pos _].
    eexists added, _. split; [reflexivity | split; [exact P | ]].
    apply cycle_of_success.
    rewrite (try_body_opened convert py_repr env w log C L), D.
    apply extract_and_load_loaded
      with (data := data) (states := states) (items := items)
           (records := records); trivial.
    + fold id. lia.
    + intros r. apply next_run_id_fresh.
Qed.

(** C6.  Running the load step (lines 81-84) a second time with the same
    batch leaves the state the first run left: the same rows in the
    working copy and in the file, hence the same row count, and a second
    run that returns reports no row inserted. *)
Theorem load_is_idempotent (records : list (list pyval)) (s : frame) :
  let once := insert_and_commit convert records s in
  let twice := insert_and_commit convert records (snd once) in
  snd twice = snd once
  /\ List.length (rows (opensky_data (f_disk (snd twice))))
     = List.length (rows (opensky_data (f_disk (snd once))))
  /\ (forall n, fst once = Ok n -> fst twice = Ok 0).
Proof.
  intros once twice.
  assert (A : snd twice = snd once
              /\ (forall n, fst once = Ok n -> fst twice = Ok 0)).
  { unfold twice, once, insert_and_commit, executemany, bind, view.
    destruct s as [c rid dk o]. cbn [f_conn].
    destruct c as [db | ]; [ | split; [reflexivity | discriminate]].
    destruct (opensky_data db) as [tbl | ] eqn:D.
    2:{ unfold no_such_table, lift. cbn [snd fst f_conn]. rewrite D.
        split; [reflexivity | discriminate]. }
    destruct (executemany_loop convert tbl 0 records) as [tbl1 res] eqn:E.
    pose proof (executemany_loop_again convert _ _ _ _ _ E tbl1 0
                  (incl_refl tbl1)) as E2.
    destruct res as [n | e];
      unfold set_conn, lift, commit, bind, view, ret;
      cbn [f_conn f_run_id f_disk f_out snd fst opensky_data etl_log etl_seq];
      rewrite E2;
      cbn [f_conn f_run_id f_disk f_out snd fst opensky_data etl_log etl_seq];
      split; trivial; discriminate. }
  destruct A as [A1 A2]. rewrite A1. auto.
Qed.

(** C2, as the code has it.  An exception raised in the [try] of a cycle,
    a refusal of the engine included, is caught by the [except] clause.
    Once the run is opened the clause writes the failure (line 97), in no
    [try] of its own.  When that write is accepted the call returns, and
    the committed run log gains the run's entry, closed as a Failure with
    the text of the exception, unless a refusal had made the engine roll
    the transaction back, [begin_run]'s INSERT with it: nothing is then
    recorded.  When the write is refused, what it raises leaves
    [fetch_and_append_data], the file holding no entry for the run or its
    entry as Running.  A cycle that could not open its run returns and
    records nothing.  The driver, whose loop has no [try], runs all its
    cycles when no failure write is refused, leaving one closed entry per
    cycle that opened its run and kept its transaction, and stops at the
    first cycle an exception leaves. *)
Theorem cycle_failure_is_contained :
  (forall st env w,
      Fault.failure_write_accepted st ->
      fst (Fault.fetch_and_append_data convert py_repr st env w) = Ok tt)
  /\ (forall st env w log e,
         connect_error env = None ->
         etl_log (disk w) = Some log ->
         Fault.begin_execute st = None ->
         Fault.keeps_transaction st = true ->
         Fault.failure_write_accepted st ->
         fst (Fault.try_body convert py_repr st env (entry w)) = Raise e ->
         etl_log (disk (snd (Fault.fetch_and_append_data
                               convert py_repr st env w)))
         = Some (log ++ [closed_row (next_run_id (etl_seq (disk w)) log)
                                    (now_start env) (now_end env) 0
                                    "Failure" (Some (exn_msg e))])%list)
  /\ (forall st env w log,
         connect_error env = None ->
         etl_log (disk w) = Some log ->
         Fault.begin_execute st = None ->
         Fault.failure_write_accepted st ->
         let after := Fault.fetch_and_append_data convert py_repr st env w in
         (exists r,
             etl_log (disk (snd after)) = Some (log ++ [r])%list
             /\ terminal r)
         \/ (Fault.keeps_transaction st = false
             /\ disk (snd after) = disk w))
  /\ (forall st env w log e e',
         connect_error env = None ->
         etl_log (disk w) = Some log ->
         Fault.begin_execute st = None ->
         fst (Fault.try_body convert py_repr st env (entry w)) = Raise e ->
         Fault.failure_write_refused st = Some e' ->
         let after := Fault.fetch_and_append_data convert py_repr st env w in
         fst after = Raise e'
         /\ (etl_log (disk (snd after)) = Some log
             \/ etl_log (disk (snd after))
                = Some (log ++ [running_row (next_run_id (etl_seq (disk w)) log)
                                            (now_start env)])%list))
  /\ (forall st env w,
         connect_error env <> None
         \/ Fault.begin_execute st <> None
         \/ etl_log (disk w) = None ->
         let after := Fault.fetch_and_append_data convert py_repr st env w in
         fst after = Ok tt /\ disk (snd after) = disk w)
  /\ (forall num_cycles envs stores w,
         (forall i, Fault.failure_write_accepted (stores i)) ->
         Fault.run_job convert py_repr num_cycles envs stores w
         = (Ok tt,
            emit (Logged INFO "ETL session complete.")
                 (fold_left (Fault.iteration convert py_repr num_cycles
                                             envs stores)
                            (seq 0 num_cycles)
                            (emit (Logged INFO
                                     ("Starting OpenSky ETL job for "
                                      ++ str_int (Z.of_nat num_cycles)
                                      ++ " cycles (24 hours)...")) w))))
  /\ (forall num_cycles envs stores w log,
         (forall i, connect_error (envs i) = None) ->
         (forall i, Fault.begin_execute (stores i) = None) ->
         (forall i, Fault.keeps_transaction (stores i) = true) ->
         (forall i, Fault.failure_write_accepted (stores i)) ->
         etl_log (disk w) = Some log ->
         exists added,
           etl_log (disk (snd (Fault.run_job convert py_repr num_cycles
                                             envs stores w)))
           = Some (log ++ added)%list
           /\ List.length added = num_cycles
           /\ Forall terminal added)
  /\ (forall num_cycles envs stores w i e',
         (i < num_cycles)%nat ->
         (forall j, (j < i)%nat -> Fault.failure_write_accepted (stores j)) ->
         let reached :=
           fold_left (Fault.iteration convert py_repr num_cycles envs stores)
                     (seq 0 i)
                     (emit (Logged INFO
                              ("Starting OpenSky ETL job for "
                               ++ str_int (Z.of_nat num_cycles)
                               ++ " cycles (24 hours)...")) w) in
         let last :=
           Fault.fetch_and_append_data
             convert py_repr (stores i) (envs i)
             (emit (cycle_banner num_cycles i) reached) in
         fst last = Raise e' ->
         Fault.run_job convert py_repr num_cycles envs stores w
         = (Raise e', snd last)).
Proof.
  assert (J : forall num_cycles envs stores w,
             (forall i, Fault.failure_write_accepted (stores i)) ->
             Fault.run_job convert py_repr num_cycles envs stores w
             = (Ok tt,
                emit (Logged INFO "ETL session complete.")
                     (fold_left (Fault.iteration convert py_repr num_cycles
                                                 envs stores)
                                (seq 0 num_cycles)
                                (emit (Logged INFO
                                         ("Starting OpenSky ETL job for "
                                          ++ str_int (Z.of_nat num_cycles)
                                          ++ " cycles (24 hours)...")) w)))).
  { intros n envs stores w A. unfold Fault.run_job.
    now rewrite refusable_driver_runs_all. }
  split; [apply refusable_cycle_returns | ].
  split; [ | split; [ | split; [ | split; [ | split; [exact J | split]]]]].
  - intros st env w log e C L X K A B.
    pose proof (accepted_is_not_refused st A) as R.
    destruct (refusable_cycle_shape convert py_repr st env w log C L X)
      as [[d' [n [o' [B' _]]]] | [e1 [dk' [o' [B' [_ H]]]]]];
      rewrite B in B'; [discriminate B' | ].
    inversion B'. subst e1. rewrite R in H.
    destruct H as [W [-> [E | [T _]]]]; [exact E | congruence].
  - intros st env w log C L X A after. unfold after.
    pose proof (accepted_is_not_refused st A) as R.
    destruct (refusable_cycle_shape convert py_repr st env w log C L X)
      as [[d' [n [o' [_ ->]]]] | [e [dk' [o' [_ [_ H]]]]]].
    + left. eexists. split; [reflexivity | now left].
    + rewrite R in H. destruct H as [W [-> [E | [T ->]]]].
      * left. eexists. split; [exact E | now right].
      * right. now split.
  - intros st env w log e e' C L X B R after. unfold after.
    destruct (refusable_cycle_shape convert py_repr st env w log C L X)
      as [[d' [n [o' [B' _]]]] | [e1 [dk' [o' [_ [K H]]]]]].
    + rewrite B in B'. discriminate B'.
    + rewrite R in H. rewrite H. split; [reflexivity | exact K].
  - intros st env w H after. unfold after.
    destruct (refusable_cycle_unopened convert py_repr st env w H) as [e ->].
    split; reflexivity.
  - intros n envs stores w log C X K A L. rewrite J by trivial. cbn [snd].
    destruct (refusable_job_appends_terminal convert py_repr n envs stores
                (seq 0 n) C X K A
                (emit (Logged INFO
                         ("Starting OpenSky ETL job for "
                          ++ str_int (Z.of_nat n)
                          ++ " cycles (24 hours)...")) w) log L)
      as [added [E [Len T]]].
    exists added. rewrite length_seq in Len. auto.
  - intros n envs stores w i e' I A reached last E.
    unfold Fault.run_job.
    replace (seq 0 n) with (seq 0 i ++ i :: seq (S i) (n - S i))%list.
    2:{ change (i :: seq (S i) (n - S i)) with (seq i (S (n - S i))).
        rewrite <- seq_app. f_equal. lia. }
    rewrite (refusable_driver_stops convert py_repr n envs stores (seq 0 i)
               (seq (S i) (n - S i)) i _ (snd last) e'); trivial.
    + intros j H. apply A. apply in_seq in H. lia.
    + fold reached. fold last. destruct last as [r w']. simpl in *.
      now subst r.
Qed.

(** C3, as the code has it.  Within the orchestrator a run goes from
    Running to exactly one of Success or Failure: a cycle that opens its
    run appends one entry, leaves it closed, and leaves every earlier
    entry as it was.  [log_etl_run] with a [run_id] other than 0 that
    matches no row changes no row and does not raise; with the [run_id] 0,
    which [if run_id:] takes for none, it does what it does without a
    [run_id]: it inserts a row.  With the [run_id] of a row that exists,
    closed already or not, and a status of the allowed set it does not
    raise either, and it overwrites that row's end time,
    records-processed, status and error message with the new values. *)
Theorem end_run_tolerates_and_overwrites :
  (forall env w log,
      connect_error env = None ->
      etl_log (disk w) = Some log ->
      exists r,
        etl_log (disk (snd (fetch_and_append_data convert py_repr env w)))
        = Some (log ++ [r])%list
        /\ terminal r
        /\ run_id r = next_run_id (etl_seq (disk w)) log)
  /\ (forall now st n err id db log rid dk o,
         etl_log db = Some log ->
         id <> 0 ->
         (forall r, In r log -> run_id r <> id) ->
         log_etl_run now st n err (Some id) (Frame (Some db) rid dk o)
         = (Ok None, Frame (Some db) rid db o))
  /\ (forall now st n err db log rid dk o,
         etl_log db = Some log ->
         status_check st = true ->
         let id := next_run_id (etl_seq db) log in
         log_etl_run now st n err (Some 0) (Frame (Some db) rid dk o)
         = log_etl_run now st n err None (Frame (Some db) rid dk o)
         /\ log_etl_run now st n err (Some 0) (Frame (Some db) rid dk o)
            = (Ok (Some id),
               Frame (Some (Db (opensky_data db)
                               (Some (log ++ [LogRow id now None None st
                                                     None])%list)
                               id))
                     rid dk o))
  /\ (forall now st n err id db log rid dk o,
         etl_log db = Some log ->
         id <> 0 ->
         status_check st = true ->
         let db' := Db (opensky_data db)
                       (Some (map (update_row now n st err id) log))
                       (etl_seq db) in
         log_etl_run now st n err (Some id) (Frame (Some db) rid dk o)
         = (Ok None, Frame (Some db') rid db' o)
         /\ forall r, In r log -> run_id r = id ->
                      In (closed_row id (start_time r) now n st err)
                         (map (update_row now n st err id) log)).
Proof.
  split; [ | split; [ | split]].
  - intros env w log C L.
    apply (cycle_appends_terminal convert py_repr env w log C L).
  - intros now st n err id db log rid dk o L Z F.
    run_update.
    cbn [f_conn]. destruct (Z.eqb_spec id 0) as [ | _]; [contradiction | ].
    rewrite L, existsb_no_match, update_no_match by trivial.
    cbn [andb f_conn f_run_id f_disk f_out].
    destruct db as [d l q]. simpl in L. subst l. reflexivity.
  - intros now st n err db log rid dk o L S id. split; [reflexivity | ].
    unfold log_etl_run, bind, view, lift, insert_log, set_conn, ret.
    cbn [f_conn Z.eqb]. rewrite L, S. reflexivity.
  - intros now st n err id db log rid dk o L Z S db'. split.
    + run_update.
      cbn [f_conn]. destruct (Z.eqb_spec id 0) as [ | _]; [contradiction | ].
      rewrite L, S, andb_false_r. reflexivity.
    + intros r I E. apply in_map_iff. exists r. split; trivial.
      unfold update_row. rewrite E, Z.eqb_refl. reflexivity.
Qed.

(** C10, as the code has it.  The branch of [log_etl_run] that inserts
    returns without a commit: the file is as it was, and after
    [begin_run] the Running entry is in the working copy of the
    connection only.  The first commit after [begin_run] makes the entry
    durable.  It is the commit of the load (line 82) when there are
    records to insert and the bulk insert returns, which leaves the entry
    in the file as Running before [end_run] is reached.  When the bulk
    insert raises, line 82 is skipped and nothing is committed; the first
    commit is then, as when there is nothing to insert, the one of the
    call that closes the run, as a Success or as a Failure.  An exception
    leaves lines 47-90 with the file as it was, unless the load had
    committed and the engine then refused the closing write. *)
Theorem begin_run_is_not_committed :
  (forall now st n err s,
      f_disk (snd (log_etl_run now st n err None s)) = f_disk s)
  /\ (forall env w log,
         connect_error env = None ->
         etl_log (disk w) = Some log ->
         let id := next_run_id (etl_seq (disk w)) log in
         exists s1,
           begin_cycle env (entry w) = (Ok (Some id), s1)
           /\ f_disk s1 = disk w
           /\ f_conn s1
              = Some (Db (opensky_data (disk w))
                         (Some (log ++ [running_row id (now_start env)])%list)
                         id))
  /\ (forall st env d log id dk o e s',
         id <> 0 ->
         (forall r, In r log -> run_id r <> id) ->
         Fault.extract_and_load convert py_repr st env (Some id)
                                (opened d log id (now_start env) dk o)
         = (Raise e, s') ->
         f_disk s' = dk
         \/ ((exists d',
                 f_disk s'
                 = Db d' (Some (log ++ [running_row id (now_start env)])%list)
                      id)
             /\ Fault.load_commit st = None
             /\ (Fault.end_execute st <> None
                 \/ Fault.end_commit st <> None)))
  /\ (forall records tbl log id t0 dk o n s',
         insert_and_commit convert records (opened (Some tbl) log id t0 dk o)
         = (Ok n, s') ->
         exists tbl',
           f_disk s'
           = Db (Some tbl') (Some (log ++ [running_row id t0])%list) id)
  /\ (forall records d log id t0 dk o e s',
         insert_and_commit convert records (opened d log id t0 dk o)
         = (Raise e, s') ->
         exists d', s' = opened d' log id t0 dk o)
  /\ (forall now st n err d log id t0 dk o,
         id <> 0 ->
         (forall r, In r log -> run_id r <> id) ->
         status_check st = true ->
         f_disk (snd (log_etl_run now st n err (Some id)
                                  (opened d log id t0 dk o)))
         = Db d (Some (log ++ [closed_row id t0 now n st err])%list) id).
Proof.
  split; [ | split; [ | split; [ | split; [ | split]]]].
  - intros now st n err s.
    unfold log_etl_run, bind, view, lift, set_conn, ret.
    destruct (f_conn s) as [db | ]; trivial.
    now destruct (insert_log db now st).
  - intros env w log C L id. eexists.
    split; [apply (begin_cycle_ok env w log C L) | split; reflexivity].
  - intros st env d log id dk o e s' Z F E.
    destruct (refusable_extract_and_load convert py_repr st env d log id dk o
                Z F)
      as [[d' [n [o' B]]] | [e' [s1 [B I]]]];
      rewrite B in E.
    + discriminate E.
    + inversion E. subst s1.
      destruct I as [_ [d' [[K | [K [X Y]]] _]]]; [now left | right].
      split; [now exists d' | now split].
  - intros records tbl log id t0 dk o n s'.
    unfold insert_and_commit, executemany, bind, view, opened.
    cbn [f_conn opensky_data etl_log etl_seq f_run_id f_disk f_out].
    destruct (executemany_loop convert tbl 0 records) as [tbl' [m | e]];
      unfold set_conn, lift, commit, bind, view, ret;
      cbn [f_conn f_run_id f_disk f_out]; intros E; inversion E.
    exists tbl'. reflexivity.
  - intros records d log id t0 dk o e s'.
    change (insert_and_commit convert records)
      with (Fault.insert_and_commit convert Fault.sound records).
    destruct d as [tbl | ].
    + rewrite refusable_insert_and_commit.
      cbn [Fault.sound Fault.load_execute Fault.load_commit].
      destruct (executemany_loop convert tbl 0 records) as [tbl' [m | e']];
        intros E; inversion E.
      now exists (Some tbl').
    + rewrite refusable_insert_without_relation. intros E. inversion E.
      now exists None.
  - intros now st n err d log id t0 dk o Z F S. unfold opened.
    rewrite end_run_closes by trivial. reflexivity.
Qed.

Lemma normalize_skips (v : pyval) (n : Z) (fetch_time : string)
      (l2 : list pyval) :
  len v = Ok n -> n < 17 ->
  forall l1,
    normalize py_repr (l1 ++ v :: l2) fetch_time
    = normalize py_repr (l1 ++ l2) fetch_time.
Proof.
  intros L S. induction l1 as [ | x l1 IH]; simpl.
  - rewrite L. simpl. destruct (Z.leb_spec 17 n); [lia | reflexivity].
  - now rewrite IH.
Qed.

(** C7.  A raw tuple with fewer than 17 fields is left out of the batch
    and nothing is raised for it: alone it normalises to the empty batch,
    among others the batch is the one the others give, and a cycle that
    received it ends in the same state, with the same messages logged, as
    the cycle that did not. *)
Theorem short_tuples_are_dropped (xs : list pyval) :
  (List.length xs < 17)%nat ->
  (forall fetch_time, normalize py_repr [PList xs] fetch_time = Ok [])
  /\ (forall l1 l2 fetch_time,
         normalize py_repr (l1 ++ PList xs :: l2) fetch_time
         = normalize py_repr (l1 ++ l2) fetch_time)
  /\ (forall l1 l2 ce t0 t1 t2 w,
         (l1 ++ l2)%list <> [] ->
         fetch_and_append_data
           convert py_repr
           (Env ce (Ok (PDict [("states", PList (l1 ++ PList xs :: l2))]))
                t0 t1 t2) w
         = fetch_and_append_data
             convert py_repr
             (Env ce (Ok (PDict [("states", PList (l1 ++ l2))])) t0 t1 t2) w).
Proof.
  intros S.
  assert (N : forall l1 l2 fetch_time,
             normalize py_repr (l1 ++ PList xs :: l2) fetch_time
             = normalize py_repr (l1 ++ l2) fetch_time).
  { intros l1 l2 ft.
    apply normalize_skips with (n := Z.of_nat (List.length xs));
      [reflexivity | lia]. }
  split; [ | split; [exact N | ]].
  - intros ft. apply (N [] [] ft).
  - intros l1 l2 ce t0 t1 t2 w NE.
    assert (G : forall v, get_method (PDict [("states", v)]) "states"
                                     (PList []) = Ok v) by reflexivity.
    assert (T1 : truthy (PList (l1 ++ PList xs :: l2)) = true)
      by now destruct l1.
    assert (T2 : truthy (PList (l1 ++ l2)) = true).
    { simpl. destruct (l1 ++ l2)%list; [contradiction | reflexivity]. }
    assert (X : forall rid s,
               extract_and_load
                 convert py_repr
                 (Env ce (Ok (PDict [("states",
                                      PList (l1 ++ PList xs :: l2))]))
                      t0 t1 t2) rid s
               = extract_and_load
                   convert py_repr
                   (Env ce (Ok (PDict [("states", PList (l1 ++ l2))]))
                        t0 t1 t2) rid s).
    { intros rid s. unfold extract_and_load. cbn [response utcnow_fetch].
      rewrite !bind_lift_ok, !G, !bind_lift_ok, T1, T2.
      cbn [negb iter]. rewrite !bind_lift_ok, N. reflexivity. }
    unfold fetch_and_append_data, try_except_finally, try_body, bind.
    change (begin_cycle
              (Env ce (Ok (PDict [("states", PList (l1 ++ PList xs :: l2))]))
                   t0 t1 t2))
      with (begin_cycle
              (Env ce (Ok (PDict [("states", PList (l1 ++ l2))])) t0 t1 t2)).
    destruct (begin_cycle
                (Env ce (Ok (PDict [("states", PList (l1 ++ l2))])) t0 t1 t2)
                (Frame None None (disk w) (out w))) as [[rid | e] s1].
    + rewrite X. reflexivity.
    + reflexivity.
Qed.

Lemma fields_nth (state : pyval) (fetch_time : string) (ixs : list nat) :
  forall record,
    fields py_repr state fetch_time ixs = Ok record ->
    forall k i,
      nth_error ixs k = Some i ->
      exists x, field py_repr state fetch_time i = Ok x
                /\ nth_error record k = Some x.
Proof.
  induction ixs as [ | j rest IH]; simpl; intros record H k i K.
  - destruct k; discriminate K.
  - destruct (field py_repr state fetch_time j) as [x | ] eqn:Fj;
      simpl in H; [ | discriminate].
    destruct (fields py_repr state fetch_time rest) as [xs | ] eqn:Fr;
      simpl in H; [ | discriminate].
    inversion H; subst. destruct k as [ | k]; simpl in K |- *.
    + inversion K; subst. eauto.
    + eauto.
Qed.

(** C8, as the code has it.  In every normalised record the callsign is
    [None] when the raw callsign is empty or absent (any value that is
    false in a test), and otherwise the raw callsign, then a non-empty
    string, with the surrounding whitespace removed.  The test is made on
    the raw value, before trimming. *)
Theorem callsign_is_trimmed_or_absent (state : pyval) (fetch_time : string)
        (record : list pyval) :
  record_of py_repr state fetch_time = Ok record ->
  exists raw,
    getitem state 1 = Ok raw
    /\ ((truthy raw = false /\ nth_error record 1 = Some PNone)
        \/ (exists s, raw = PStr s /\ s <> ""
                      /\ nth_error record 1 = Some (PStr (strip s)))).
Proof.
  intros H.
  destruct (fields_nth state fetch_time (seq 0 18) record H 1%nat 1%nat
                       eq_refl) as [x [F N]].
  cbn [field] in F.
  destruct (getitem state 1) as [raw | ]; simpl in F; [ | discriminate].
  exists raw. split; trivial.
  unfold callsign_of in F. destruct (truthy raw) eqn:T.
  - right. destruct raw; simpl in F; try discriminate.
    inversion F; subst. exists s. repeat split; trivial.
    intros ->. discriminate T.
  - left. inversion F; subst. auto.
Qed.

(** C9.  The end-to-end scenario: on a database that holds the two empty
    relations, the response [{"states": [[...]]}] of the specification
    stores exactly one observation, with aircraft identifier "abc123",
    callsign "UAL123", sensors "1,2" and the fetch time of the cycle, and
    the run log holds the one entry of the cycle, a Success with 1 record
    processed. *)
Theorem scenario_stores_one_record (t0 t1 t2 : string) :
  fetch_and_append_data convert py_repr
                        (Env None (Ok Sample.scenario_response) t0 t1 t2)
                        Sample.fresh_world
  = (Ok tt,
     World (Db (Some [Sample.scenario_row t1])
               (Some [closed_row 1 t0 t2 1 "Success" None])
               1)
           [Logged INFO "Starting ETL Cycle (Run ID: 1)...";
            Logged INFO "Inserted 1 new records."]).
Proof.
  set (env := Env None (Ok Sample.scenario_response) t0 t1 t2).
  apply (cycle_of_success
           convert py_repr env Sample.fresh_world
           (Some [Sample.scenario_row t1]) [] 1 t0 t2 1 "Success" None
           [Logged INFO "Starting ETL Cycle (Run ID: 1)...";
            Logged INFO "Inserted 1 new records."]).
  rewrite (try_body_opened convert py_repr env Sample.fresh_world []
                           eq_refl eq_refl).
  apply (extract_and_load_loaded
           convert py_repr env [] [Sample.scenario_row t1] [] 1
           (disk Sample.fresh_world)
           [Logged INFO "Starting ETL Cycle (Run ID: 1)..."]
           Sample.scenario_response (PList [Sample.scenario_state])
           [Sample.scenario_state]
           [[ PStr "abc123"; PStr "UAL123"; PStr "United States";
              PInt 1690000000; PInt 1690000005;
              PFloat (S754_finite false 5685794529555251 (-49));
              PFloat (S754_finite false 5685794529555251 (-48));
              PFloat (S754_finite false 6597069766656000 (-41));
              PBool false;
              PFloat (S754_finite false 8796093022208000 (-45));
              PFloat (S754_finite false 6333186975989760 (-46));
              PFloat (S754_zero false);
              PStr "1,2";
              PFloat (S754_finite false 6816972092211200 (-41));
              PStr "1200"; PBool false; PInt 0; PStr t1 ]] 1);
    try reflexivity.
  - discriminate.
  - intros r [].
Qed.
End Claims.

(** ** Further properties of the two scripts *)

Section Coverage.
Import Py Sql Etl Inv Cover.
Variable convert : affinity -> sqlval -> sqlval.
Variable py_repr : pyval -> string.

(** What [setup_database] leaves when the file can be opened. *)
Lemma setup_database_opened (db_name : string) (w : world) :
  Setup.setup_database None db_name w
  = (Ok tt,
     World (Sql.setup_database (disk w))
           (out w
            ++ [Logged INFO ("Connecting to database '" ++ db_name ++ "'...");
                Logged INFO "Database setup successful. All tables and indexes are ready.";
                Logged INFO "Database connection closed."])%list).
Proof.
  destruct w as [[d l q] o].
  unfold Setup.setup_database, try_except_finally, Setup.setup_body,
    Setup.execute_ddl, Setup.open_database, Setup.setup_finally, bind,
    logging, view, lift, set_conn, commit, bind, view, close, set_conn.
  destruct d, l;
    cbv [Setup.create_opensky_data Setup.create_index Setup.create_etl_log
         opensky_data etl_log etl_seq Sql.setup_database
         f_conn f_disk f_out f_run_id disk out];
    rewrite <- !app_assoc; reflexivity.
Qed.

(** X1.  [setup_database] on a file that opens loses nothing, whatever
    the engine refuses: the rows and the counter that were there are kept,
    and an exception leaves the call only if it is not one of [sqlite3].
    When every statement is accepted the call returns, both relations are
    in place and a second run changes nothing more in the file.  When the
    first statement is refused by an error of [sqlite3], as on a file that
    is not a database, the error is caught and logged, the connection is
    closed and the file is untouched: no relation is created. *)
Theorem setup_keeps_rows_and_is_idempotent (answers : Fault.setup_storage)
        (db_name again : string) (w : world) :
  let call := Fault.setup_database answers None db_name w in
  let w1 := snd call in
  (rows (opensky_data (disk w1)) = rows (opensky_data (disk w))
   /\ rows (etl_log (disk w1)) = rows (etl_log (disk w))
   /\ etl_seq (disk w1) = etl_seq (disk w)
   /\ (forall e, fst call = Raise e ->
                 Setup.is_sqlite_error (exn_cls e) = false))
  /\ (answers = Fault.sound_setup ->
      fst call = Ok tt
      /\ opensky_data (disk w1) = Some (rows (opensky_data (disk w)))
      /\ etl_log (disk w1) = Some (rows (etl_log (disk w)))
      /\ disk (snd (Fault.setup_database Fault.sound_setup None again w1))
         = disk w1)
  /\ (forall e,
         Fault.table_execute answers = Some e ->
         Setup.is_sqlite_error (exn_cls e) = true ->
         call
         = (Ok tt,
            World (disk w)
                  (out w
                   ++ [Logged INFO ("Connecting to database '" ++ db_name
                                    ++ "'...");
                       Logged ERROR ("Database setup error: " ++ exn_msg e);
                       Logged INFO "Database connection closed."])%list)).
Proof.
  intros call w1. split; [apply refusable_setup | split].
  - intros ->. unfold w1, call.
    rewrite !sound_setup_database, !setup_database_opened.
    cbn [fst snd disk].
    destruct w as [[d l q] o]. cbn [disk].
    destruct d, l; repeat split.
  - intros e T S. unfold call.
    destruct answers as [a b c t m]. cbn [Fault.table_execute] in T. subst a.
    unfold Fault.setup_database, try_except_finally, Fault.setup_body,
      Setup.open_database, Setup.setup_except, Setup.setup_finally,
      Fault.declined, bind, logging, set_conn, close, set_conn, raise.
    cbn [Fault.table_execute f_conn f_run_id f_disk f_out]. rewrite S.
    cbn [f_conn f_run_id f_disk f_out]. rewrite <- !app_assoc. reflexivity.
Qed.

(** X2.  When [sqlite3.connect] fails in [setup_database], an error of
    [sqlite3] is caught: the call returns, the file is untouched, the error
    is logged and no connection is reported closed.  Any other exception
    leaves the call, the file untouched as well. *)
Theorem setup_connect_failure (e : exn) (db_name : string) (w : world) :
  (Setup.is_sqlite_error (exn_cls e) = true ->
   Setup.setup_database (Some e) db_name w
   = (Ok tt,
      World (disk w)
            (out w
             ++ [Logged INFO ("Connecting to database '" ++ db_name ++ "'...");
                 Logged ERROR ("Database setup error: " ++ exn_msg e)])%list))
  /\ (Setup.is_sqlite_error (exn_cls e) = false ->
      fst (Setup.setup_database (Some e) db_name w) = Raise e
      /\ disk (snd (Setup.setup_database (Some e) db_name w)) = disk w).
Proof.
  unfold Setup.setup_database, try_except_finally, Setup.setup_body,
    Setup.open_database, Setup.setup_except, Setup.setup_finally, bind,
    logging, raise.
  cbn [disk out f_conn f_run_id f_disk f_out].
  split; intros ->; cbn [f_conn f_disk f_out fst snd disk].
  - rewrite <- app_assoc. reflexivity.
  - split; reflexivity.
Qed.

(** X3.  On a database file, holding no relation or the relations as
    [setup_database] declares them, whose run-id counter is in range:
    once [setup_database] has run, its statements accepted, every cycle
    that connects, is not refused the INSERT of its run, is not refused
    the write of its failure and does not lose its transaction to a
    refusal opens its run.  Whatever else the engine refuses, the
    committed run log gains exactly one entry, closed as Success or
    Failure, after the entries that were there, and its identifier is the
    counter plus one, within the engine's range. *)
Theorem cycle_after_setup_is_logged (db_name : string) (w : world)
        (st : Fault.storage) (env : cycle_env) :
  connect_error env = None ->
  Fault.begin_execute st = None ->
  Fault.keeps_transaction st = true ->
  Fault.failure_write_accepted st ->
  counter_in_range 1 (disk w) ->
  let w1 := snd (Setup.setup_database None db_name w) in
  exists r,
    etl_log (disk (snd (Fault.fetch_and_append_data convert py_repr st env
                                                    w1)))
    = Some (rows (etl_log (disk w)) ++ [r])%list
    /\ terminal r
    /\ run_id r = etl_seq (disk w) + 1
    /\ 0 < run_id r <= MAX_ROWID.
Proof.
  intros C X K A [[P B] R] w1.
  assert (L : etl_log (disk w1) = Some (rows (etl_log (disk w)))
              /\ etl_seq (disk w1) = etl_seq (disk w)).
  { unfold w1. rewrite setup_database_opened. cbn [snd disk].
    destruct w as [[d l q] o]. now destruct l. }
  destruct L as [L Q].
  destruct (refusable_cycle_appends_terminal convert py_repr st env w1 _
              C L X K A) as [r [E [T I]]].
  rewrite Q, (next_run_id_follows _ _ P B) in I.
  exists r. rewrite I. change (Z.of_nat 1) with 1 in R.
  repeat split; trivial; lia.
Qed.

(** *** The output of a cycle and of the driver *)

Lemma says_only_refl (s : frame) : says_only s s.
Proof. exists []. now rewrite app_nil_r. Qed.

Lemma says_only_trans (s1 s2 s3 : frame) :
  says_only s1 s2 -> says_only s2 s3 -> says_only s1 s3.
Proof.
  intros [e1 [E1 L1]] [e2 [E2 L2]]. exists (e1 ++ e2)%list.
  rewrite E2, E1, <- app_assoc, forallb_app, L1, L2. auto.
Qed.

Lemma says_only_same_out (s s' : frame) : f_out s' = f_out s -> says_only s s'.
Proof. intros E. exists []. now rewrite app_nil_r. Qed.

Lemma quiet_ret {A : Type} (a : A) : quiet (ret a).
Proof. intros s. apply says_only_refl. Qed.

Lemma quiet_lift {A : Type} (r : result A) : quiet (lift r).
Proof. intros s. apply says_only_refl. Qed.

Lemma quiet_bind {A B : Type} (m : M A) (k : A -> M B) :
  quiet m -> (forall a, quiet (k a)) -> quiet (bind m k).
Proof.
  intros Qm Qk s. unfold bind. specialize (Qm s).
  destruct (m s) as [[a | e] s1]; simpl in Qm |- *; trivial.
  eapply says_only_trans; [exact Qm | apply Qk].
Qed.

Lemma quiet_logging (lv : level) (msg : string) : quiet (logging lv msg).
Proof. intros s. exists [Logged lv msg]. auto. Qed.

Lemma quiet_set_conn (c : option database) : quiet (set_conn c).
Proof. intros s. now apply says_only_same_out. Qed.

Lemma quiet_set_run_id (r : option Z) : quiet (set_run_id r).
Proof. intros s. now apply says_only_same_out. Qed.

Lemma quiet_view : quiet view.
Proof.
  intros s. unfold view. destruct (f_conn s); apply says_only_refl.
Qed.

Lemma quiet_commit : quiet commit.
Proof.
  apply quiet_bind; [apply quiet_view | ].
  intros db s. now apply says_only_same_out.
Qed.

Lemma quiet_connect (env : cycle_env) : quiet (connect env).
Proof.
  intros s. unfold connect. destruct (connect_error env).
  - apply says_only_refl.
  - now apply says_only_same_out.
Qed.

Create HintDb quiet.
#[local] Hint Resolve quiet_ret quiet_lift quiet_logging quiet_set_conn
  quiet_set_run_id quiet_view quiet_commit quiet_connect : quiet.

(** Splits a sequence of steps and closes the steps the hints know. *)
Ltac quiet_steps :=
  repeat first [ solve [auto with quiet]
               | apply quiet_bind; [ | intros ? ] ].

Lemma quiet_log_etl_run (now st : string) (n : Z) (err : option string)
      (rid : option Z) : quiet (log_etl_run now st n err rid).
Proof.
  unfold log_etl_run. apply quiet_bind; [auto with quiet | intros db].
  destruct rid as [id | ]; [destruct (id =? 0) | ]; quiet_steps.
Qed.

Lemma quiet_executemany (records : list (list pyval)) :
  quiet (executemany convert records).
Proof.
  unfold executemany. apply quiet_bind; [auto with quiet | intros db].
  destruct (opensky_data db) as [tbl | ]; [ | auto with quiet].
  destruct (executemany_loop convert tbl 0 records). quiet_steps.
Qed.

#[local] Hint Resolve quiet_log_etl_run quiet_executemany : quiet.

Lemma quiet_try_body (env : cycle_env) :
  quiet (try_body convert py_repr env).
Proof.
  unfold try_body, begin_cycle, extract_and_load.
  apply quiet_bind; [quiet_steps | intros rid].
  apply quiet_bind; [auto with quiet | intros data].
  apply quiet_bind; [auto with quiet | intros states].
  destruct (negb (truthy states)); [quiet_steps | ].
  apply quiet_bind; [auto with quiet | intros items].
  apply quiet_bind; [auto with quiet | intros records].
  unfold load, insert_and_commit. destruct records; quiet_steps.
Qed.

Lemma quiet_on_exception (env : cycle_env) (e : exn) :
  quiet (on_exception env e).
Proof.
  unfold on_exception. apply quiet_bind; [auto with quiet | intros _ s].
  destruct (f_conn s); [ | apply says_only_refl].
  destruct (run_id_set (f_run_id s)); [ | apply says_only_refl].
  assert (Q : quiet (log_etl_run (now_end env) "Failure" 0
                                 (Some (exn_msg e)) (f_run_id s) ;;
                     ret tt)) by quiet_steps.
  apply Q.
Qed.

Lemma quiet_finally_close : quiet finally_close.
Proof.
  intros s. unfold finally_close.
  destruct (f_conn s); [now apply says_only_same_out | apply says_only_refl].
Qed.

Lemma quiet_try {A : Type} (body : M A) (handler : exn -> M A)
      (final : M unit) :
  quiet body -> (forall e, quiet (handler e)) -> quiet final ->
  quiet (try_except_finally body handler final).
Proof.
  intros Qb Qh Qf s. unfold try_except_finally.
  specialize (Qb s). destruct (body s) as [[a | e] s1]; simpl in Qb.
  - specialize (Qf s1). destruct (final s1) as [[u | e] s2]; simpl in Qf |- *;
      eapply says_only_trans; eauto.
  - specialize (Qh e s1). destruct (handler e s1) as [r s2]. simpl in Qh.
    specialize (Qf s2). destruct (final s2) as [[u | e'] s3];
      simpl in Qf |- *;
      eapply says_only_trans; eauto; eapply says_only_trans; eauto.
Qed.

(** A cycle adds messages to the output and nothing else. *)
Lemma cycle_says_only (env : cycle_env) (w : world) :
  exists evs,
    out (snd (fetch_and_append_data convert py_repr env w))
    = (out w ++ evs)%list
    /\ forallb is_logged evs = true.
Proof.
  pose proof (quiet_try _ _ _ (quiet_try_body env) (quiet_on_exception env)
                        quiet_finally_close
                        (Frame None None (disk w) (out w))) as Q.
  unfold fetch_and_append_data.
  destruct (try_except_finally (try_body convert py_repr env)
              (on_exception env) finally_close
              (Frame None None (disk w) (out w))) as [r s].
  exact Q.
Qed.

Lemma sleeps_app (a b : list event) :
  sleeps (a ++ b) = (sleeps a ++ sleeps b)%list.
Proof. apply flat_map_app. Qed.

Lemma sleeps_logged (evs : list event) :
  forallb is_logged evs = true -> sleeps evs = [].
Proof.
  induction evs as [ | ev evs IH]; simpl; trivial.
  intros H. apply andb_prop in H. destruct H as [L H].
  destruct ev; [now apply IH | discriminate L].
Qed.

(** Whether the driver sleeps after cycle [i]. *)
Lemma iteration_sleeps (num_cycles : nat) (envs : nat -> cycle_env)
      (w : world) (i : nat) :
  exists evs,
    out (iteration convert py_repr num_cycles envs w i) = (out w ++ evs)%list
    /\ sleeps evs
       = if Z.of_nat i <? Z.of_nat num_cycles - 1
         then [FETCH_INTERVAL_SECONDS] else [].
Proof.
  unfold iteration, wait_next.
  destruct (cycle_says_only (envs i) (emit (cycle_banner num_cycles i) w))
    as [evs [E L]].
  destruct (fetch_and_append_data convert py_repr (envs i)
              (emit (cycle_banner num_cycles i) w)) as [r w2].
  cbn [snd] in E |- *. unfold emit in E. cbn [out] in E.
  destruct (Z.of_nat i <? Z.of_nat num_cycles - 1).
  - eexists. unfold emit. cbn [out]. rewrite E, <- !app_assoc.
    split; [reflexivity | ].
    rewrite sleeps_app, (sleeps_app evs), (sleeps_logged evs L).
    reflexivity.
  - eexists. rewrite E, <- app_assoc. split; [reflexivity | ].
    rewrite sleeps_app, (sleeps_logged evs L). reflexivity.
Qed.

Lemma passes_sleep (num_cycles : nat) (envs : nat -> cycle_env)
      (ixs : list nat) :
  forall w,
    exists evs,
      out (fold_left (iteration convert py_repr num_cycles envs) ixs w)
      = (out w ++ evs)%list
      /\ sleeps evs
         = flat_map (fun i => if Z.of_nat i <? Z.of_nat num_cycles - 1
                              then [FETCH_INTERVAL_SECONDS] else []) ixs.
Proof.
  induction ixs as [ | i rest IH]; intros w; simpl.
  - exists []. now rewrite app_nil_r.
  - destruct (iteration_sleeps num_cycles envs w i) as [e1 [E1 S1]].
    destruct (IH (iteration convert py_repr num_cycles envs w i))
      as [e2 [E2 S2]].
    exists (e1 ++ e2)%list. rewrite E2, E1, <- app_assoc, sleeps_app, S1, S2.
    auto.
Qed.

Lemma sleeps_before_last (last : nat) :
  forall k a,
    (a + k <= last)%nat ->
    flat_map (fun i => if Z.of_nat i <? Z.of_nat (S last) - 1
                       then [FETCH_INTERVAL_SECONDS] else []) (seq a k)
    = repeat FETCH_INTERVAL_SECONDS k.
Proof.
  induction k as [ | k IH]; intros a H; cbn [seq flat_map repeat]; trivial.
  destruct (Z.ltb_spec (Z.of_nat a) (Z.of_nat (S last) - 1)); [ | lia].
  cbn [app]. f_equal. apply IH. lia.
Qed.

(** X4.  The driver sleeps [FETCH_INTERVAL_SECONDS] between two cycles and
    not after the last one: a job of [num_cycles] cycles only adds to the
    output, and the calls to [time.sleep] it makes are [num_cycles - 1]
    calls of 600 seconds (none for a job of no cycle); the program, with
    its 144 cycles, sleeps 143 times. *)
Theorem driver_sleeps_between_cycles (num_cycles : nat)
        (envs : nat -> cycle_env) (w : world) :
  (exists evs,
      out (snd (run_job convert py_repr num_cycles envs w))
      = (out w ++ evs)%list
      /\ sleeps evs = repeat 600 (num_cycles - 1))
  /\ (exists evs,
         out (snd (main convert py_repr envs w)) = (out w ++ evs)%list
         /\ sleeps evs = repeat 600 143
         /\ fold_right Z.add 0 (sleeps evs) = 85800).
Proof.
  assert (J : forall n,
             exists evs,
               out (snd (run_job convert py_repr n envs w))
               = (out w ++ evs)%list
               /\ sleeps evs = repeat 600 (n - 1)).
  { intros n. unfold run_job. rewrite driver_loop_runs_all. cbn [snd].
    destruct (passes_sleep n envs (seq 0 n)
                (emit (Logged INFO
                         ("Starting OpenSky ETL job for "
                          ++ str_int (Z.of_nat n)
                          ++ " cycles (24 hours)...")) w)) as [evs [E Hs]].
    eexists. unfold emit at 1. cbn [out]. rewrite E. unfold emit. cbn [out].
    rewrite <- !app_assoc. split; [reflexivity | ].
    rewrite sleeps_app, sleeps_app, Hs. cbn [sleeps flat_map app].
    rewrite app_nil_r.
    destruct n as [ | last]; [reflexivity | ].
    rewrite seq_S, flat_map_app, sleeps_before_last by lia.
    cbn [flat_map plus].
    destruct (Z.ltb_spec (Z.of_nat last) (Z.of_nat (S last) - 1)); [lia | ].
    rewrite !app_nil_r. f_equal. lia. }
  split; [apply J | ].
  destruct (J 144%nat) as [evs [E Hs]]. exists evs.
  split; [exact E | split; [exact Hs | ]]. rewrite Hs. reflexivity.
Qed.

(** *** What a cycle and a job do to the database *)

(** A cycle whose [sqlite3.connect] raises never reaches its run log. *)
Lemma cycle_cannot_connect (env : cycle_env) (w : world) (e : exn) :
  connect_error env = Some e ->
  fetch_and_append_data convert py_repr env w
  = (Ok tt,
     World (disk w)
           (out w ++ [Logged ERROR ("ETL cycle failed: " ++ exn_msg e)])%list).
Proof.
  intros C.
  unfold fetch_and_append_data, try_except_finally, try_body, bind,
    begin_cycle, bind, connect.
  rewrite C. reflexivity.
Qed.

(** A cycle on a file without the [etl_log] relation fails on its first
    statement. *)
Lemma cycle_without_log (env : cycle_env) (w : world) :
  connect_error env = None ->
  etl_log (disk w) = None ->
  fetch_and_append_data convert py_repr env w
  = (Ok tt,
     World (disk w)
           (out w ++ [Logged ERROR
                        "ETL cycle failed: no such table: etl_log"])%list).
Proof.
  intros C L.
  unfold fetch_and_append_data, try_except_finally, try_body, bind,
    begin_cycle, bind, connect, log_etl_run, bind, view, set_conn, lift,
    insert_log.
  rewrite C. cbn [f_conn f_disk]. rewrite L. reflexivity.
Qed.

(** X5.  A cycle that cannot open its run, because the file cannot be
    opened or because it has no [etl_log] relation, returns normally, logs
    the error, and leaves the database as it was: no run-log entry, no
    observation. *)
Theorem cycle_that_cannot_open_its_run (env : cycle_env) (w : world) :
  (forall e,
      connect_error env = Some e ->
      fetch_and_append_data convert py_repr env w
      = (Ok tt,
         World (disk w)
               (out w ++ [Logged ERROR ("ETL cycle failed: " ++ exn_msg e)])%list))
  /\ (connect_error env = None ->
      etl_log (disk w) = None ->
      fetch_and_append_data convert py_repr env w
      = (Ok tt,
         World (disk w)
               (out w ++ [Logged ERROR
                            "ETL cycle failed: no such table: etl_log"])%list)).
Proof.
  split.
  - intros e C. now apply cycle_cannot_connect.
  - intros C L. now apply cycle_without_log.
Qed.

Lemma grown_refl (db : database) : grown 0 db db.
Proof.
  exists [], []. destruct db as [[d | ] [l | ] q]; simpl;
    rewrite ?app_nil_r; repeat split; auto; lia.
Qed.

Lemma grown_more (j k : nat) (db db' : database) :
  (j <= k)%nat -> grown j db db' -> grown k db db'.
Proof.
  intros H [added [newlog [A [B [C D]]]]]. exists added, newlog.
  repeat split; try tauto. lia.
Qed.

Lemma extend_extend {A : Type} (x y : list A) (t : option (list A)) :
  extend y (extend x t) = extend (x ++ y) t.
Proof. destruct t; simpl; trivial. now rewrite app_assoc. Qed.

Lemma grown_trans (j k : nat) (a b c : database) :
  grown j a b -> grown k b c -> grown (j + k) a c.
Proof.
  intros [x1 [l1 [A1 [B1 [C1 [D1 [E1 F1]]]]]]]
         [x2 [l2 [A2 [B2 [C2 [D2 [E2 F2]]]]]]].
  exists (x1 ++ x2)%list, (l1 ++ l2)%list.
  split; [now rewrite A2, A1, extend_extend | ].
  split; [now rewrite B2, B1, extend_extend | ].
  split; [rewrite length_app; lia | split; [ | split; [lia | auto]]].
  apply Forall_app. auto.
Qed.

(** A cycle leaves a database that has grown by at most one run-log
    entry. *)
Lemma cycle_grown (env : cycle_env) (w : world) :
  grown 1 (disk w) (disk (snd (fetch_and_append_data convert py_repr env w))).
Proof.
  destruct (connect_error env) as [e | ] eqn:C.
  - rewrite (cycle_cannot_connect env w e C).
    apply grown_more with (j := 0%nat); [lia | apply grown_refl].
  - destruct (etl_log (disk w)) as [log | ] eqn:L.
    + destruct (cycle_shape convert py_repr env w log C L)
        as [added [o' [n [st [err [E [P S]]]]]]].
      rewrite E. cbn [snd disk].
      exists added, [closed_row (next_run_id (etl_seq (disk w)) log)
                                (now_start env) (now_end env) n st err].
      cbn [opensky_data etl_log etl_seq]. rewrite L.
      split; [now destruct (opensky_data (disk w)) | ].
      split; [reflexivity | split; [simpl; lia | split; [ | split]]].
      * constructor; [ | constructor]. unfold terminal. cbn [closed_row status].
        destruct S as [[_ [-> _]] | [e [_ [-> _]]]]; auto.
      * destruct (next_run_id_bound (etl_seq (disk w)) log) as [_ [Q _]]. lia.
      * intros U. specialize (P U).
        now destruct (opensky_data (disk w)).
    + rewrite (cycle_without_log env w C L).
      apply grown_more with (j := 0%nat); [lia | apply grown_refl].
Qed.

Lemma passes_only_append (num_cycles : nat) (envs : nat -> cycle_env)
      (ixs : list nat) :
  forall w,
    grown (List.length ixs) (disk w)
          (disk (fold_left (iteration convert py_repr num_cycles envs) ixs w)).
Proof.
  induction ixs as [ | i rest IH]; intros w; simpl.
  - apply grown_refl.
  - change (S (List.length rest)) with (1 + List.length rest)%nat.
    eapply grown_trans; [ | apply IH].
    unfold iteration. rewrite disk_wait_next.
    apply (cycle_grown (envs i) (emit (cycle_banner num_cycles i) w)).
Qed.

(** *** Run identifiers *)

Lemma cycle_takes_next_id (env : cycle_env) (w : world)
      (log : list log_row) :
  connect_error env = None ->
  etl_log (disk w) = Some log ->
  ids_bounded (disk w) ->
  let w' := snd (fetch_and_append_data convert py_repr env w) in
  exists r,
    etl_log (disk w') = Some (log ++ [r])%list
    /\ run_id r = etl_seq (disk w) + 1
    /\ etl_seq (disk w') = etl_seq (disk w) + 1
    /\ ids_bounded (disk w').
Proof.
  intros C L [P B] w'. rewrite L in B. cbn [rows] in B.
  pose proof (next_run_id_follows _ _ P B) as N.
  destruct (cycle_shape convert py_repr env w log C L)
    as [added [o' [n [st [err [E _]]]]]].
  unfold w'. rewrite E, N. cbn [snd disk etl_log etl_seq].
  eexists. split; [reflexivity | split; [reflexivity | split; [reflexivity | ]]].
  split; cbn [etl_seq etl_log rows]; [lia | ].
  intros r H. apply in_app_or in H. destruct H as [H | [<- | []]].
  - specialize (B r H). lia.
  - cbn [closed_row run_id]. lia.
Qed.

Lemma passes_take_next_ids (num_cycles : nat) (envs : nat -> cycle_env)
      (ixs : list nat) :
  (forall i, connect_error (envs i) = None) ->
  forall w log,
    etl_log (disk w) = Some log ->
    ids_bounded (disk w) ->
    let w' := fold_left (iteration convert py_repr num_cycles envs) ixs w in
    exists added,
      etl_log (disk w') = Some (log ++ added)%list
      /\ map run_id added
         = map (fun k => etl_seq (disk w) + 1 + Z.of_nat k)
               (seq 0 (List.length ixs))
      /\ etl_seq (disk w') = etl_seq (disk w) + Z.of_nat (List.length ixs).
Proof.
  intros C. induction ixs as [ | i rest IH]; intros w log L B; simpl.
  - exists []. rewrite app_nil_r, Z.add_0_r. auto.
  - destruct (cycle_takes_next_id (envs i)
                (emit (cycle_banner num_cycles i) w) log (C i) L B)
      as [r [L1 [R1 [Q1 B1]]]].
    assert (D : disk (iteration convert py_repr num_cycles envs w i)
                = disk (snd (fetch_and_append_data
                               convert py_repr (envs i)
                               (emit (cycle_banner num_cycles i) w))))
      by (unfold iteration; apply disk_wait_next).
    destruct (IH (iteration convert py_repr num_cycles envs w i)
                 (log ++ [r])%list) as [added [La [Ia Qa]]];
      [now rewrite D | now rewrite D | ].
    exists (r :: added). rewrite La, <- app_assoc.
    split; [reflexivity | ].
    rewrite D, Q1 in Ia, Qa. cbn [emit disk] in *.
    split.
    + cbn [map]. rewrite R1, Ia, <- seq_shift, map_map. f_equal; [lia | ].
      apply map_ext. intros k. lia.
    + rewrite Qa. lia.
Qed.

Lemma following_ids_differ (c : Z) (n : nat) :
  forall a, NoDup (map (fun k => c + Z.of_nat k) (seq a n)).
Proof.
  induction n as [ | n IH]; intros a; simpl; constructor; [ | apply IH].
  intros H. apply in_map_iff in H. destruct H as [k [E K]].
  apply in_seq in K. lia.
Qed.

Lemma cycle_keeps_range (k : nat) (env : cycle_env) (w : world) :
  counter_in_range (S k) (disk w) ->
  counter_in_range k
    (disk (snd (fetch_and_append_data convert py_repr env w))).
Proof.
  intros [B R]. rewrite Nat2Z.inj_succ in R.
  destruct (connect_error env) as [e | ] eqn:C.
  { rewrite (cycle_cannot_connect env w e C). split; [exact B | cbn; lia]. }
  destruct (etl_log (disk w)) as [log | ] eqn:L.
  2:{ rewrite (cycle_without_log env w C L). split; [exact B | cbn; lia]. }
  destruct (cycle_takes_next_id env w log C L B) as [r [_ [_ [Q B']]]].
  split; [exact B' | rewrite Q; lia].
Qed.

Lemma passes_keep_range (num_cycles : nat) (envs : nat -> cycle_env)
      (ixs : list nat) :
  forall w,
    counter_in_range (List.length ixs) (disk w) ->
    counter_in_range
      0 (disk (fold_left (iteration convert py_repr num_cycles envs) ixs w)).
Proof.
  induction ixs as [ | i rest IH]; intros w R; simpl in *; trivial.
  apply IH. unfold iteration. rewrite disk_wait_next.
  apply cycle_keeps_range. exact R.
Qed.

(** X6.  On a database file whose relations, where they exist, are the
    ones [setup_database] declares and whose run-id counter is in range,
    and on an engine that accepts every statement, a cycle only adds to
    the database, whatever it receives: the observations and the run-log
    entries that were there are still there, in place and unchanged, at
    most one entry is added to the run log and it is closed, no relation
    is created or dropped, observations whose keys were distinct still
    have distinct keys, and the counter stays in range. *)
Theorem cycle_only_appends (env : cycle_env) (w : world) :
  counter_in_range 1 (disk w) ->
  let w' := snd (fetch_and_append_data convert py_repr env w) in
  grown 1 (disk w) (disk w') /\ counter_in_range 0 (disk w').
Proof.
  intros R w'. split; [apply cycle_grown | now apply cycle_keeps_range].
Qed.

(** X7.  On such a file, with room in the counter for [num_cycles] runs,
    a whole job only adds to the database too: after [num_cycles] cycles,
    whatever they received, every observation and every run-log entry
    that was there is still there, in place and unchanged, at most
    [num_cycles] entries were added to the run log, all closed,
    observations whose keys were distinct still have distinct keys, and
    the counter stays in range. *)
Theorem job_only_appends (num_cycles : nat) (envs : nat -> cycle_env)
        (w : world) :
  counter_in_range num_cycles (disk w) ->
  let w' := snd (run_job convert py_repr num_cycles envs w) in
  grown num_cycles (disk w) (disk w') /\ counter_in_range 0 (disk w').
Proof.
  intros R w'. unfold w', run_job. rewrite driver_loop_runs_all. cbn [snd].
  unfold emit at 1 3. cbn [disk].
  split.
  - pose proof (passes_only_append num_cycles envs (seq 0 num_cycles)
                  (emit (Logged INFO
                           ("Starting OpenSky ETL job for "
                            ++ str_int (Z.of_nat num_cycles)
                            ++ " cycles (24 hours)...")) w)) as G.
    rewrite length_seq in G. exact G.
  - apply passes_keep_range. now rewrite length_seq.
Qed.

(** X8.  Run identifiers are given in order.  On a database whose counter
    is in range for [num_cycles] more runs (it is not negative, not behind
    its run log, as after [setup_database] on a new file and after every
    cycle, and at least [num_cycles] below 2^63 - 1), a job whose cycles
    can all open the file adds one entry per cycle, and the identifiers of
    the entries added are the [num_cycles] integers that follow the
    counter, in order: no identifier is used twice, each is positive and
    at most 2^63 - 1, and each is larger than those of the entries that
    were there. *)
Theorem job_numbers_runs_in_order (num_cycles : nat)
        (envs : nat -> cycle_env) (w : world) (log : list log_row) :
  (forall i, connect_error (envs i) = None) ->
  etl_log (disk w) = Some log ->
  counter_in_range num_cycles (disk w) ->
  exists added,
    etl_log (disk (snd (run_job convert py_repr num_cycles envs w)))
    = Some (log ++ added)%list
    /\ map run_id added
       = map (fun k => etl_seq (disk w) + 1 + Z.of_nat k) (seq 0 num_cycles)
    /\ NoDup (map run_id added)
    /\ (forall r', In r' added -> 0 < run_id r' <= MAX_ROWID)
    /\ (forall r r', In r log -> In r' added -> run_id r < run_id r').
Proof.
  intros C L [B R]. unfold run_job. rewrite driver_loop_runs_all. cbn [snd].
  unfold emit at 1. cbn [disk].
  destruct (passes_take_next_ids num_cycles envs (seq 0 num_cycles) C
              (emit (Logged INFO
                       ("Starting OpenSky ETL job for "
                        ++ str_int (Z.of_nat num_cycles)
                        ++ " cycles (24 hours)...")) w) log L B)
    as [added [La [Ia _]]].
  rewrite length_seq in Ia. cbn [emit disk] in Ia.
  exists added. split; [exact La | split; [exact Ia | split; [ | split]]].
  - rewrite Ia. apply following_ids_differ.
  - intros r' H'. destruct B as [P _].
    apply (in_map run_id) in H'. rewrite Ia in H'.
    apply in_map_iff in H'. destruct H' as [k [<- K]].
    apply in_seq in K. lia.
  - intros r r' H H'. destruct B as [_ B]. rewrite L in B. cbn [rows] in B.
    specialize (B r H). apply (in_map run_id) in H'. rewrite Ia in H'.
    apply in_map_iff in H'. destruct H' as [k [<- _]]. lia.
Qed.

(** *** The normaliser *)

Lemma fields_length (state : pyval) (fetch_time : string) (ixs : list nat) :
  forall record,
    fields py_repr state fetch_time ixs = Ok record ->
    List.length record = List.length ixs.
Proof.
  induction ixs as [ | i rest IH]; simpl; intros record H.
  - now inversion H.
  - destruct (field py_repr state fetch_time i); simpl in H; [ | discriminate].
    destruct (fields py_repr state fetch_time rest) eqn:E; simpl in H;
      [ | discriminate].
    inversion H. simpl. f_equal. auto.
Qed.

Lemma callsign_of_none_or_str (v c : pyval) :
  callsign_of v = Ok c -> none_or_str c = true.
Proof.
  unfold callsign_of. destruct (truthy v).
  - destruct v; simpl; intros H; inversion H; reflexivity.
  - intros H. inversion H. reflexivity.
Qed.

Lemma sensors_of_none_or_str (v c : pyval) :
  sensors_of py_repr v = Ok c -> none_or_str c = true.
Proof.
  unfold sensors_of. destruct (truthy v).
  - destruct (iter v); simpl; intros H; inversion H; reflexivity.
  - intros H. inversion H. reflexivity.
Qed.

Lemma record_of_shape (state : pyval) (fetch_time : string)
      (record : list pyval) :
  record_of py_repr state fetch_time = Ok record ->
  List.length record = 18%nat
  /\ nth_error record 17 = Some (PStr fetch_time)
  /\ (exists c, nth_error record 1 = Some c /\ none_or_str c = true)
  /\ (exists c, nth_error record 12 = Some c /\ none_or_str c = true).
Proof.
  intros H. split; [apply (fields_length _ _ _ _ H) | split; [ | split]].
  - destruct (fields_nth py_repr state fetch_time (seq 0 18) record H
                         17%nat 17%nat eq_refl) as [x [F N]].
    cbn [field] in F. inversion F; subst. exact N.
  - destruct (fields_nth py_repr state fetch_time (seq 0 18) record H
                         1%nat 1%nat eq_refl) as [x [F N]].
    cbn [field] in F. destruct (getitem state 1); simpl in F; [ | discriminate].
    exists x. split; [exact N | ]. eapply callsign_of_none_or_str; eauto.
  - destruct (fields_nth py_repr state fetch_time (seq 0 18) record H
                         12%nat 12%nat eq_refl) as [x [F N]].
    cbn [field] in F. destruct (getitem state 12); simpl in F; [ | discriminate].
    exists x. split; [exact N | ]. eapply sensors_of_none_or_str; eauto.
Qed.

(** X9.  Whenever the normaliser returns, it has made exactly one record
    per state of at least 17 fields, and each record fits [insert_query]:
    it has the 18 values of the 18 placeholders, its callsign and its
    sensors are [None] or a string, and its last value is the fetch time
    of the cycle, the same for every record of the batch. *)
Theorem normalized_records_fit_the_insert (items : list pyval)
        (fetch_time : string) (records : list (list pyval)) :
  normalize py_repr items fetch_time = Ok records ->
  List.length records = List.length (filter long_enough items)
  /\ Forall (fun record =>
               List.length record = 18%nat
               /\ nth_error record 17 = Some (PStr fetch_time)
               /\ (exists c, nth_error record 1 = Some c
                             /\ none_or_str c = true)
               /\ (exists c, nth_error record 12 = Some c
                             /\ none_or_str c = true))
            records.
Proof.
  revert records. induction items as [ | state rest IH]; simpl; intros records H.
  - inversion H. auto.
  - unfold long_enough at 1.
    destruct (len state) as [n | ]; simpl in H; [ | discriminate].
    destruct (17 <=? n).
    + destruct (record_of py_repr state fetch_time) as [record | ] eqn:R;
        simpl in H; [ | discriminate].
      destruct (normalize py_repr rest fetch_time) as [rs | ]; simpl in H;
        [ | discriminate].
      inversion H; subst. destruct (IH rs eq_refl) as [L F].
      split; [simpl; now rewrite L | ].
      constructor; [apply (record_of_shape _ _ _ R) | exact F].
    + now apply IH.
Qed.

(** X10.  On a tuple of at least 17 fields, building the record raises in
    two cases only, tested in this order: a callsign that is neither empty,
    absent nor a string has no [strip] ([AttributeError]); a sensor field
    that is neither empty, absent nor a list, a string or a dict cannot be
    iterated ([TypeError]).  In every other case the record is built. *)
Theorem long_tuple_normalises_unless (xs : list pyval) (fetch_time : string) :
  (17 <= List.length xs)%nat ->
  let callsign := nth 1 xs PNone in
  let sensors := nth 12 xs PNone in
  (callsign_ok callsign = false ->
   record_of py_repr (PList xs) fetch_time
   = Raise (Exn AttributeError
              ("'" ++ type_name callsign
               ++ "' object has no attribute 'strip'")))
  /\ (callsign_ok callsign = true ->
      sensors_ok sensors = false ->
      record_of py_repr (PList xs) fetch_time
      = Raise (Exn TypeError
                 ("'" ++ type_name sensors ++ "' object is not iterable")))
  /\ (callsign_ok callsign = true ->
      sensors_ok sensors = true ->
      exists record, record_of py_repr (PList xs) fetch_time = Ok record).
Proof.
  intros L.
  do 17 (destruct xs as [ | ? xs]; [simpl in L; lia | ]).
  clear L. cbn [nth]. unfold record_of.
  cbn [seq fields field getitem nth_error rbind].
  unfold callsign_ok, sensors_ok, callsign_of, sensors_of.
  split; [ | split].
  - intros C. apply orb_false_elim in C. destruct C as [T S].
    apply negb_false_iff in T. rewrite T.
    destruct p0; try discriminate S; reflexivity.
  - intros C S. apply orb_false_elim in S. destruct S as [T I].
    apply negb_false_iff in T. rewrite T.
    assert (X : exists c, (if truthy p0 then strip_method p0 else Ok PNone)
                          = Ok c).
    { destruct (truthy p0); [ | eauto].
      destruct p0; try discriminate C; simpl; eauto. }
    destruct X as [c ->]. cbn [rbind].
    destruct p11; try discriminate I; reflexivity.
  - intros C S.
    assert (X : exists c, (if truthy p0 then strip_method p0 else Ok PNone)
                          = Ok c).
    { destruct (truthy p0); [ | eauto].
      destruct p0; try discriminate C; simpl; eauto. }
    assert (Y : exists c, (if truthy p11
                           then rbind (iter p11)
                                  (fun xs0 =>
                                     Ok (PStr (join "," (map (str py_repr) xs0))))
                           else Ok PNone) = Ok c).
    { destruct (truthy p11); [ | eauto].
      destruct p11; try discriminate S; simpl; eauto. }
    destruct X as [c ->]. destruct Y as [c' ->]. cbn [rbind]. eauto.
Qed.

(** X11.  A response that cannot be normalised fails the whole cycle and
    stores nothing: when the decoded body has no [get] (it is not an
    object), when [states] cannot be iterated, or when building the record
    of one tuple raises, no observation of the response is inserted, not
    even from its well-formed tuples, and the run is closed as a Failure
    with the text of the exception. *)
Theorem malformed_response_stores_nothing (env : cycle_env) (w : world)
        (log : list log_row) (data : pyval) (e : exn) :
  connect_error env = None ->
  etl_log (disk w) = Some log ->
  response env = Ok data ->
  get_method data "states" (PList []) = Raise e
  \/ (exists states,
         get_method data "states" (PList []) = Ok states
         /\ truthy states = true
         /\ (iter states = Raise e
             \/ exists items,
                 iter states = Ok items
                 /\ normalize py_repr items (utcnow_fetch env) = Raise e)) ->
  let id := next_run_id (etl_seq (disk w)) log in
  fetch_and_append_data convert py_repr env w
  = (Ok tt,
     World (Db (opensky_data (disk w))
               (Some (log ++ [closed_row id (now_start env) (now_end env) 0
                                         "Failure" (Some (exn_msg e))])%list)
               id)
           ((out w ++ [Logged INFO ("Starting ETL Cycle (Run ID: "
                                    ++ str_int id ++ ")...")])
            ++ [Logged ERROR ("ETL cycle failed: " ++ exn_msg e)])%list).
Proof.
  intros C L R H id.
  destruct (next_run_id_bound (etl_seq (disk w)) log) as [P _].
  apply cycle_of_failure with (dk := disk w).
  - unfold id. lia.
  - intros r. apply next_run_id_fresh.
  - rewrite (try_body_opened convert py_repr env w log C L).
    unfold extract_and_load. rewrite R, bind_lift_ok.
    destruct H as [G | [states [G [T [I | [items [I N]]]]]]]; rewrite G.
    + reflexivity.
    + rewrite bind_lift_ok, T. cbn [negb]. rewrite I. reflexivity.
    + rewrite bind_lift_ok, T. cbn [negb]. rewrite I, bind_lift_ok, N.
      reflexivity.
Qed.

(** *** Trimming *)

Lemma lstrip_split (s : string) :
  exists a, s = a ++ lstrip s /\ all_space a = true.
Proof.
  induction s as [ | c rest [a [E A]]]; simpl.
  - exists "". auto.
  - destruct (is_space c) eqn:S.
    + exists (String c a). simpl. rewrite S, A. split; [congruence | reflexivity].
    + exists "". auto.
Qed.

Lemma rstrip_split (s : string) :
  exists b, s = rstrip s ++ b /\ all_space b = true.
Proof.
  induction s as [ | c rest [b [E B]]]; simpl.
  - exists "". auto.
  - destruct (rstrip rest) as [ | d r] eqn:R.
    + destruct (is_space c) eqn:S.
      * exists (String c b). simpl in E |- *. rewrite S, B.
        split; [congruence | reflexivity].
      * exists b. simpl in E |- *. split; [congruence | exact B].
    + exists b. split; [ | exact B]. simpl in E |- *. congruence.
Qed.

Lemma lstrip_first (s : string) (c : ascii) :
  first_char (lstrip s) = Some c -> is_space c = false.
Proof.
  induction s as [ | a rest IH]; simpl; [discriminate | ].
  destruct (is_space a) eqn:S; [exact IH | ].
  simpl. intros H. inversion H; subst. exact S.
Qed.

Lemma rstrip_last (s : string) (c : ascii) :
  last_char (rstrip s) = Some c -> is_space c = false.
Proof.
  induction s as [ | a rest IH]; simpl; [discriminate | ].
  destruct (rstrip rest) as [ | d r] eqn:R.
  - destruct (is_space a) eqn:S; simpl; [discriminate | ].
    intros H. inversion H; subst. exact S.
  - exact IH.
Qed.

Lemma rstrip_first (s : string) (c : ascii) :
  first_char s = Some c -> is_space c = false ->
  first_char (rstrip s) = Some c.
Proof.
  destruct s as [ | a rest]; simpl; [discriminate | ].
  intros H S. inversion H; subst.
  destruct (rstrip rest); [rewrite S | ]; reflexivity.
Qed.

Lemma rstrip_cons (a : ascii) (t : string) :
  rstrip (String a t)
  = match rstrip t with
    | EmptyString => if is_space a then EmptyString else String a EmptyString
    | String d r => String a (String d r)
    end.
Proof. reflexivity. Qed.

Lemma rstrip_rstrip (s : string) : rstrip (rstrip s) = rstrip s.
Proof.
  induction s as [ | a rest IH]; simpl; trivial.
  destruct (rstrip rest) as [ | d r] eqn:R.
  - destruct (is_space a) eqn:S; simpl; [reflexivity | now rewrite S].
  - rewrite rstrip_cons, IH. reflexivity.
Qed.

Lemma lstrip_fixed (s : string) :
  (forall c, first_char s = Some c -> is_space c = false) -> lstrip s = s.
Proof.
  destruct s as [ | a rest]; simpl; trivial.
  intros H. now rewrite (H a eq_refl).
Qed.

Lemma strip_trimmed (s : string) : trimmed (strip s).
Proof.
  unfold strip. split.
  - intros c H. destruct (first_char (lstrip s)) as [d | ] eqn:F.
    + pose proof (lstrip_first _ _ F) as S.
      rewrite (rstrip_first _ _ F S) in H. inversion H; subst. exact S.
    + destruct (lstrip s); [discriminate H | discriminate F].
  - apply rstrip_last.
Qed.

Lemma strip_strip (s : string) : strip (strip s) = strip s.
Proof.
  unfold strip at 1. rewrite lstrip_fixed by apply strip_trimmed.
  unfold strip. apply rstrip_rstrip.
Qed.

(** X12.  A callsign stored as a string is the raw callsign with
    whitespace removed at its two ends and nothing else: the raw callsign
    is the stored one between a run of whitespace and another, the stored
    one neither starts nor ends with whitespace, and trimming it again
    changes nothing. *)
Theorem stored_callsign_is_trimmed (state : pyval) (fetch_time : string)
        (record : list pyval) (s : string) :
  record_of py_repr state fetch_time = Ok record ->
  nth_error record 1 = Some (PStr s) ->
  trimmed s
  /\ strip s = s
  /\ exists raw before after,
      getitem state 1 = Ok (PStr raw)
      /\ raw = before ++ s ++ after
      /\ all_space before = true
      /\ all_space after = true.
Proof.
  intros H N.
  destruct (fields_nth py_repr state fetch_time (seq 0 18) record H 1%nat 1%nat
                       eq_refl) as [x [F N']].
  rewrite N in N'. inversion N'; subst x. clear N'.
  cbn [field] in F.
  destruct (getitem state 1) as [raw | ]; simpl in F; [ | discriminate].
  unfold callsign_of in F.
  destruct (truthy raw); [ | discriminate].
  destruct raw as [ | | | | raw | | ]; simpl in F; try discriminate.
  inversion F; subst s.
  split; [apply strip_trimmed | split; [apply strip_strip | ]].
  destruct (lstrip_split raw) as [a [Ea A]].
  destruct (rstrip_split (lstrip raw)) as [b [Eb B]].
  exists raw, a, b. repeat split; trivial.
  unfold strip. rewrite <- Eb. exact Ea.
Qed.

(** *** Errors of the load *)

Lemma executemany_loop_app (l1 l2 : list (list pyval)) :
  forall tbl acc,
    executemany_loop convert tbl acc (l1 ++ l2)
    = match executemany_loop convert tbl acc l1 with
      | (t1, Ok n) => executemany_loop convert t1 n l2
      | (t1, Raise e) => (t1, Raise e)
      end.
Proof.
  induction l1 as [ | p l1 IH]; intros tbl acc; simpl; trivial.
  destruct (bind_params 18 p); trivial.
  destruct (insert_or_ignore convert tbl a). apply IH.
Qed.

(** Lines 47-90 when the response normalises to [records] and
    [executemany] raises. *)
Lemma extract_and_load_stopped (env : cycle_env)
      (tbl tbl' : list row) (log : list log_row) (id : Z)
      (dk : database) (o : list event)
      (data states : pyval) (items : list pyval)
      (record : list pyval) (records : list (list pyval)) (e : exn) :
  response env = Ok data ->
  get_method data "states" (PList []) = Ok states ->
  truthy states = true ->
  iter states = Ok items ->
  normalize py_repr items (utcnow_fetch env) = Ok (record :: records) ->
  executemany_loop convert tbl 0 (record :: records) = (tbl', Raise e) ->
  extract_and_load convert py_repr env (Some id)
                   (opened (Some tbl) log id (now_start env) dk o)
  = (Raise e, opened (Some tbl') log id (now_start env) dk o).
Proof.
  intros R G T I N E.
  unfold extract_and_load.
  rewrite R, bind_lift_ok, G, bind_lift_ok, T. cbn [negb].
  rewrite I, bind_lift_ok, N, bind_lift_ok.
  unfold load, insert_and_commit, executemany, bind, view, opened.
  cbn [f_conn opensky_data etl_log etl_seq f_run_id f_disk f_out].
  now rewrite E.
Qed.

(** X13.  A value [sqlite3] cannot bind stops the load where it stands.
    When the batch is made of records that can be bound, then one that
    cannot, then any others, the cycle ends as a Failure with 0 records
    processed and the text of the binding error, and the observations
    inserted from the records before the bad one are committed with that
    entry; nothing of the bad record or of the records after it is
    stored. *)
Theorem unbindable_record_stops_and_keeps (env : cycle_env) (w : world)
        (log : list log_row) (tbl : list row) (data states : pyval)
        (items : list pyval) (good : list (list pyval)) (bad : list pyval)
        (others : list (list pyval)) (e : exn) :
  connect_error env = None ->
  etl_log (disk w) = Some log ->
  opensky_data (disk w) = Some tbl ->
  response env = Ok data ->
  get_method data "states" (PList []) = Ok states ->
  truthy states = true ->
  iter states = Ok items ->
  normalize py_repr items (utcnow_fetch env) = Ok (good ++ bad :: others)%list ->
  forallb bindable good = true ->
  bind_params 18 bad = Raise e ->
  let id := next_run_id (etl_seq (disk w)) log in
  fetch_and_append_data convert py_repr env w
  = (Ok tt,
     World (Db (Some (fst (executemany_loop convert tbl 0 good)))
               (Some (log ++ [closed_row id (now_start env) (now_end env) 0
                                         "Failure" (Some (exn_msg e))])%list)
               id)
           ((out w ++ [Logged INFO ("Starting ETL Cycle (Run ID: "
                                    ++ str_int id ++ ")...")])
            ++ [Logged ERROR ("ETL cycle failed: " ++ exn_msg e)])%list).
Proof.
  intros C L D R G T I N B X id.
  destruct (next_run_id_bound (etl_seq (disk w)) log) as [P _].
  assert (E : executemany_loop convert tbl 0 (good ++ bad :: others)
              = (fst (executemany_loop convert tbl 0 good), Raise e)).
  { rewrite executemany_loop_app.
    destruct (executemany_loop_returns convert good tbl 0 B) as [n En].
    destruct (executemany_loop convert tbl 0 good) as [t1 r1].
    simpl in En. subst r1. simpl. now rewrite X. }
  apply cycle_of_failure with (dk := disk w).
  - unfold id. lia.
  - intros r. apply next_run_id_fresh.
  - rewrite (try_body_opened convert py_repr env w log C L), D.
    destruct good as [ | g good'];
      eapply extract_and_load_stopped; eauto.
Qed.

(** X14.  When the [opensky_data] relation does not exist and the batch is
    not empty, the load raises: the cycle is closed as a Failure with the
    engine's message and 0 records processed, and the relation is not
    created. *)
Theorem load_without_relation_fails (env : cycle_env) (w : world)
        (log : list log_row) (data states : pyval) (items : list pyval)
        (record : list pyval) (records : list (list pyval)) :
  connect_error env = None ->
  etl_log (disk w) = Some log ->
  opensky_data (disk w) = None ->
  response env = Ok data ->
  get_method data "states" (PList []) = Ok states ->
  truthy states = true ->
  iter states = Ok items ->
  normalize py_repr items (utcnow_fetch env) = Ok (record :: records) ->
  let id := next_run_id (etl_seq (disk w)) log in
  fetch_and_append_data convert py_repr env w
  = (Ok tt,
     World (Db None
               (Some (log ++ [closed_row id (now_start env) (now_end env) 0
                                         "Failure"
                                         (Some "no such table: opensky_data")])%list)
               id)
           ((out w ++ [Logged INFO ("Starting ETL Cycle (Run ID: "
                                    ++ str_int id ++ ")...")])
            ++ [Logged ERROR
                  "ETL cycle failed: no such table: opensky_data"])%list).
Proof.
  intros C L D R G T I N id.
  destruct (next_run_id_bound (etl_seq (disk w)) log) as [P _].
  apply (cycle_of_failure convert py_repr env w None log id (now_start env)
                          (disk w) _
                          (Exn OperationalError "no such table: opensky_data")).
  - unfold id. lia.
  - intros r. apply next_run_id_fresh.
  - rewrite (try_body_opened convert py_repr env w log C L), D.
    unfold extract_and_load.
    rewrite R, bind_lift_ok, G, bind_lift_ok, T. cbn [negb].
    rewrite I, bind_lift_ok, N, bind_lift_ok. reflexivity.
Qed.

Lemma normalize_all_short (items : list pyval) (fetch_time : string) :
  forallb too_short items = true ->
  normalize py_repr items fetch_time = Ok [].
Proof.
  induction items as [ | v rest IH]; simpl; trivial.
  intros H. apply andb_prop in H. destruct H as [S H].
  unfold too_short in S. destruct (len v) as [n | ]; [ | discriminate].
  simpl. destruct (Z.leb_spec 17 n); [ | now apply IH].
  apply Z.ltb_lt in S. lia.
Qed.

(** X15.  A response whose tuples are all shorter than 17 fields is a
    zero-record success by the branch of line 88: nothing is inserted, the
    statement is not even run (the cycle succeeds whether the
    [opensky_data] relation exists or not), and the run is closed as a
    Success with 0 records processed. *)
Theorem only_short_tuples_is_zero_record_success (env : cycle_env)
        (w : world) (log : list log_row) (data states : pyval)
        (items : list pyval) :
  connect_error env = None ->
  etl_log (disk w) = Some log ->
  response env = Ok data ->
  get_method data "states" (PList []) = Ok states ->
  truthy states = true ->
  iter states = Ok items ->
  forallb too_short items = true ->
  let id := next_run_id (etl_seq (disk w)) log in
  fetch_and_append_data convert py_repr env w
  = (Ok tt,
     World (Db (opensky_data (disk w))
               (Some (log ++ [closed_row id (now_start env) (now_end env) 0
                                         "Success" None])%list)
               id)
           ((out w ++ [Logged INFO ("Starting ETL Cycle (Run ID: "
                                    ++ str_int id ++ ")...")])
            ++ [Logged INFO "No valid records to insert for this cycle."])%list).
Proof.
  intros C L R G T I S id.
  destruct (next_run_id_bound (etl_seq (disk w)) log) as [P _].
  apply cycle_of_success.
  rewrite (try_body_opened convert py_repr env w log C L).
  unfold extract_and_load.
  rewrite R, bind_lift_ok, G, bind_lift_ok, T. cbn [negb].
  rewrite I, bind_lift_ok, (normalize_all_short _ _ S), bind_lift_ok.
  unfold load. apply close_success.
  - fold id. lia.
  - intros r. apply next_run_id_fresh.
Qed.

(** X16.  [log_etl_run] with a status outside Running, Success and
    Failure is refused by the CHECK of the schema: opening a run, or
    closing a run that exists, raises [IntegrityError], changes nothing in
    the working copy and commits nothing. *)
Theorem invalid_status_is_refused (now st : string) (n : Z)
        (err : option string) (s : frame) (db : database)
        (log : list log_row) :
  f_conn s = Some db ->
  etl_log db = Some log ->
  status_check st = false ->
  (forall rid,
      run_id_set rid = false ->
      log_etl_run now st n err rid s
      = (Raise (Exn IntegrityError
                "CHECK constraint failed: status IN ('Running', 'Success', 'Failure')"), s))
  /\ (forall id r,
         id <> 0 -> In r log -> run_id r = id ->
         log_etl_run now st n err (Some id) s
         = (Raise (Exn IntegrityError
                "CHECK constraint failed: status IN ('Running', 'Success', 'Failure')"), s)).
Proof.
  intros F L S. split.
  - intros rid H.
    assert (I : (p <- lift (insert_log db now st) ;;
                 set_conn (Some (fst p)) ;; ret (Some (snd p))) s
                = (Raise (Exn IntegrityError
                "CHECK constraint failed: status IN ('Running', 'Success', 'Failure')"),
                   s)).
    { unfold insert_log. rewrite L, S. reflexivity. }
    unfold log_etl_run, bind at 1, view. rewrite F.
    destruct rid as [id | ]; [ | exact I].
    simpl in H. apply negb_false_iff in H. rewrite H. exact I.
  - intros id r Z I E. run_update. rewrite F.
    destruct (Z.eqb_spec id 0) as [ | _]; [contradiction | ].
    rewrite L, S.
    assert (X : existsb (fun r0 => run_id r0 =? id) log = true).
    { apply existsb_exists. exists r. split; trivial. now apply Z.eqb_eq. }
    rewrite X. reflexivity.
Qed.

(** *** The same response in a later cycle *)

Lemma fields_app (state : pyval) (ft : string) (l1 l2 : list nat) :
  fields py_repr state ft (l1 ++ l2)
  = rbind (fields py_repr state ft l1) (fun a =>
    rbind (fields py_repr state ft l2) (fun b => Ok (a ++ b)%list)).
Proof.
  induction l1 as [ | i l1 IH]; simpl.
  - destruct (fields py_repr state ft l2); reflexivity.
  - destruct (field py_repr state ft i); simpl; trivial.
    rewrite IH. destruct (fields py_repr state ft l1); simpl; trivial.
    destruct (fields py_repr state ft l2); reflexivity.
Qed.

Lemma fields_any_time (state : pyval) (t1 t2 : string) (ixs : list nat) :
  ~ In 17%nat ixs ->
  fields py_repr state t1 ixs = fields py_repr state t2 ixs.
Proof.
  induction ixs as [ | i rest IH]; simpl; trivial.
  intros H. rewrite IH by tauto.
  assert (F : field py_repr state t1 i = field py_repr state t2 i).
  { unfold field.
    do 17 (destruct i as [ | i]; trivial).
    destruct i; [exfalso; apply H; now left | reflexivity]. }
  now rewrite F.
Qed.

(** The record of a state is its first 17 values, which do not depend on
    the fetch time, followed by the fetch time. *)
Lemma record_of_split (state : pyval) (ft : string) :
  record_of py_repr state ft
  = rbind (fields py_repr state "" (seq 0 17))
          (fun xs => Ok (xs ++ [PStr ft])%list).
Proof.
  unfold record_of. change (seq 0 18) with (seq 0 17 ++ [17%nat])%list.
  rewrite fields_app.
  rewrite (fields_any_time state ft "" (seq 0 17)).
  - destruct (fields py_repr state "" (seq 0 17)); reflexivity.
  - intros H. apply in_seq in H. lia.
Qed.

Lemma normalize_any_time (items : list pyval) (t1 t2 : string) :
  forall records1,
    normalize py_repr items t1 = Ok records1 ->
    exists records2,
      normalize py_repr items t2 = Ok records2
      /\ Forall2 same_but_time records1 records2.
Proof.
  induction items as [ | state rest IH]; simpl; intros records1 H.
  - inversion H. eauto.
  - destruct (len state) as [n | ]; simpl in H |- *; [ | discriminate].
    destruct (17 <=? n); [ | now apply IH].
    rewrite record_of_split in H. rewrite record_of_split.
    destruct (fields py_repr state "" (seq 0 17)) as [xs | ] eqn:F;
      simpl in H |- *; [ | discriminate].
    destruct (normalize py_repr rest t1) as [rs | ]; simpl in H;
      [ | discriminate].
    inversion H; subst. destruct (IH rs eq_refl) as [rs2 [-> R]].
    simpl. eexists. split; [reflexivity | ].
    constructor; trivial. exists xs, t1, t2.
    split; [ | auto]. now rewrite (fields_length _ _ _ _ F).
Qed.

Lemma bind_from_app (l1 l2 : list pyval) :
  forall pos,
    bind_from pos (l1 ++ l2)
    = rbind (bind_from pos l1) (fun a =>
      rbind (bind_from (pos + List.length l1) l2) (fun b => Ok (a ++ b)%list)).
Proof.
  induction l1 as [ | v l1 IH]; intros pos; simpl.
  - rewrite Nat.add_0_r. destruct (bind_from pos l2); reflexivity.
  - destruct (bind_param pos v); simpl; trivial.
    rewrite IH, <- plus_n_Sm. destruct (bind_from (S pos) l1); simpl; trivial.
    destruct (bind_from (S (pos + List.length l1)) l2); reflexivity.
Qed.

(** Two records that differ in their fetch time only are bound alike, and
    their stored rows break NOT NULL alike and carry the same key. *)
Lemma same_but_time_stored (p1 p2 : list pyval) (v1 : list sqlval) :
  same_but_time p1 p2 ->
  bind_params 18 p1 = Ok v1 ->
  exists v2,
    bind_params 18 p2 = Ok v2
    /\ violates_not_null opensky_columns
                         (store_row convert opensky_columns v2)
       = violates_not_null opensky_columns
                           (store_row convert opensky_columns v1)
    /\ forall r,
        same_key (store_row convert opensky_columns v2) r
        = same_key (store_row convert opensky_columns v1) r.
Proof.
  intros [xs [t1 [t2 [L [-> ->]]]]] B.
  unfold bind_params in B |- *. rewrite length_app, L in B |- *.
  cbn [List.length Nat.add Nat.eqb] in B |- *.
  rewrite bind_from_app in B. rewrite bind_from_app.
  destruct (bind_from 1 xs) as [vs | ] eqn:X; simpl in B |- *;
    [ | discriminate].
  inversion B; subst v1. eexists. split; [reflexivity | ].
  apply bind_from_length in X. rewrite L in X.
  do 17 (destruct vs as [ | ? vs]; [discriminate X | ]).
  destruct vs; [ | discriminate X].
  split; [reflexivity | intros r; reflexivity].
Qed.

Lemma existsb_pointwise {A : Type} (f g : A -> bool) (l : list A) :
  (forall x, f x = g x) -> existsb f l = existsb g l.
Proof.
  intros E. induction l as [ | x l IH]; simpl; trivial. now rewrite E, IH.
Qed.

(** Once a batch has been loaded, loading the same batch with another
    fetch time inserts nothing. *)
Lemma executemany_loop_replayed (records1 records2 : list (list pyval)) :
  Forall2 same_but_time records1 records2 ->
  forall tbl acc tbl' n,
    executemany_loop convert tbl acc records1 = (tbl', Ok n) ->
    forall big acc',
      incl tbl' big ->
      executemany_loop convert big acc' records2 = (big, Ok acc').
Proof.
  induction 1 as [ | p1 p2 l1 l2 P F IH]; intros tbl acc tbl' n H big acc' I;
    cbn [executemany_loop] in H |- *; trivial.
  destruct (bind_params 18 p1) as [v1 | e] eqn:B1; [ | discriminate H].
  destruct (same_but_time_stored p1 p2 v1 P B1) as [v2 [-> [V K]]].
  pose proof (bind_params_length _ _ B1) as L1.
  set (r1 := store_row convert opensky_columns v1) in *.
  set (r2 := store_row convert opensky_columns v2) in *.
  assert (S : insert_or_ignore convert big v2 = (big, 0)).
  { unfold insert_or_ignore. fold r2. rewrite V.
    destruct (violates_not_null opensky_columns r1) eqn:N; trivial.
    assert (X : existsb (same_key r1) big = true).
    { destruct (insert_or_ignore_cases convert tbl v1) as [[E Q] | [E _]];
        rewrite E in H;
        destruct (executemany_loop_adds convert _ _ _ _ _ H)
          as [added [-> _]].
      - fold r1 in Q. destruct Q as [Q | Q]; [congruence | ].
        apply existsb_incl with (l1 := tbl); trivial.
        intros x Hx. apply I. apply in_or_app. now left.
      - fold r1 in I.
        apply existsb_incl with (l1 := (tbl ++ [r1])%list).
        + intros x Hx. apply I. apply in_or_app. now left.
        + rewrite existsb_snoc. unfold r1 at 2.
          rewrite same_key_refl; trivial. apply orb_true_r. }
    rewrite (existsb_pointwise (same_key r2) (same_key r1) big K), X.
    reflexivity. }
  rewrite S, Z.add_0_r.
  destruct (insert_or_ignore convert tbl v1) as [tbl1 c].
  eapply IH; eauto.
Qed.

Lemma cycle_loaded (env : cycle_env) (w : world) (log : list log_row)
      (tbl tbl' : list row) (data states : pyval) (items : list pyval)
      (records : list (list pyval)) (n : Z) :
  connect_error env = None ->
  etl_log (disk w) = Some log ->
  opensky_data (disk w) = Some tbl ->
  response env = Ok data ->
  get_method data "states" (PList []) = Ok states ->
  truthy states = true ->
  iter states = Ok items ->
  normalize py_repr items (utcnow_fetch env) = Ok records ->
  executemany_loop convert tbl 0 records = (tbl', Ok n) ->
  exists o',
    fetch_and_append_data convert py_repr env w
    = (Ok tt,
       World (Db (Some tbl')
                 (Some (log ++ [closed_row (next_run_id (etl_seq (disk w)) log)
                                           (now_start env) (now_end env) n
                                           "Success" None])%list)
                 (next_run_id (etl_seq (disk w)) log)) o').
Proof.
  intros C L D R G T I N E.
  destruct (next_run_id_bound (etl_seq (disk w)) log) as [P _].
  eexists. apply cycle_of_success.
  rewrite (try_body_opened convert py_repr env w log C L), D.
  apply extract_and_load_loaded
    with (data := data) (states := states) (items := items)
         (records := records); trivial.
  - lia.
  - intros r. apply next_run_id_fresh.
Qed.

(** X17.  The key of an observation does not involve the fetch time, so a
    response already loaded brings nothing new: when a cycle has loaded a
    response, a later cycle that receives the same response, at whatever
    time, inserts no observation and is closed as a Success with 0 records
    processed. *)
Theorem replayed_response_inserts_nothing (env1 env2 : cycle_env)
        (w : world) (log : list log_row) (tbl tbl1 : list row)
        (data states : pyval) (items : list pyval)
        (records : list (list pyval)) (n : Z) :
  connect_error env1 = None ->
  connect_error env2 = None ->
  etl_log (disk w) = Some log ->
  opensky_data (disk w) = Some tbl ->
  response env1 = Ok data ->
  response env2 = Ok data ->
  get_method data "states" (PList []) = Ok states ->
  truthy states = true ->
  iter states = Ok items ->
  normalize py_repr items (utcnow_fetch env1) = Ok records ->
  executemany_loop convert tbl 0 records = (tbl1, Ok n) ->
  let w1 := snd (fetch_and_append_data convert py_repr env1 w) in
  let w2 := snd (fetch_and_append_data convert py_repr env2 w1) in
  let id1 := next_run_id (etl_seq (disk w)) log in
  opensky_data (disk w1) = Some tbl1
  /\ opensky_data (disk w2) = Some tbl1
  /\ exists id2,
      etl_log (disk w2)
      = Some (log ++ [closed_row id1 (now_start env1) (now_end env1) n
                                 "Success" None;
                      closed_row id2 (now_start env2) (now_end env2) 0
                                 "Success" None])%list.
Proof.
  intros C1 C2 L D R1 R2 G T I N E w1 w2 id1.
  destruct (cycle_loaded env1 w log tbl tbl1 data states items records n
                         C1 L D R1 G T I N E) as [o1 F1].
  destruct (normalize_any_time items (utcnow_fetch env1) (utcnow_fetch env2)
                               records N) as [records2 [N2 S]].
  pose proof (executemany_loop_replayed records records2 S tbl 0 tbl1 n E
                                        tbl1 0 (incl_refl tbl1)) as E2.
  assert (H1 : w1 = World (Db (Some tbl1)
                              (Some (log ++ [closed_row id1 (now_start env1)
                                               (now_end env1) n "Success"
                                               None])%list) id1) o1)
    by (unfold w1; now rewrite F1).
  destruct (cycle_loaded env2 w1 _ tbl1 tbl1 data states items records2 0
                         C2 (f_equal (fun x => etl_log (disk x)) H1)
                         (f_equal (fun x => opensky_data (disk x)) H1)
                         R2 G T I N2 E2) as [o2 F2].
  unfold w2. rewrite F2. rewrite H1. cbn [snd disk opensky_data etl_log].
  split; [reflexivity | split; [reflexivity | ]].
  eexists. rewrite <- app_assoc. reflexivity.
Qed.

(** *** What the load stores *)

Lemma store_row_length (vals : list sqlval) :
  List.length vals = 18%nat ->
  List.length (store_row convert opensky_columns vals) = 18%nat.
Proof.
  intros L.
  do 18 (destruct vals as [ | ? vals]; [discriminate L | ]).
  destruct vals; [reflexivity | discriminate L].
Qed.

Lemma executemany_loop_rows_ok (records : list (list pyval)) :
  forall tbl acc,
    Forall row_ok tbl ->
    Forall row_ok (fst (executemany_loop convert tbl acc records)).
Proof.
  induction records as [ | p rest IH]; intros tbl acc F; simpl; trivial.
  destruct (bind_params 18 p) as [vals | e] eqn:B; trivial.
  destruct (insert_or_ignore_cases convert tbl vals) as [[E _] | [E [V _]]];
    rewrite E; apply IH; trivial.
  apply Forall_app. split; trivial. constructor; [ | constructor].
  split; trivial. apply store_row_length. eapply bind_params_length; eauto.
Qed.

Lemma executemany_loop_keeps_keys (records : list (list pyval)) :
  forall tbl acc tbl' n,
    executemany_loop convert tbl acc records = (tbl', Ok n) ->
    forall params vals,
      In params records ->
      bind_params 18 params = Ok vals ->
      violates_not_null opensky_columns
                        (store_row convert opensky_columns vals) = false ->
      existsb (same_key (store_row convert opensky_columns vals)) tbl' = true.
Proof.
  induction records as [ | p rest IH]; intros tbl acc tbl' n H params vals I B V.
  - destruct I.
  - cbn [executemany_loop] in H.
    destruct (bind_params 18 p) as [v | e] eqn:Bp; [ | discriminate H].
    destruct I as [<- | I].
    + rewrite B in Bp. inversion Bp; subst v. clear Bp.
      pose proof (bind_params_length _ _ B) as L.
      destruct (insert_or_ignore_cases convert tbl vals) as [[E Q] | [E _]];
        rewrite E in H;
        destruct (executemany_loop_adds convert _ _ _ _ _ H)
          as [added [-> _]].
      * destruct Q as [Q | Q]; [congruence | ].
        rewrite existsb_app, Q. reflexivity.
      * rewrite existsb_app, existsb_snoc, same_key_refl by trivial.
        now rewrite orb_true_r.
    + destruct (insert_or_ignore convert tbl v) as [tbl1 c].
      eapply IH; eauto.
Qed.

(** Lines 47-90 from an opened run, on a database that has the
    observations: the observations they leave in the working copy are
    those a run of [executemany] on some batch leaves, the empty batch when
    no insert is run. *)
Lemma extract_and_load_from_batch (env : cycle_env)
      (tbl : list row) (log : list log_row) (id : Z)
      (dk : database) (o : list event) :
  id <> 0 ->
  (forall r, In r log -> run_id r <> id) ->
  exists records o',
    (exists n,
        extract_and_load convert py_repr env (Some id)
                         (opened (Some tbl) log id (now_start env) dk o)
        = (Ok tt,
           settled (Some (fst (executemany_loop convert tbl 0 records)))
                   log id (now_start env) (now_end env) n "Success" None o'))
    \/ (exists e,
           extract_and_load convert py_repr env (Some id)
                            (opened (Some tbl) log id (now_start env) dk o)
           = (Raise e,
              opened (Some (fst (executemany_loop convert tbl 0 records)))
                     log id (now_start env) dk o')).
Proof.
  intros Z F.
  unfold extract_and_load.
  destruct (response env) as [data | e]; rewrite ?bind_lift_raise.
  2:{ exists [], o. right. exists e. reflexivity. }
  rewrite !bind_lift_ok.
  destruct (get_method data "states" (PList [])) as [states | e];
    rewrite ?bind_lift_raise.
  2:{ exists [], o. right. exists e. reflexivity. }
  rewrite !bind_lift_ok.
  destruct (truthy states); cbn [negb].
  2:{ exists []. eexists. left. exists 0. now apply close_success. }
  destruct (iter states) as [items | e]; rewrite ?bind_lift_raise.
  2:{ exists [], o. right. exists e. reflexivity. }
  rewrite !bind_lift_ok.
  destruct (normalize py_repr items (utcnow_fetch env)) as [records | e];
    rewrite ?bind_lift_raise.
  2:{ exists [], o. right. exists e. reflexivity. }
  rewrite !bind_lift_ok.
  unfold load. destruct records as [ | record records].
  { exists []. eexists. left. exists 0. now apply close_success. }
  exists (record :: records).
  destruct (executemany_loop convert tbl 0 (record :: records))
    as [tbl' res] eqn:E.
  assert (X : insert_and_commit convert (record :: records)
                (opened (Some tbl) log id (now_start env) dk o)
              = match res with
                | Ok n =>
                    (Ok n,
                     let db := Db (Some tbl')
                                  (Some (log ++ [running_row id (now_start env)])%list)
                                  id in
                     Frame (Some db) (Some id) db o)
                | Raise e =>
                    (Raise e,
                     opened (Some tbl') log id (now_start env) dk o)
                end).
  { unfold insert_and_commit, executemany, bind, view, opened.
    cbn [f_conn opensky_data etl_log etl_seq f_run_id f_disk f_out].
    rewrite E. now destruct res. }
  cbn [fst]. destruct res as [n | e].
  - eexists. left. exists n. unfold bind at 1. rewrite X.
    apply (close_success env INFO _ _ (Some tbl')); trivial.
  - exists o. right. exists e. unfold bind at 1. now rewrite X.
Qed.

(** The observations a cycle leaves in the file are those a run of
    [executemany] on some batch leaves from the ones that were there. *)
Lemma cycle_store_from_batch (env : cycle_env) (w : world) (tbl : list row) :
  opensky_data (disk w) = Some tbl ->
  exists records,
    opensky_data (disk (snd (fetch_and_append_data convert py_repr env w)))
    = Some (fst (executemany_loop convert tbl 0 records)).
Proof.
  intros D.
  destruct (connect_error env) as [e | ] eqn:C.
  { exists []. now rewrite (cycle_cannot_connect env w e C). }
  destruct (etl_log (disk w)) as [log | ] eqn:L.
  2:{ exists []. now rewrite (cycle_without_log env w C L). }
  destruct (next_run_id_bound (etl_seq (disk w)) log) as [P _].
  assert (Z : next_run_id (etl_seq (disk w)) log <> 0) by lia.
  assert (F : forall r, In r log ->
                        run_id r <> next_run_id (etl_seq (disk w)) log)
    by (intros r; apply next_run_id_fresh).
  pose proof (try_body_opened convert py_repr env w log C L) as T.
  cbv zeta in T. rewrite D in T.
  destruct (extract_and_load_from_batch env tbl log _ (disk w)
              (out w ++ [Logged INFO ("Starting ETL Cycle (Run ID: "
                                      ++ str_int (next_run_id
                                                    (etl_seq (disk w)) log)
                                      ++ ")...")])%list Z F)
    as [records [o' [[n B] | [e B]]]]; rewrite <- T in B; exists records.
  - now rewrite (cycle_of_success convert py_repr env w _ _ _ _ _ _ _ _ _ B).
  - now rewrite (cycle_of_failure convert py_repr env w _ _ _ _ _ _ e Z F B).
Qed.

(** X18.  No valid record is lost by a load that returns.  When a cycle's
    response normalises to a batch whose values can all be bound, the
    cycle leaves, for every record of the batch that has a value in each
    NOT NULL column, an observation with the key of that record. *)
Theorem every_valid_record_is_stored (env : cycle_env) (w : world)
        (log : list log_row) (tbl : list row) (data states : pyval)
        (items : list pyval) (records : list (list pyval)) :
  connect_error env = None ->
  etl_log (disk w) = Some log ->
  opensky_data (disk w) = Some tbl ->
  response env = Ok data ->
  get_method data "states" (PList []) = Ok states ->
  truthy states = true ->
  iter states = Ok items ->
  normalize py_repr items (utcnow_fetch env) = Ok records ->
  forallb bindable records = true ->
  exists tbl',
    opensky_data (disk (snd (fetch_and_append_data convert py_repr env w)))
    = Some tbl'
    /\ forall record vals,
        In record records ->
        bind_params 18 record = Ok vals ->
        violates_not_null opensky_columns
                          (store_row convert opensky_columns vals) = false ->
        exists r,
          In r tbl'
          /\ same_key (store_row convert opensky_columns vals) r = true.
Proof.
  intros C L D R G T I N B.
  destruct (executemany_loop convert tbl 0 records) as [tbl' res] eqn:E.
  destruct (executemany_loop_returns convert records tbl 0 B) as [n En].
  rewrite E in En. simpl in En. subst res.
  destruct (cycle_loaded env w log tbl tbl' data states items records n
                         C L D R G T I N E) as [o' F].
  exists tbl'. rewrite F. split; [reflexivity | ].
  intros record vals Ir Br V.
  apply existsb_exists.
  eapply executemany_loop_keeps_keys; eauto.
Qed.

Lemma cycle_rows_ok (env : cycle_env) (w : world) :
  Forall row_ok (rows (opensky_data (disk w))) ->
  Forall row_ok
         (rows (opensky_data
                  (disk (snd (fetch_and_append_data convert py_repr env w))))).
Proof.
  intros F. destruct (opensky_data (disk w)) as [tbl | ] eqn:D.
  - destruct (cycle_store_from_batch env w tbl D) as [records ->].
    cbn [rows]. now apply executemany_loop_rows_ok.
  - destruct (cycle_grown env w) as [added [newlog [A _]]].
    rewrite A, D. constructor.
Qed.

Lemma passes_rows_ok (num_cycles : nat) (envs : nat -> cycle_env)
      (ixs : list nat) :
  forall w,
    Forall row_ok (rows (opensky_data (disk w))) ->
    Forall row_ok
           (rows (opensky_data
                    (disk (fold_left (iteration convert py_repr num_cycles envs)
                                     ixs w)))).
Proof.
  induction ixs as [ | i rest IH]; intros w F; simpl; trivial.
  apply IH. unfold iteration. rewrite disk_wait_next.
  apply (cycle_rows_ok (envs i) (emit (cycle_banner num_cycles i) w)). exact F.
Qed.

(** X19.  Every observation the system stores is complete.  If the stored
    observations each have their 18 values, with one in every NOT NULL
    column (aircraft identifier, origin country, last-contact time, the
    two flags, fetch time), then so do the observations stored after a
    cycle, and after a whole job, whatever the responses held: a tuple
    that lacks one of them is skipped by the insert. *)
Theorem stored_observations_stay_complete (num_cycles : nat)
        (envs : nat -> cycle_env) (w : world) :
  Forall row_ok (rows (opensky_data (disk w))) ->
  (forall env,
      Forall row_ok
             (rows (opensky_data
                      (disk (snd (fetch_and_append_data convert py_repr
                                                        env w))))))
  /\ Forall row_ok
            (rows (opensky_data
                     (disk (snd (run_job convert py_repr num_cycles envs w))))).
Proof.
  intros F. split.
  - intros env. now apply cycle_rows_ok.
  - unfold run_job. rewrite driver_loop_runs_all. cbn [snd].
    unfold emit at 1. cbn [disk].
    apply passes_rows_ok. exact F.
Qed.
End Coverage.

(** ** Instances on concrete inputs *)

Section Instances.
Import Py Sql Etl Inv Sample.

(** C2 as stated fails.  In a job of three cycles whose fetch times out,
    the engine refuses the commit of the first cycle's failure write: the
    exception reaches the driver, the run log holds no entry for the
    cycle, and the two remaining cycles never run.  And a cycle that
    cannot open the file returns with nothing recorded. *)
Lemma refused_failure_write_stops_the_job :
  Fault.run_job keep opaque_repr 3 (fun _ => cycle_with (Raise timed_out))
                (fun _ => FaultSample.busy_at_failure) fresh_world
  = (Raise FaultSample.database_is_locked,
     World (disk fresh_world)
           [Logged INFO "Starting OpenSky ETL job for 3 cycles (24 hours)...";
            Logged INFO "--- Cycle 1 of 3 ---";
            Logged INFO "Starting ETL Cycle (Run ID: 1)...";
            Logged ERROR "ETL cycle failed: Read timed out."])
  /\ etl_log (disk fresh_world) = Some []
  /\ Fault.fetch_and_append_data keep opaque_repr Fault.sound
                                 FaultSample.unopenable fresh_world
     = (Ok tt,
        World (disk fresh_world)
              [Logged ERROR
                 "ETL cycle failed: unable to open database file"]).
Proof. split; [reflexivity | split; reflexivity]. Qed.

(** C3 as stated fails: a second terminal write on run 1, closed as a
    Success with 5 records, does not raise and replaces the recorded
    outcome by a Failure with 0 records. *)
Lemma second_end_run_overwrites_outcome :
  terminal closed_run
  /\ etl_log (f_disk closed_frame) = Some [closed_run]
  /\ fst (log_etl_run "2023-07-22T04:30:00" "Failure" 0 (Some "late")
                       (Some 1) closed_frame) = Ok None
  /\ etl_log (f_disk (snd (log_etl_run "2023-07-22T04:30:00" "Failure" 0
                                        (Some "late") (Some 1) closed_frame)))
     = Some [closed_row 1 "2023-07-22T04:26:40" "2023-07-22T04:30:00" 0
                        "Failure" (Some "late")]
  /\ closed_row 1 "2023-07-22T04:26:40" "2023-07-22T04:30:00" 0
                "Failure" (Some "late") <> closed_run.
Proof.
  split; [now left | split; [reflexivity | split; [reflexivity | split]]].
  - reflexivity.
  - discriminate.
Qed.

(** C8 as stated fails: a raw callsign of three spaces is stored as the
    empty string, not as [None]. *)
Lemma blank_callsign_is_stored_empty :
  getitem blank_callsign_state 1 = Ok (PStr "   ")
  /\ exists record,
       normalize opaque_repr [blank_callsign_state] "2023-07-22T04:26:41"
       = Ok [record]
       /\ nth_error record 1 = Some (PStr "")
       /\ nth_error record 1 <> Some PNone.
Proof.
  split; [reflexivity | ].
  eexists. split; [reflexivity | split; [reflexivity | discriminate]].
Qed.

(** C10 as stated fails: in the scenario's cycle the commit of the load
    (line 82) writes the Running entry to the file before [end_run] is
    called; the rest of the [try] body runs from that state, so a cycle
    that stops there leaves the entry persisted. *)
Lemma running_row_is_durable_after_load_commit :
  etl_log (f_disk after_begin) = Some []
  /\ etl_log (f_disk after_load_commit)
     = Some [running_row 1 "2023-07-22T04:26:40"]
  /\ try_body keep opaque_repr (cycle_with (Ok scenario_response))
              (entry fresh_world)
     = (logging INFO "Inserted 1 new records." ;;
        log_etl_run "2023-07-22T04:26:42" "Success" 1 None (Some 1) ;;
        ret tt) after_load_commit.
Proof. repeat split. Qed.

(** C4 on a cycle whose request times out. *)
Lemma fetch_error_marks_failure_witness :
  connect_error (cycle_with (Raise timed_out)) = None
  /\ etl_log (disk fresh_world) = Some []
  /\ response (cycle_with (Raise timed_out)) = Raise timed_out
  /\ fetch_and_append_data keep opaque_repr (cycle_with (Raise timed_out))
                           fresh_world
     = (Ok tt,
        World (Db (Some [])
                  (Some [closed_row 1 "2023-07-22T04:26:40"
                                    "2023-07-22T04:26:42" 0 "Failure"
                                    (Some "Read timed out.")])
                  1)
              [Logged INFO "Starting ETL Cycle (Run ID: 1)...";
               Logged ERROR "ETL cycle failed: Read timed out."]).
Proof.
  split; [reflexivity | split; [reflexivity | split; [reflexivity | ]]].
  exact (fetch_error_marks_failure keep opaque_repr
           (cycle_with (Raise timed_out)) fresh_world [] timed_out
           eq_refl eq_refl eq_refl).
Defined.

(** C5 on the response [{"states": []}]. *)
Lemma empty_states_is_zero_record_success_witness :
  connect_error (cycle_with (Ok (PDict [("states", PList [])]))) = None
  /\ etl_log (disk fresh_world) = Some []
  /\ dict_get "states" [("states", PList [])] = Some (PList [])
  /\ fetch_and_append_data keep opaque_repr
                           (cycle_with (Ok (PDict [("states", PList [])])))
                           fresh_world
     = (Ok tt,
        World (Db (Some [])
                  (Some [closed_row 1 "2023-07-22T04:26:40"
                                    "2023-07-22T04:26:42" 0 "Success" None])
                  1)
              [Logged INFO "Starting ETL Cycle (Run ID: 1)...";
               Logged WARNING "No flight data received in this cycle."]).
Proof.
  split; [reflexivity | split; [reflexivity | split; [reflexivity | ]]].
  exact (empty_states_is_zero_record_success keep opaque_repr
           (cycle_with (Ok (PDict [("states", PList [])]))) fresh_world []
           [("states", PList [])] eq_refl eq_refl eq_refl
           (or_intror (or_introl eq_refl))).
Defined.

(** C1 on a response that carries the same tuple twice. *)
Lemma load_counts_only_new_rows_witness :
  (pk_unique []
   /\ executemany_loop keep [] 0 repeated_records
      = ([scenario_row "2023-07-22T04:26:41"], Ok 1)
   /\ exists added,
       [scenario_row "2023-07-22T04:26:41"] = ([] ++ added)%list
       /\ pk_unique ([] ++ added)
       /\ Forall (stored_from keep repeated_records) added
       /\ (forall n, Ok 1 = Ok n -> n = Z.of_nat (List.length added))
       /\ (forallb bindable repeated_records = true ->
           exists n, Ok 1 = Ok n :> result Z))
  /\ (exists added n st err o',
         fetch_and_append_data keep opaque_repr
                               (cycle_with (Ok repeated_response)) fresh_world
         = (Ok tt,
            World (Db (Some ([] ++ added)%list)
                      (Some ([] ++ [closed_row 1 "2023-07-22T04:26:40"
                                               "2023-07-22T04:26:42"
                                               n st err])%list)
                      1) o')
         /\ pk_unique ([] ++ added)
         /\ (st = "Success" -> n = Z.of_nat (List.length added)))
  /\ (normalize opaque_repr [scenario_state; short_state; scenario_state]
                "2023-07-22T04:26:41" = Ok repeated_records
      /\ forallb bindable repeated_records = true
      /\ exists added o',
          executemany_loop keep [] 0 repeated_records
          = (([] ++ added)%list, Ok (Z.of_nat (List.length added)))
          /\ pk_unique ([] ++ added)
          /\ fetch_and_append_data keep opaque_repr
                                   (cycle_with (Ok repeated_response))
                                   fresh_world
             = (Ok tt,
                World (Db (Some ([] ++ added)%list)
                          (Some ([] ++ [closed_row 1 "2023-07-22T04:26:40"
                                          "2023-07-22T04:26:42"
                                          (Z.of_nat (List.length added))
                                          "Success" None])%list)
                          1) o')).
Proof.
  pose proof (load_counts_only_new_rows keep opaque_repr) as [A [B C]].
  split; [ | split].
  - split; [exact I | split; [reflexivity | ]].
    exact (A [] repeated_records [scenario_row "2023-07-22T04:26:41"]
             (Ok 1) I eq_refl).
  - exact (B (cycle_with (Ok repeated_response)) fresh_world [] []
             eq_refl eq_refl eq_refl I).
  - split; [reflexivity | split; [reflexivity | ]].
    exact (C (cycle_with (Ok repeated_response)) fresh_world [] []
             repeated_response
             (PList [scenario_state; short_state; scenario_state])
             [scenario_state; short_state; scenario_state]
             repeated_records
             eq_refl eq_refl eq_refl I eq_refl eq_refl eq_refl eq_refl
             eq_refl eq_refl).
Defined.

(** C2 on a cycle whose load meets a full disk, the transaction kept or
    lost, on one whose failure write is refused, on one that cannot open
    the file, and on jobs of three cycles. *)
Lemma cycle_failure_is_contained_witness :
  (Fault.failure_write_accepted FaultSample.full_at_load
   /\ Fault.keeps_transaction FaultSample.full_at_load = true
   /\ fst (Fault.try_body keep opaque_repr FaultSample.full_at_load
                          (cycle_with (Ok scenario_response))
                          (entry fresh_world))
      = Raise FaultSample.disk_is_full
   /\ etl_log (disk (snd (Fault.fetch_and_append_data
                            keep opaque_repr FaultSample.full_at_load
                            (cycle_with (Ok scenario_response)) fresh_world)))
      = Some ([] ++ [closed_row (next_run_id 0 [])
                                "2023-07-22T04:26:40" "2023-07-22T04:26:42"
                                0 "Failure"
                                (Some "database or disk is full")])%list)
  /\ (Fault.failure_write_accepted FaultSample.full_at_load_rolled_back
      /\ ((exists r,
              etl_log (disk (snd (Fault.fetch_and_append_data
                                    keep opaque_repr
                                    FaultSample.full_at_load_rolled_back
                                    (cycle_with (Ok scenario_response))
                                    fresh_world)))
              = Some ([] ++ [r])%list
              /\ terminal r)
          \/ (Fault.keeps_transaction FaultSample.full_at_load_rolled_back
              = false
              /\ disk (snd (Fault.fetch_and_append_data
                              keep opaque_repr
                              FaultSample.full_at_load_rolled_back
                              (cycle_with (Ok scenario_response))
                              fresh_world))
                 = disk fresh_world)))
  /\ (Fault.failure_write_refused FaultSample.busy_at_failure
      = Some FaultSample.database_is_locked
      /\ fst (Fault.fetch_and_append_data
                keep opaque_repr FaultSample.busy_at_failure
                (cycle_with (Raise timed_out)) fresh_world)
         = Raise FaultSample.database_is_locked)
  /\ (connect_error FaultSample.unopenable <> None
      /\ disk (snd (Fault.fetch_and_append_data
                      keep opaque_repr Fault.sound FaultSample.unopenable
                      fresh_world))
         = disk fresh_world)
  /\ (exists added,
         etl_log (disk (snd (Fault.run_job
                               keep opaque_repr 3
                               (fun _ => cycle_with (Raise timed_out))
                               (fun _ => FaultSample.full_at_load)
                               fresh_world)))
         = Some ([] ++ added)%list
         /\ List.length added = 3%nat
         /\ Forall terminal added)
  /\ fst (Fault.run_job keep opaque_repr 3
                        (fun _ => cycle_with (Raise timed_out))
                        FaultSample.busy_in_second fresh_world)
     = Raise FaultSample.database_is_locked.
Proof.
  pose proof (cycle_failure_is_contained keep opaque_repr)
    as [_ [F [T [E [U [_ [J S]]]]]]].
  assert (A : Fault.failure_write_accepted FaultSample.full_at_load)
    by (split; reflexivity).
  assert (A' : Fault.failure_write_accepted
                 FaultSample.full_at_load_rolled_back)
    by (split; reflexivity).
  assert (N : connect_error FaultSample.unopenable <> None) by discriminate.
  split; [split; [exact A | split; [reflexivity | split; [reflexivity | ]]] | ].
  { exact (F FaultSample.full_at_load (cycle_with (Ok scenario_response))
             fresh_world [] FaultSample.disk_is_full
             eq_refl eq_refl eq_refl eq_refl A eq_refl). }
  split; [split; [exact A' | ] | ].
  { exact (T FaultSample.full_at_load_rolled_back
             (cycle_with (Ok scenario_response)) fresh_world []
             eq_refl eq_refl eq_refl A'). }
  split; [split; [reflexivity | ] | ].
  { exact (proj1 (E FaultSample.busy_at_failure (cycle_with (Raise timed_out))
                    fresh_world [] timed_out FaultSample.database_is_locked
                    eq_refl eq_refl eq_refl eq_refl eq_refl)). }
  split; [split; [exact N | ] | ].
  { exact (proj2 (U Fault.sound FaultSample.unopenable fresh_world
                    (or_introl N))). }
  split.
  { exact (J 3%nat (fun _ => cycle_with (Raise timed_out))
             (fun _ => FaultSample.full_at_load) fresh_world []
             (fun _ => eq_refl) (fun _ => eq_refl) (fun _ => eq_refl)
             (fun _ => A) eq_refl). }
  rewrite (S 3%nat (fun _ => cycle_with (Raise timed_out))
             FaultSample.busy_in_second fresh_world 1%nat
             FaultSample.database_is_locked).
  - reflexivity.
  - apply Nat.ltb_lt. reflexivity.
  - intros j H. assert (j = 0%nat) as -> by (destruct j; [trivial | ];
      apply Nat.succ_lt_mono in H; inversion H).
    split; reflexivity.
  - reflexivity.
Defined.

(** C3, as the code has it, on the scenario's cycle, on an [end_run] for
    run 7, which does not exist, on one for run 0, and on a second
    [end_run] for run 1. *)
Lemma end_run_tolerates_and_overwrites_witness :
  (exists r,
      etl_log (disk (snd (fetch_and_append_data
                            keep opaque_repr
                            (cycle_with (Ok scenario_response))
                            fresh_world)))
      = Some ([] ++ [r])%list
      /\ terminal r
      /\ run_id r = next_run_id 0 [])
  /\ log_etl_run "2023-07-22T04:30:00" "Failure" 0 (Some "late") (Some 7)
                 closed_frame
     = (Ok None, closed_frame)
  /\ (log_etl_run "2023-07-22T04:30:00" "Failure" 0 (Some "late") (Some 0)
                  closed_frame
      = log_etl_run "2023-07-22T04:30:00" "Failure" 0 (Some "late") None
                    closed_frame
      /\ log_etl_run "2023-07-22T04:30:00" "Failure" 0 (Some "late") (Some 0)
                     closed_frame
         = (Ok (Some (next_run_id 1 [closed_run])),
            Frame (Some (Db (Some [])
                            (Some ([closed_run]
                                   ++ [LogRow (next_run_id 1 [closed_run])
                                              "2023-07-22T04:30:00"
                                              None None "Failure" None])%list)
                            (next_run_id 1 [closed_run])))
                  (Some 1) (Db (Some []) (Some [closed_run]) 1) []))
  /\ (log_etl_run "2023-07-22T04:30:00" "Failure" 0 (Some "late") (Some 1)
                  closed_frame
      = (Ok None,
         let db :=
           Db (Some [])
              (Some (map (update_row "2023-07-22T04:30:00" 0 "Failure"
                                     (Some "late") 1) [closed_run]))
              1 in
         Frame (Some db) (Some 1) db [])
      /\ forall r, In r [closed_run] -> run_id r = 1 ->
                   In (closed_row 1 (start_time r) "2023-07-22T04:30:00" 0
                                  "Failure" (Some "late"))
                      (map (update_row "2023-07-22T04:30:00" 0 "Failure"
                                       (Some "late") 1) [closed_run])).
Proof.
  pose proof (end_run_tolerates_and_overwrites keep opaque_repr)
    as [C [N [Z O]]].
  split; [ | split; [ | split]].
  - exact (C (cycle_with (Ok scenario_response)) fresh_world []
             eq_refl eq_refl).
  - refine (N "2023-07-22T04:30:00" "Failure" 0 (Some "late") 7
              (Db (Some []) (Some [closed_run]) 1) [closed_run] (Some 1)
              (Db (Some []) (Some [closed_run]) 1) [] eq_refl _ _).
    + discriminate.
    + intros r [<- | []]. discriminate.
  - exact (Z "2023-07-22T04:30:00" "Failure" 0 (Some "late")
             (Db (Some []) (Some [closed_run]) 1) [closed_run] (Some 1)
             (Db (Some []) (Some [closed_run]) 1) [] eq_refl eq_refl).
  - refine (O "2023-07-22T04:30:00" "Failure" 0 (Some "late") 1
              (Db (Some []) (Some [closed_run]) 1) [closed_run] (Some 1)
              (Db (Some []) (Some [closed_run]) 1) [] eq_refl _ eq_refl).
    discriminate.
Defined.

(** C10, as the code has it, on the scenario's cycle, and on the cycle
    of a record that cannot be bound. *)
Lemma begin_run_is_not_committed_witness :
  (exists s1,
      begin_cycle (cycle_with (Ok scenario_response)) (entry fresh_world)
      = (Ok (Some (next_run_id 0 [])), s1)
      /\ f_disk s1 = disk fresh_world
      /\ f_conn s1
         = Some (Db (Some [])
                    (Some ([] ++ [running_row (next_run_id 0 [])
                                              "2023-07-22T04:26:40"])%list)
                    (next_run_id 0 [])))
  /\ (Fault.extract_and_load keep opaque_repr FaultSample.full_at_load
                             (cycle_with (Ok scenario_response)) (Some 1)
                             (opened (Some []) [] 1 "2023-07-22T04:26:40"
                                     (disk fresh_world) [])
      = (Raise FaultSample.disk_is_full,
         opened (Some []) [] 1 "2023-07-22T04:26:40" (disk fresh_world) [])
      /\ (f_disk (opened (Some []) [] 1 "2023-07-22T04:26:40"
                         (disk fresh_world) [])
          = disk fresh_world
          \/ ((exists d',
                  f_disk (opened (Some []) [] 1 "2023-07-22T04:26:40"
                                 (disk fresh_world) [])
                  = Db d' (Some ([] ++ [running_row 1 "2023-07-22T04:26:40"])%list)
                       1)
              /\ Fault.load_commit FaultSample.full_at_load = None
              /\ (Fault.end_execute FaultSample.full_at_load <> None
                  \/ Fault.end_commit FaultSample.full_at_load <> None))))
  /\ (insert_and_commit keep scenario_records after_begin
      = (Ok 1, after_load_commit)
      /\ exists tbl',
          f_disk after_load_commit
          = Db (Some tbl')
               (Some ([] ++ [running_row 1 "2023-07-22T04:26:40"])%list) 1)
  /\ (insert_and_commit keep [CoverSample.unbindable_record]
                        (opened (Some []) [] 1 "2023-07-22T04:26:40"
                                (disk fresh_world) [])
      = (Raise (Exn ProgrammingError
                    "Error binding parameter 3: type 'list' is not supported"),
         opened (Some []) [] 1 "2023-07-22T04:26:40" (disk fresh_world) [])
      /\ exists d',
          opened (Some []) [] 1 "2023-07-22T04:26:40" (disk fresh_world) []
          = opened d' [] 1 "2023-07-22T04:26:40" (disk fresh_world) [])
  /\ f_disk (snd (log_etl_run "2023-07-22T04:26:42" "Failure" 0
                              (Some "Error binding parameter 3: type 'list' is not supported")
                              (Some 1)
                              (opened (Some []) [] 1 "2023-07-22T04:26:40"
                                      (disk fresh_world) [])))
     = Db (Some [])
          (Some ([] ++ [closed_row 1 "2023-07-22T04:26:40"
                                   "2023-07-22T04:26:42" 0 "Failure"
                                   (Some "Error binding parameter 3: type 'list' is not supported")])%list)
          1.
Proof.
  pose proof (begin_run_is_not_committed keep opaque_repr)
    as [_ [B [X [C [R E]]]]].
  split; [ | split; [split; [reflexivity | ]
                    | split; [split; [reflexivity | ]
                             | split; [split; [reflexivity | ] | ]]]].
  - exact (B (cycle_with (Ok scenario_response)) fresh_world []
             eq_refl eq_refl).
  - refine (X FaultSample.full_at_load (cycle_with (Ok scenario_response))
              (Some []) [] 1 (disk fresh_world) []
              FaultSample.disk_is_full _ _ _ eq_refl).
    + discriminate.
    + intros r [].
  - exact (C scenario_records [] [] 1 "2023-07-22T04:26:40"
             (disk fresh_world)
             [Logged INFO "Starting ETL Cycle (Run ID: 1)..."]
             1 after_load_commit eq_refl).
  - exact (R [CoverSample.unbindable_record] (Some []) [] 1
             "2023-07-22T04:26:40" (disk fresh_world) [] _ _ eq_refl).
  - refine (E "2023-07-22T04:26:42" "Failure" 0
              (Some "Error binding parameter 3: type 'list' is not supported")
              (Some []) [] 1
              "2023-07-22T04:26:40" (disk fresh_world) [] _ _ eq_refl).
    + discriminate.
    + intros r [].
Defined.

(** C7 on a tuple of three fields. *)
Lemma short_tuples_are_dropped_witness :
  (List.length [PStr "abc123"; PNone; PStr "X"] < 17)%nat
  /\ normalize opaque_repr [short_state] "2023-07-22T04:26:41" = Ok []
  /\ normalize opaque_repr ([scenario_state] ++ short_state :: [])
               "2023-07-22T04:26:41"
     = normalize opaque_repr ([scenario_state] ++ [])
                 "2023-07-22T04:26:41"
  /\ fetch_and_append_data
       keep opaque_repr
       (Env None
            (Ok (PDict [("states",
                         PList ([scenario_state] ++ short_state :: []))]))
            "2023-07-22T04:26:40" "2023-07-22T04:26:41"
            "2023-07-22T04:26:42") fresh_world
     = fetch_and_append_data
         keep opaque_repr
         (Env None (Ok (PDict [("states", PList ([scenario_state] ++ []))]))
              "2023-07-22T04:26:40" "2023-07-22T04:26:41"
              "2023-07-22T04:26:42") fresh_world.
Proof.
  assert (L : (List.length [PStr "abc123"; PNone; PStr "X"] < 17)%nat)
    by exact (proj1 (Nat.ltb_lt 3 17) eq_refl).
  pose proof (short_tuples_are_dropped keep opaque_repr
                [PStr "abc123"; PNone; PStr "X"] L) as [A [B C]].
  split; [exact L | split; [apply A | split; [apply B | ]]].
  apply (C [scenario_state] [] None). discriminate.
Defined.

(** C8, as the code has it, on the scenario's tuple. *)
Lemma callsign_is_trimmed_or_absent_witness :
  record_of opaque_repr scenario_state "2023-07-22T04:26:41"
  = Ok (hd [] repeated_records)
  /\ exists raw,
       getitem scenario_state 1 = Ok raw
       /\ ((truthy raw = false
            /\ nth_error (hd [] repeated_records) 1 = Some PNone)
           \/ (exists s, raw = PStr s /\ s <> ""
                         /\ nth_error (hd [] repeated_records) 1
                            = Some (PStr (strip s)))).
Proof.
  split; [reflexivity | ].
  exact (callsign_is_trimmed_or_absent opaque_repr scenario_state
           "2023-07-22T04:26:41" (hd [] repeated_records) eq_refl).
Defined.
End Instances.


(** ** Instances of the further properties *)

Section CoverageInstances.
Import Py Sql Etl Inv Sample Cover CoverSample.

(** X2 on a file that cannot be opened. *)
Lemma setup_connect_failure_witness :
  Setup.is_sqlite_error (exn_cls cannot_open) = true
  /\ Setup.setup_database (Some cannot_open) "opensky.db"
                          (World empty_database [])
     = (Ok tt,
        World empty_database
              ([] ++ [Logged INFO "Connecting to database 'opensky.db'...";
                      Logged ERROR
                        "Database setup error: unable to open database file"])%list).
Proof.
  split; [reflexivity | ].
  exact (proj1 (setup_connect_failure cannot_open "opensky.db"
                                      (World empty_database []))
               eq_refl).
Defined.

(** X1 on a new file, with every statement accepted and with a file that
    is not a database. *)
Lemma setup_keeps_rows_and_is_idempotent_witness :
  (Fault.sound_setup = Fault.sound_setup
   /\ fst (Fault.setup_database Fault.sound_setup None "opensky.db"
                                (World empty_database []))
      = Ok tt
   /\ opensky_data
        (disk (snd (Fault.setup_database Fault.sound_setup None "opensky.db"
                                         (World empty_database []))))
      = Some (rows (opensky_data (disk (World empty_database []))))
   /\ etl_log
        (disk (snd (Fault.setup_database Fault.sound_setup None "opensky.db"
                                         (World empty_database []))))
      = Some (rows (etl_log (disk (World empty_database []))))
   /\ disk (snd (Fault.setup_database
                   Fault.sound_setup None "opensky.db"
                   (snd (Fault.setup_database Fault.sound_setup None
                                              "opensky.db"
                                              (World empty_database [])))))
      = disk (snd (Fault.setup_database Fault.sound_setup None "opensky.db"
                                        (World empty_database []))))
  /\ Fault.table_execute FaultSample.foreign_file
     = Some FaultSample.not_a_database
  /\ Setup.is_sqlite_error (exn_cls FaultSample.not_a_database) = true
  /\ Fault.setup_database FaultSample.foreign_file None "opensky.db"
                          (World empty_database [])
     = (Ok tt,
        World (disk (World empty_database []))
              (out (World empty_database [])
               ++ [Logged INFO ("Connecting to database '" ++ "opensky.db"
                                ++ "'...");
                   Logged ERROR ("Database setup error: "
                                 ++ exn_msg FaultSample.not_a_database);
                   Logged INFO "Database connection closed."])%list).
Proof.
  split; [split; [reflexivity | ] | split; [reflexivity | split]].
  - exact (proj1 (proj2 (setup_keeps_rows_and_is_idempotent
                           Fault.sound_setup "opensky.db" "opensky.db"
                           (World empty_database [])))
                 eq_refl).
  - reflexivity.
  - exact (proj2 (proj2 (setup_keeps_rows_and_is_idempotent
                           FaultSample.foreign_file "opensky.db" "opensky.db"
                           (World empty_database [])))
                 FaultSample.not_a_database eq_refl eq_refl).
Defined.

(** X3 on a new file and the scenario's cycle, the disk being full when
    the observations are inserted. *)
Lemma cycle_after_setup_is_logged_witness :
  connect_error (cycle_with (Ok scenario_response)) = None
  /\ Fault.begin_execute FaultSample.full_at_load = None
  /\ Fault.keeps_transaction FaultSample.full_at_load = true
  /\ Fault.failure_write_accepted FaultSample.full_at_load
  /\ counter_in_range 1 (disk (World empty_database []))
  /\ exists r,
      etl_log (disk (snd (Fault.fetch_and_append_data
                            keep opaque_repr FaultSample.full_at_load
                            (cycle_with (Ok scenario_response))
                            (snd (Setup.setup_database
                                    None "opensky.db"
                                    (World empty_database []))))))
      = Some (rows (etl_log (disk (World empty_database []))) ++ [r])%list
      /\ terminal r
      /\ run_id r = etl_seq (disk (World empty_database [])) + 1
      /\ 0 < run_id r <= MAX_ROWID.
Proof.
  assert (A : Fault.failure_write_accepted FaultSample.full_at_load)
    by (split; reflexivity).
  assert (R : counter_in_range 1 (disk (World empty_database []))).
  { split; [split; [discriminate | intros r []] | discriminate]. }
  split; [reflexivity | split; [reflexivity | split; [reflexivity | ]]].
  split; [exact A | split; [exact R | ]].
  exact (cycle_after_setup_is_logged keep opaque_repr "opensky.db"
           (World empty_database []) FaultSample.full_at_load
           (cycle_with (Ok scenario_response)) eq_refl eq_refl eq_refl A R).
Defined.

(** X5 on a file that cannot be opened, and on a new, empty file. *)
Lemma cycle_that_cannot_open_its_run_witness :
  fetch_and_append_data
    keep opaque_repr
    (Env (Some cannot_open) (Ok scenario_response) "" "" "") fresh_world
  = (Ok tt,
     World (disk fresh_world)
           (out fresh_world
            ++ [Logged ERROR
                  ("ETL cycle failed: " ++ exn_msg cannot_open)])%list)
  /\ fetch_and_append_data keep opaque_repr
                           (cycle_with (Ok scenario_response))
                           (World empty_database [])
     = (Ok tt,
        World (disk (World empty_database []))
              (out (World empty_database [])
               ++ [Logged ERROR
                     "ETL cycle failed: no such table: etl_log"])%list).
Proof.
  split.
  - exact (proj1 (cycle_that_cannot_open_its_run
                    keep opaque_repr
                    (Env (Some cannot_open) (Ok scenario_response) "" "" "")
                    fresh_world)
                 cannot_open eq_refl).
  - exact (proj2 (cycle_that_cannot_open_its_run
                    keep opaque_repr (cycle_with (Ok scenario_response))
                    (World empty_database []))
                 eq_refl eq_refl).
Defined.

(** X6 on the scenario's cycle on a new database. *)
Lemma cycle_only_appends_witness :
  counter_in_range 1 (disk fresh_world)
  /\ grown 1 (disk fresh_world)
           (disk (snd (fetch_and_append_data
                         keep opaque_repr (cycle_with (Ok scenario_response))
                         fresh_world)))
  /\ counter_in_range
       0 (disk (snd (fetch_and_append_data
                       keep opaque_repr (cycle_with (Ok scenario_response))
                       fresh_world))).
Proof.
  assert (R : counter_in_range 1 (disk fresh_world)).
  { split; [split; [discriminate | intros r []] | discriminate]. }
  split; [exact R | ].
  exact (cycle_only_appends keep opaque_repr
           (cycle_with (Ok scenario_response)) fresh_world R).
Defined.

(** X7 on a job of three cycles on a new database. *)
Lemma job_only_appends_witness :
  counter_in_range 3 (disk fresh_world)
  /\ grown 3 (disk fresh_world)
           (disk (snd (run_job keep opaque_repr 3
                               (fun _ => cycle_with (Ok scenario_response))
                               fresh_world)))
  /\ counter_in_range
       0 (disk (snd (run_job keep opaque_repr 3
                             (fun _ => cycle_with (Ok scenario_response))
                             fresh_world))).
Proof.
  assert (R : counter_in_range 3 (disk fresh_world)).
  { split; [split; [discriminate | intros r []] | discriminate]. }
  split; [exact R | ].
  exact (job_only_appends keep opaque_repr 3
           (fun _ => cycle_with (Ok scenario_response)) fresh_world R).
Defined.

(** X8 on a job of three cycles on a new database. *)
Lemma job_numbers_runs_in_order_witness :
  counter_in_range 3 (disk fresh_world)
  /\ exists added,
      etl_log (disk (snd (run_job keep opaque_repr 3
                                  (fun _ => cycle_with (Ok scenario_response))
                                  fresh_world)))
      = Some ([] ++ added)%list
      /\ map run_id added
         = map (fun k => etl_seq (disk fresh_world) + 1 + Z.of_nat k)
               (seq 0 3)
      /\ NoDup (map run_id added)
      /\ (forall r', In r' added -> 0 < run_id r' <= MAX_ROWID)
      /\ (forall r r', In r [] -> In r' added -> run_id r < run_id r').
Proof.
  assert (R : counter_in_range 3 (disk fresh_world)).
  { split; [split; [discriminate | intros r []] | discriminate]. }
  split; [exact R | ].
  exact (job_numbers_runs_in_order
           keep opaque_repr 3 (fun _ => cycle_with (Ok scenario_response))
           fresh_world [] (fun _ => eq_refl) eq_refl R).
Defined.

(** X9 on the scenario's tuple and a short one. *)
Lemma normalized_records_fit_the_insert_witness :
  normalize opaque_repr [scenario_state; short_state] "2023-07-22T04:26:41"
  = Ok scenario_records
  /\ List.length scenario_records
     = List.length (filter long_enough [scenario_state; short_state])
  /\ Forall (fun record =>
               List.length record = 18%nat
               /\ nth_error record 17 = Some (PStr "2023-07-22T04:26:41")
               /\ (exists c, nth_error record 1 = Some c
                             /\ none_or_str c = true)
               /\ (exists c, nth_error record 12 = Some c
                             /\ none_or_str c = true))
            scenario_records.
Proof.
  split; [reflexivity | ].
  exact (normalized_records_fit_the_insert
           opaque_repr [scenario_state; short_state] "2023-07-22T04:26:41"
           scenario_records eq_refl).
Defined.

(** X10 on the scenario's fields. *)
Lemma long_tuple_normalises_unless_witness :
  (17 <= List.length scenario_fields)%nat
  /\ callsign_ok (nth 1 scenario_fields PNone) = true
  /\ sensors_ok (nth 12 scenario_fields PNone) = true
  /\ exists record,
      record_of opaque_repr (PList scenario_fields) "2023-07-22T04:26:41"
      = Ok record.
Proof.
  assert (L : (17 <= List.length scenario_fields)%nat)
    by exact (proj1 (Nat.leb_le 17 18) eq_refl).
  split; [exact L | split; [reflexivity | split; [reflexivity | ]]].
  exact (proj2 (proj2 (long_tuple_normalises_unless
                         opaque_repr scenario_fields "2023-07-22T04:26:41" L))
               eq_refl eq_refl).
Defined.

(** X11 on a response whose second tuple has a number for callsign. *)
Lemma malformed_response_stores_nothing_witness :
  normalize opaque_repr [scenario_state; numeric_callsign_state]
            "2023-07-22T04:26:41"
  = Raise (Exn AttributeError "'int' object has no attribute 'strip'")
  /\ fetch_and_append_data
       keep opaque_repr
       (cycle_with (Ok (PDict [("states",
                                PList [scenario_state;
                                       numeric_callsign_state])])))
       fresh_world
     = (Ok tt,
        World (Db (Some [])
                  (Some ([] ++ [closed_row (next_run_id 0 [])
                                  "2023-07-22T04:26:40" "2023-07-22T04:26:42" 0
                                  "Failure"
                                  (Some "'int' object has no attribute 'strip'")])%list)
                  (next_run_id 0 []))
              (([] ++ [Logged INFO ("Starting ETL Cycle (Run ID: "
                                    ++ str_int (next_run_id 0 []) ++ ")...")])
               ++ [Logged ERROR
                     ("ETL cycle failed: "
                      ++ "'int' object has no attribute 'strip'")])%list).
Proof.
  split; [reflexivity | ].
  refine (malformed_response_stores_nothing
            keep opaque_repr
            (cycle_with (Ok (PDict [("states",
                                     PList [scenario_state;
                                            numeric_callsign_state])])))
            fresh_world []
            (PDict [("states", PList [scenario_state; numeric_callsign_state])])
            (Exn AttributeError "'int' object has no attribute 'strip'")
            eq_refl eq_refl eq_refl _).
  right. exists (PList [scenario_state; numeric_callsign_state]).
  split; [reflexivity | split; [reflexivity | right]].
  exists [scenario_state; numeric_callsign_state].
  split; reflexivity.
Defined.

(** X12 on the scenario's tuple. *)
Lemma stored_callsign_is_trimmed_witness :
  record_of opaque_repr scenario_state "2023-07-22T04:26:41"
  = Ok (hd [] scenario_records)
  /\ nth_error (hd [] scenario_records) 1 = Some (PStr "UAL123")
  /\ trimmed "UAL123"
  /\ strip "UAL123" = "UAL123"
  /\ exists raw before after,
      getitem scenario_state 1 = Ok (PStr raw)
      /\ raw = before ++ "UAL123" ++ after
      /\ all_space before = true
      /\ all_space after = true.
Proof.
  split; [reflexivity | split; [reflexivity | ]].
  exact (stored_callsign_is_trimmed
           opaque_repr scenario_state "2023-07-22T04:26:41"
           (hd [] scenario_records) "UAL123" eq_refl eq_refl).
Defined.

(** X13 on the scenario's tuple followed by one whose origin country is a
    list. *)
Lemma unbindable_record_stops_and_keeps_witness :
  normalize opaque_repr [scenario_state; unbindable_state]
            "2023-07-22T04:26:41"
  = Ok (scenario_records ++ unbindable_record :: [])%list
  /\ forallb bindable scenario_records = true
  /\ bind_params 18 unbindable_record
     = Raise (Exn ProgrammingError
                "Error binding parameter 3: type 'list' is not supported")
  /\ fst (executemany_loop keep [] 0 scenario_records)
     = [scenario_row "2023-07-22T04:26:41"]
  /\ fetch_and_append_data
       keep opaque_repr
       (cycle_with (Ok (PDict [("states",
                                PList [scenario_state; unbindable_state])])))
       fresh_world
     = (Ok tt,
        World (Db (Some (fst (executemany_loop keep [] 0 scenario_records)))
                  (Some ([] ++ [closed_row (next_run_id 0 [])
                                  "2023-07-22T04:26:40" "2023-07-22T04:26:42" 0
                                  "Failure"
                                  (Some "Error binding parameter 3: type 'list' is not supported")])%list)
                  (next_run_id 0 []))
              (([] ++ [Logged INFO ("Starting ETL Cycle (Run ID: "
                                    ++ str_int (next_run_id 0 []) ++ ")...")])
               ++ [Logged ERROR
                     ("ETL cycle failed: "
                      ++ "Error binding parameter 3: type 'list' is not supported")])%list).
Proof.
  split; [reflexivity | split; [reflexivity | split; [reflexivity | ]]].
  split; [reflexivity | ].
  exact (unbindable_record_stops_and_keeps
           keep opaque_repr
           (cycle_with (Ok (PDict [("states",
                                    PList [scenario_state; unbindable_state])])))
           fresh_world [] []
           (PDict [("states", PList [scenario_state; unbindable_state])])
           (PList [scenario_state; unbindable_state])
           [scenario_state; unbindable_state]
           scenario_records unbindable_record []
           (Exn ProgrammingError
                "Error binding parameter 3: type 'list' is not supported")
           eq_refl eq_refl eq_refl eq_refl eq_refl eq_refl eq_refl eq_refl
           eq_refl eq_refl).
Defined.

(** X14 on a file that has the run log only. *)
Lemma load_without_relation_fails_witness :
  opensky_data (disk log_only_world) = None
  /\ fetch_and_append_data keep opaque_repr
                           (cycle_with (Ok scenario_response)) log_only_world
     = (Ok tt,
        World (Db None
                  (Some ([] ++ [closed_row (next_run_id 0 [])
                                  "2023-07-22T04:26:40" "2023-07-22T04:26:42" 0
                                  "Failure"
                                  (Some "no such table: opensky_data")])%list)
                  (next_run_id 0 []))
              (([] ++ [Logged INFO ("Starting ETL Cycle (Run ID: "
                                    ++ str_int (next_run_id 0 []) ++ ")...")])
               ++ [Logged ERROR
                     "ETL cycle failed: no such table: opensky_data"])%list).
Proof.
  split; [reflexivity | ].
  exact (load_without_relation_fails
           keep opaque_repr (cycle_with (Ok scenario_response)) log_only_world
           [] scenario_response (PList [scenario_state]) [scenario_state]
           (hd [] scenario_records) []
           eq_refl eq_refl eq_refl eq_refl eq_refl eq_refl eq_refl eq_refl).
Defined.

(** X15 on a response made of one short tuple, on a file that has the run
    log only. *)
Lemma only_short_tuples_is_zero_record_success_witness :
  forallb too_short [short_state] = true
  /\ fetch_and_append_data
       keep opaque_repr
       (cycle_with (Ok (PDict [("states", PList [short_state])])))
       log_only_world
     = (Ok tt,
        World (Db None
                  (Some ([] ++ [closed_row (next_run_id 0 [])
                                  "2023-07-22T04:26:40" "2023-07-22T04:26:42" 0
                                  "Success" None])%list)
                  (next_run_id 0 []))
              (([] ++ [Logged INFO ("Starting ETL Cycle (Run ID: "
                                    ++ str_int (next_run_id 0 []) ++ ")...")])
               ++ [Logged INFO
                     "No valid records to insert for this cycle."])%list).
Proof.
  split; [reflexivity | ].
  exact (only_short_tuples_is_zero_record_success
           keep opaque_repr
           (cycle_with (Ok (PDict [("states", PList [short_state])])))
           log_only_world []
           (PDict [("states", PList [short_state])]) (PList [short_state])
           [short_state]
           eq_refl eq_refl eq_refl eq_refl eq_refl eq_refl eq_refl).
Defined.

(** X16 on the status "Done", to open a run and to close run 1. *)
Lemma invalid_status_is_refused_witness :
  status_check "Done" = false
  /\ log_etl_run "2023-07-22T04:30:00" "Done" 0 None None closed_frame
     = (Raise (Exn IntegrityError
                "CHECK constraint failed: status IN ('Running', 'Success', 'Failure')"),
        closed_frame)
  /\ log_etl_run "2023-07-22T04:30:00" "Done" 0 None (Some 1) closed_frame
     = (Raise (Exn IntegrityError
                "CHECK constraint failed: status IN ('Running', 'Success', 'Failure')"),
        closed_frame).
Proof.
  pose proof (invalid_status_is_refused
                "2023-07-22T04:30:00" "Done" 0 None closed_frame
                (Db (Some []) (Some [closed_run]) 1) [closed_run]
                eq_refl eq_refl eq_refl) as [A B].
  split; [reflexivity | split].
  - exact (A None eq_refl).
  - refine (B 1 closed_run _ (or_introl eq_refl) eq_refl). discriminate.
Defined.

(** X17 on the scenario's response, received again ten minutes later. *)
Lemma replayed_response_inserts_nothing_witness :
  executemany_loop keep [] 0 scenario_records
  = ([scenario_row "2023-07-22T04:26:41"], Ok 1)
  /\ opensky_data
       (disk (snd (fetch_and_append_data
                     keep opaque_repr (cycle_with (Ok scenario_response))
                     fresh_world)))
     = Some [scenario_row "2023-07-22T04:26:41"]
  /\ opensky_data
       (disk (snd (fetch_and_append_data
                     keep opaque_repr
                     (later_cycle_with (Ok scenario_response))
                     (snd (fetch_and_append_data
                             keep opaque_repr
                             (cycle_with (Ok scenario_response))
                             fresh_world)))))
     = Some [scenario_row "2023-07-22T04:26:41"]
  /\ exists id2,
      etl_log
        (disk (snd (fetch_and_append_data
                      keep opaque_repr
                      (later_cycle_with (Ok scenario_response))
                      (snd (fetch_and_append_data
                              keep opaque_repr
                              (cycle_with (Ok scenario_response))
                              fresh_world)))))
      = Some ([] ++ [closed_row (next_run_id 0 [])
                                "2023-07-22T04:26:40" "2023-07-22T04:26:42" 1
                                "Success" None;
                     closed_row id2
                                "2023-07-22T04:36:40" "2023-07-22T04:36:42" 0
                                "Success" None])%list.
Proof.
  split; [reflexivity | ].
  exact (replayed_response_inserts_nothing
           keep opaque_repr
           (cycle_with (Ok scenario_response))
           (later_cycle_with (Ok scenario_response))
           fresh_world [] [] [scenario_row "2023-07-22T04:26:41"]
           scenario_response (PList [scenario_state]) [scenario_state]
           scenario_records 1
           eq_refl eq_refl eq_refl eq_refl eq_refl eq_refl eq_refl eq_refl
           eq_refl eq_refl eq_refl).
Defined.

(** X18 on the scenario's cycle. *)
Lemma every_valid_record_is_stored_witness :
  forallb bindable scenario_records = true
  /\ exists tbl',
      opensky_data
        (disk (snd (fetch_and_append_data
                      keep opaque_repr (cycle_with (Ok scenario_response))
                      fresh_world)))
      = Some tbl'
      /\ forall record vals,
          In record scenario_records ->
          bind_params 18 record = Ok vals ->
          violates_not_null opensky_columns
                            (store_row keep opensky_columns vals) = false ->
          exists r,
            In r tbl'
            /\ same_key (store_row keep opensky_columns vals) r = true.
Proof.
  split; [reflexivity | ].
  exact (every_valid_record_is_stored
           keep opaque_repr (cycle_with (Ok scenario_response)) fresh_world
           [] [] scenario_response (PList [scenario_state]) [scenario_state]
           scenario_records
           eq_refl eq_refl eq_refl eq_refl eq_refl eq_refl eq_refl eq_refl
           eq_refl).
Defined.

(** X19 on a new database and a job of two cycles. *)
Lemma stored_observations_stay_complete_witness :
  Forall row_ok (rows (opensky_data (disk fresh_world)))
  /\ Forall row_ok
            (rows (opensky_data
                     (disk (snd (run_job
                                   keep opaque_repr 2
                                   (fun _ => cycle_with (Ok scenario_response))
                                   fresh_world))))).
Proof.
  assert (F : Forall row_ok (rows (opensky_data (disk fresh_world))))
    by constructor.
  split; [exact F | ].
  exact (proj2 (stored_observations_stay_complete
                  keep opaque_repr 2
                  (fun _ => cycle_with (Ok scenario_response)) fresh_world F)).
Defined.
End CoverageInstances.
